(** * md-scanner: the adaptive coaching engine

    A shallow embedding of [md_scanner/learning]:
    - [behavior_tracker.py]   (module [behavior_tracker]),
    - [difficulty_detector.py] (module [difficulty_detector]),
    - [suggestion_engine.py]  (module [suggestion_engine]),
    - [adaptive_coach.py]     (module [adaptive_coach]),
    followed by the properties of the orchestrator and of the assessors.

    Conventions of the embedding.
    - Python [float]s are exact rationals ([Q]); the decimal literals of the
      source are the same decimal literals here.
    - An instant ([datetime]) is an integer count of microseconds; every
      method reads the clock once, the reading is its argument [now].
    - [random.random()] is an argument [rnd] of the method that draws it.
    - A method runs in the monad [M S]: it threads the mutable objects [S]
      and ends with [Return v], [Raise e] (a Python exception leaves the
      method; what was mutated before stays mutated) or [Untyped] (the
      Python call goes on with a value of a shape the typed records of this
      file do not describe).
    - Python dictionaries keyed by skill or access type are [gmap string _];
      dictionaries whose iteration order is read are association lists. *)

From Stdlib Require Import ZArith QArith Qminmax Qround Lqa Lia Ascii String.
From stdpp Require Import gmap strings list pretty sorting.

Set Warnings "-register-all".

(** ** Numbers *)

Definition Qltb (x y : Q) : bool := negb (Qle_bool y x).
Definition Qgtb (x y : Q) : bool := Qltb y x.
Definition Qofnat (n : nat) : Q := inject_Z (Z.of_nat n).

(** [l[-n:]] for a positive [n]. *)
Definition last_n {A} (n : nat) (l : list A) : list A := drop (length l - n) l.

(** [sum(xs) ] over floats. *)
Definition Qsum (xs : list Q) : Q := foldr Qplus 0%Q xs.

(** ** Outcomes and the method monad *)

Inductive exn : Set :=
  | AttributeError | KeyError | TypeError | PermissionError | UnicodeDecodeError.

Inductive outcome (A : Type) : Type :=
  | Return (a : A)
  | Raise (e : exn)
  | Untyped.
Arguments Return {A} a.
Arguments Raise {A} e.
Arguments Untyped {A}.

Definition M (S A : Type) : Type := S -> outcome A * S.

Definition ret {S A} (a : A) : M S A := fun s => (Return a, s).
Definition raise {S A} (e : exn) : M S A := fun s => (Raise e, s).
Definition untyped {S A} : M S A := fun s => (Untyped, s).
Definition bind {S A B} (c : M S A) (k : A -> M S B) : M S B :=
  fun s => match c s with
           | (Return a, s') => k a s'
           | (Raise e, s') => (Raise e, s')
           | (Untyped, s') => (Untyped, s')
           end.
Definition get {S} : M S S := fun s => (Return s, s).
Definition gets {S A} (f : S -> A) : M S A := fun s => (Return (f s), s).
Definition modify {S} (f : S -> S) : M S unit := fun s => (Return tt, f s).
Definition lift_outcome {S A} (o : outcome A) : M S A := fun s => (o, s).

#[global] Instance M_ret {S} : MRet (M S) := fun A a => ret a.
#[global] Instance M_bind {S} : MBind (M S) := fun A B k c => bind c k.

(** [for x in xs: body x] *)
Fixpoint for_each {S A} (xs : list A) (body : A -> M S unit) : M S unit :=
  match xs with
  | [] => ret tt
  | x :: xs' => bind (body x) (fun _ => for_each xs' body)
  end.

(** ** JSON documents and the files that hold them *)

Inductive json : Type :=
  | JNull
  | JBool (b : bool)
  | JInt (n : Z)
  | JFloat (x : Q)
  | JStr (s : string)
  | JArr (items : list json)
  | JObj (members : gmap string json).

(** What [path.exists()], [open] and [json.load] find at a path. *)
Inductive file : Type :=
  | Absent                 (* no such file *)
  | Unreadable             (* exists, [open] raises PermissionError *)
  | NotText                (* exists, its bytes are not UTF-8 text *)
  | NotJson                (* text that [json.load] rejects *)
  | Document (j : json).   (* text that parses to [j] *)

(** A file whose JSON content is held decoded: [Encoded a] is the document
    [json.dump] writes for the typed value [a]; [OtherJson j] is any
    document that is not of that shape. *)
Inductive stored (A : Type) : Type :=
  | SAbsent | SUnreadable | SNotText | SNotJson
  | Encoded (a : A)
  | OtherJson (j : json).
Arguments SAbsent {A}.
Arguments SUnreadable {A}.
Arguments SNotText {A}.
Arguments SNotJson {A}.
Arguments Encoded {A} a.
Arguments OtherJson {A} j.

(** ** The Python runtime the engine calls into *)

Class PyRuntime : Type := {
  isoformat : Z -> string;              (* datetime.isoformat() *)
  session_digest : Z -> string;         (* md5(f"{now}-{pid}").hexdigest()[:12] *)
  Path_parts : string -> list string;   (* Path(p).parts *)
  Path_parent : string -> string;       (* str(Path(p).parent) *)
  Path_suffix_lower : string -> string; (* Path(p).suffix.lower() *)
  format_percent : Q -> string;         (* f"{x:.0%}" *)
  format_fixed1 : Q -> string;          (* f"{x:.1f}" *)
}.

(** Truth value of an [Optional[str]]. *)
Definition truthy (o : option string) : bool :=
  match o with
  | Some s => negb (String.eqb s "")
  | None => false
  end.

Definition MICROSECOND : Z := 1.
Definition SECOND : Z := 1000000.
Definition MINUTE : Z := 60 * SECOND.
Definition DAY : Z := 86400 * SECOND.

(** ** Strings as the tracker reads them (ASCII file names) *)

Definition isdigit (c : ascii) : bool :=
  let n := nat_of_ascii c in (48 <=? n)%nat && (n <=? 57)%nat.
Definition isupper (c : ascii) : bool :=
  let n := nat_of_ascii c in (65 <=? n)%nat && (n <=? 90)%nat.
Definition lower_char (c : ascii) : ascii :=
  if isupper c then ascii_of_nat (nat_of_ascii c + 32) else c.
Fixpoint lower (s : string) : string :=
  match s with
  | EmptyString => EmptyString
  | String c s' => String (lower_char c) (lower s')
  end.
Definition chars (s : string) : list ascii := list_ascii_of_string s.
(** [c in s] *)
Definition contains (c : ascii) (s : string) : bool := existsb (Ascii.eqb c) (chars s).
(** [s.split(c)[0]] *)
Fixpoint before (c : ascii) (s : string) : string :=
  match s with
  | EmptyString => EmptyString
  | String d s' => if Ascii.eqb c d then EmptyString else String d (before c s')
  end.
(** [s[1:]] *)
Definition tail_str (s : string) : string :=
  match s with
  | EmptyString => EmptyString
  | String _ s' => s'
  end.

(** * behavior_tracker.py *)

Module behavior_tracker.

Module SearchEvent.
Record t : Type := {
  timestamp : Z;
  query : string;
  results_count : Z;
  clicked_result : option string;
  time_to_click_ms : option Z;
  refined_query : option string;
  session_id : string;
}.
End SearchEvent.

Module FileAccessEvent.
Record t : Type := {
  timestamp : Z;
  file_path : string;
  file_type : string;
  access_type : string;
  previous_name : option string;
  new_name : option string;
  source_path : option string;
  dest_path : option string;
  session_id : string;
}.
End FileAccessEvent.

Module NavigationEvent.
Record t : Type := {
  timestamp : Z;
  path : string;
  time_spent_seconds : Q;
  files_viewed : Z;
  action_taken : string;
  session_id : string;
}.
End NavigationEvent.

Module OrganizationDecision.
Record t : Type := {
  timestamp : Z;
  decision_type : string;
  suggested_value : option string;
  user_value : string;
  file_path : string;
  context : gmap string json;
}.
End OrganizationDecision.

Module UserSession.
Record t : Type := {
  session_id : string;
  start_time : Z;
  end_time : option Z;
  searches : list SearchEvent.t;
  file_accesses : list FileAccessEvent.t;
  navigation : list NavigationEvent.t;
  decisions : list OrganizationDecision.t;
}.
End UserSession.

(** [self.events]: the four lists under their keys. *)
Record Events : Type := {
  searches : list SearchEvent.t;
  file_accesses : list FileAccessEvent.t;
  navigation : list NavigationEvent.t;
  decisions : list OrganizationDecision.t;
}.

(** [self.stats] *)
Record Stats : Type := {
  total_searches : Z;
  successful_searches : Z;
  total_files_accessed : Z;
  renames_performed : Z;
  suggestions_accepted : Z;
  suggestions_rejected : Z;
  suggestions_customized : Z;
  first_seen : option Z;
  last_seen : option Z;
  skill_scores : gmap string Q;
}.

Record t : Type := {
  events : Events;
  sessions : list UserSession.t;
  stats : Stats;
  current_session : option UserSession.t;
}.

(** [behavior_events.json], [sessions.json], [user_stats.json] *)
Record Files : Type := {
  events_file : stored Events;
  sessions_file : stored (list UserSession.t);
  stats_file : stored Stats;
}.

Definition default_events : Events :=
  {| searches := []; file_accesses := []; navigation := []; decisions := [] |}.

Definition default_stats : Stats :=
  {| total_searches := 0; successful_searches := 0; total_files_accessed := 0;
     renames_performed := 0; suggestions_accepted := 0; suggestions_rejected := 0;
     suggestions_customized := 0; first_seen := None; last_seen := None;
     skill_scores := ∅ |}.

(** The names a [BehaviorTracker] instance answers to: the fields bound in
    [__init__] and [_load_data] and the methods of the class. *)
Definition attributes : list string :=
  [ "data_dir"; "events_file"; "sessions_file"; "stats_file"; "current_session";
    "events"; "sessions"; "stats";
    "_load_data"; "_load_json"; "_save_data"; "_generate_session_id";
    "start_session"; "end_session";
    "record_search"; "record_file_access"; "record_navigation"; "record_decision";
    "get_search_patterns"; "get_file_patterns"; "get_naming_preferences";
    "get_suggestion_effectiveness"; "_calculate_success_rate";
    "clear_all_data"; "export_data"; "get_summary"; "_calculate_days_active" ]%string.

(** [_load_json]: any failure of [open] or [json.load] gives the default. *)
Definition _load_json {A} (path : stored A) (default : A) : outcome A :=
  match path with
  | SAbsent => Return default
  | SUnreadable | SNotText | SNotJson => Return default
  | Encoded a => Return a
  | OtherJson _ => Untyped
  end.

(** [__init__] with [_load_data] *)
Definition __init__ (fs : Files) : outcome t :=
  match _load_json (events_file fs) default_events,
        _load_json (sessions_file fs) [],
        _load_json (stats_file fs) default_stats with
  | Return ev, Return ss, Return st =>
      Return {| events := ev; sessions := ss; stats := st; current_session := None |}
  | Raise e, _, _ | Return _, Raise e, _ | Return _, Return _, Raise e => Raise e
  | _, _, _ => Untyped
  end.

(** State of the methods that write: the object and its three files. *)
Definition St : Type := t * Files.

(** [_save_data]: the three files then hold the events, the sessions and
    the counters.  A file is kept as the value it encodes ([Encoded]); the
    text that [json.dump] writes and [json.load] parses is not modelled. *)
Definition _save_data : M St unit :=
  modify (fun '(self, _) =>
    (self, {| events_file := Encoded (events self);
              sessions_file := Encoded (sessions self);
              stats_file := Encoded (stats self) |})).

Section methods.
Context {py : PyRuntime}.

Definition _generate_session_id (now : Z) : string := session_digest now.

Definition set_stats (f : Stats -> Stats) (self : t) : t :=
  {| events := events self; sessions := sessions self; stats := f (stats self);
     current_session := current_session self |}.
Definition set_events (f : Events -> Events) (self : t) : t :=
  {| events := f (events self); sessions := sessions self; stats := stats self;
     current_session := current_session self |}.
Definition set_current_session (o : option UserSession.t) (self : t) : t :=
  {| events := events self; sessions := sessions self; stats := stats self;
     current_session := o |}.

Definition start_session (now : Z) : M St string :=
  let session_id := _generate_session_id now in
  modify (fun '(self, fs) =>
    let self := set_current_session (Some
      {| UserSession.session_id := session_id; UserSession.start_time := now;
         UserSession.end_time := None; UserSession.searches := [];
         UserSession.file_accesses := []; UserSession.navigation := [];
         UserSession.decisions := [] |}) self in
    (set_stats (fun st =>
       {| total_searches := total_searches st;
          successful_searches := successful_searches st;
          total_files_accessed := total_files_accessed st;
          renames_performed := renames_performed st;
          suggestions_accepted := suggestions_accepted st;
          suggestions_rejected := suggestions_rejected st;
          suggestions_customized := suggestions_customized st;
          first_seen := match first_seen st with Some d => Some d | None => Some now end;
          last_seen := Some now;
          skill_scores := skill_scores st |}) self, fs));;
  ret session_id.

Definition end_session (now : Z) : M St unit :=
  '(self, _) ← get;
  match current_session self with
  | Some cs =>
      let ended :=
        {| UserSession.session_id := UserSession.session_id cs;
           UserSession.start_time := UserSession.start_time cs;
           UserSession.end_time := Some now;
           UserSession.searches := UserSession.searches cs;
           UserSession.file_accesses := UserSession.file_accesses cs;
           UserSession.navigation := UserSession.navigation cs;
           UserSession.decisions := UserSession.decisions cs |} in
      modify (fun '(self, fs) =>
        ({| events := events self; sessions := sessions self ++ [ended];
            stats := stats self; current_session := None |}, fs));;
      _save_data
  | None => ret tt
  end.

(** [if not self.current_session: self.start_session()], then the open session. *)
Definition ensure_session (now : Z) : M St UserSession.t :=
  '(self, _) ← get;
  match current_session self with
  | Some cs => ret cs
  | None =>
      start_session now;;
      '(self, _) ← get;
      match current_session self with
      | Some cs => ret cs
      | None => raise AttributeError
      end
  end.

Definition append_session_search (e : SearchEvent.t) (cs : UserSession.t) : UserSession.t :=
  {| UserSession.session_id := UserSession.session_id cs;
     UserSession.start_time := UserSession.start_time cs;
     UserSession.end_time := UserSession.end_time cs;
     UserSession.searches := UserSession.searches cs ++ [e];
     UserSession.file_accesses := UserSession.file_accesses cs;
     UserSession.navigation := UserSession.navigation cs;
     UserSession.decisions := UserSession.decisions cs |}.
Definition append_session_access (e : FileAccessEvent.t) (cs : UserSession.t) : UserSession.t :=
  {| UserSession.session_id := UserSession.session_id cs;
     UserSession.start_time := UserSession.start_time cs;
     UserSession.end_time := UserSession.end_time cs;
     UserSession.searches := UserSession.searches cs;
     UserSession.file_accesses := UserSession.file_accesses cs ++ [e];
     UserSession.navigation := UserSession.navigation cs;
     UserSession.decisions := UserSession.decisions cs |}.
Definition append_session_navigation (e : NavigationEvent.t) (cs : UserSession.t) : UserSession.t :=
  {| UserSession.session_id := UserSession.session_id cs;
     UserSession.start_time := UserSession.start_time cs;
     UserSession.end_time := UserSession.end_time cs;
     UserSession.searches := UserSession.searches cs;
     UserSession.file_accesses := UserSession.file_accesses cs;
     UserSession.navigation := UserSession.navigation cs ++ [e];
     UserSession.decisions := UserSession.decisions cs |}.
Definition append_session_decision (e : OrganizationDecision.t) (cs : UserSession.t) : UserSession.t :=
  {| UserSession.session_id := UserSession.session_id cs;
     UserSession.start_time := UserSession.start_time cs;
     UserSession.end_time := UserSession.end_time cs;
     UserSession.searches := UserSession.searches cs;
     UserSession.file_accesses := UserSession.file_accesses cs;
     UserSession.navigation := UserSession.navigation cs;
     UserSession.decisions := UserSession.decisions cs ++ [e] |}.

Definition bump_stats (d_searches d_successful d_files d_renames
                       d_accepted d_rejected d_customized : Z) (st : Stats) : Stats :=
  {| total_searches := total_searches st + d_searches;
     successful_searches := successful_searches st + d_successful;
     total_files_accessed := total_files_accessed st + d_files;
     renames_performed := renames_performed st + d_renames;
     suggestions_accepted := suggestions_accepted st + d_accepted;
     suggestions_rejected := suggestions_rejected st + d_rejected;
     suggestions_customized := suggestions_customized st + d_customized;
     first_seen := first_seen st; last_seen := last_seen st;
     skill_scores := skill_scores st |}.

Definition on_self (f : t -> t) : M St unit := modify (fun '(self, fs) => (f self, fs)).

Definition record_search (now : Z) (query : string) (results_count : Z)
    (clicked_result : option string) (time_to_click_ms : option Z)
    (refined_query : option string) : M St unit :=
  cs ← ensure_session now;
  let event :=
    {| SearchEvent.timestamp := now; SearchEvent.query := query;
       SearchEvent.results_count := results_count;
       SearchEvent.clicked_result := clicked_result;
       SearchEvent.time_to_click_ms := time_to_click_ms;
       SearchEvent.refined_query := refined_query;
       SearchEvent.session_id := UserSession.session_id cs |} in
  on_self (set_current_session (Some (append_session_search event cs)));;
  on_self (set_events (fun ev =>
    {| searches := searches ev ++ [event]; file_accesses := file_accesses ev;
       navigation := navigation ev; decisions := decisions ev |}));;
  on_self (set_stats (bump_stats 1 (if truthy clicked_result then 1 else 0) 0 0 0 0 0));;
  _save_data.

Definition record_file_access (now : Z) (file_path access_type : string)
    (previous_name new_name source_path dest_path : option string) : M St unit :=
  cs ← ensure_session now;
  let file_type :=
    if String.eqb file_path "" then "unknown"%string else Path_suffix_lower file_path in
  let event :=
    {| FileAccessEvent.timestamp := now; FileAccessEvent.file_path := file_path;
       FileAccessEvent.file_type := file_type;
       FileAccessEvent.access_type := access_type;
       FileAccessEvent.previous_name := previous_name;
       FileAccessEvent.new_name := new_name;
       FileAccessEvent.source_path := source_path;
       FileAccessEvent.dest_path := dest_path;
       FileAccessEvent.session_id := UserSession.session_id cs |} in
  on_self (set_current_session (Some (append_session_access event cs)));;
  on_self (set_events (fun ev =>
    {| searches := searches ev; file_accesses := file_accesses ev ++ [event];
       navigation := navigation ev; decisions := decisions ev |}));;
  on_self (set_stats
    (bump_stats 0 0 1 (if String.eqb access_type "rename" then 1 else 0) 0 0 0));;
  _save_data.

Definition record_navigation (now : Z) (path : string) (time_spent_seconds : Q)
    (files_viewed : Z) (action_taken : string) : M St unit :=
  cs ← ensure_session now;
  let event :=
    {| NavigationEvent.timestamp := now; NavigationEvent.path := path;
       NavigationEvent.time_spent_seconds := time_spent_seconds;
       NavigationEvent.files_viewed := files_viewed;
       NavigationEvent.action_taken := action_taken;
       NavigationEvent.session_id := UserSession.session_id cs |} in
  on_self (set_current_session (Some (append_session_navigation event cs)));;
  on_self (set_events (fun ev =>
    {| searches := searches ev; file_accesses := file_accesses ev;
       navigation := navigation ev ++ [event]; decisions := decisions ev |}));;
  _save_data.

Definition record_decision (now : Z) (decision_type user_value file_path : string)
    (suggested_value : option string) (context : option (gmap string json)) : M St unit :=
  cs ← ensure_session now;
  let decision :=
    {| OrganizationDecision.timestamp := now;
       OrganizationDecision.decision_type := decision_type;
       OrganizationDecision.suggested_value := suggested_value;
       OrganizationDecision.user_value := user_value;
       OrganizationDecision.file_path := file_path;
       OrganizationDecision.context := default ∅ context |} in
  on_self (set_current_session (Some (append_session_decision decision cs)));;
  on_self (set_events (fun ev =>
    {| searches := searches ev; file_accesses := file_accesses ev;
       navigation := navigation ev; decisions := decisions ev ++ [decision] |}));;
  on_self (set_stats
    (if String.eqb decision_type "approve_suggestion" then bump_stats 0 0 0 0 1 0 0
     else if String.eqb decision_type "reject_suggestion" then bump_stats 0 0 0 0 0 1 0
     else if String.eqb decision_type "custom_name" then bump_stats 0 0 0 0 0 0 1
     else fun st => st));;
  _save_data.

End methods.

(** *** Analytics (read only) *)

Definition _calculate_success_rate (searches : list SearchEvent.t) : Q :=
  match searches with
  | [] => 0.0
  | _ =>
      Qofnat (length (List.filter (fun s => truthy (SearchEvent.clicked_result s)) searches))
      / Qofnat (length searches)
  end%Q.

Module SearchPatterns.
  (** [common_terms] (word frequencies of the queries) is read by no method
      of the engine and is left out. *)
Record t : Type := {
  total_searches : nat;
  failed_queries : list string;
  search_refinements : list (string * string);
  success_rate : Q;
}.
End SearchPatterns.

Definition get_search_patterns (self : t) (now : Z) (days : Z) : SearchPatterns.t :=
  let cutoff := (now - days * DAY)%Z in
  let recent_searches :=
    List.filter (fun s => (cutoff <? SearchEvent.timestamp s)%Z) (searches (events self)) in
  let failed_queries :=
    SearchEvent.query <$>
      List.filter (fun s => negb (truthy (SearchEvent.clicked_result s))) recent_searches in
  let refined_searches :=
    omap (fun s => if truthy (SearchEvent.refined_query s)
                   then Some (SearchEvent.query s, default ""%string (SearchEvent.refined_query s))
                   else None) recent_searches in
  {| SearchPatterns.total_searches := length recent_searches;
     SearchPatterns.failed_queries := last_n 10 failed_queries;
     SearchPatterns.search_refinements := last_n 10 refined_searches;
     SearchPatterns.success_rate := _calculate_success_rate recent_searches |}.

(** A [defaultdict(int)] filled by [counts[k] += 1]. *)
Definition count_keys (keys : list string) : gmap string nat :=
  foldl (fun m k => <[k := S (default 0%nat (m !! k))]> m) ∅ keys.

Module FilePatterns.
Record t : Type := {
  total_accesses : nat;
  by_file_type : gmap string nat;
  by_access_type : gmap string nat;
  recent_renames : list (option string * option string * string);
}.
End FilePatterns.

Definition get_file_patterns (self : t) (now : Z) (days : Z) : FilePatterns.t :=
  let cutoff := (now - days * DAY)%Z in
  let recent_accesses :=
    List.filter (fun a => (cutoff <? FileAccessEvent.timestamp a)%Z)
                (file_accesses (events self)) in
  let renames :=
    (fun a => (FileAccessEvent.previous_name a, FileAccessEvent.new_name a,
               FileAccessEvent.file_path a)) <$>
      List.filter (fun a => String.eqb (FileAccessEvent.access_type a) "rename")
                  recent_accesses in
  {| FilePatterns.total_accesses := length recent_accesses;
     FilePatterns.by_file_type := count_keys (FileAccessEvent.file_type <$> recent_accesses);
     FilePatterns.by_access_type := count_keys (FileAccessEvent.access_type <$> recent_accesses);
     FilePatterns.recent_renames := last_n 10 renames |}.

Module Patterns.
Record t : Type := {
  uses_dates : nat;
  uses_underscores : nat;
  uses_hyphens : nat;
  uses_camelCase : nat;
  uses_lowercase : nat;
  uses_prefixes : list (string * nat);   (* [{'prefix': k, 'count': v}] *)
  average_length : Q;
  primary_separator : string;
  date_frequency : Q;
}.
End Patterns.

Module NamingPreferences.
Record t : Type := {
  learned_patterns : option Patterns.t;
  sample_size : nat;
}.
End NamingPreferences.

(** The renames that carry a new name. *)
Definition renames (self : t) : list FileAccessEvent.t :=
  List.filter (fun a => String.eqb (FileAccessEvent.access_type a) "rename"
                        && truthy (FileAccessEvent.new_name a))
              (file_accesses (events self)).

(** [prefixes[prefix] += 1] on a dictionary that keeps insertion order. *)
Fixpoint bump (k : string) (d : list (string * nat)) : list (string * nat) :=
  match d with
  | [] => [(k, 1%nat)]
  | (k', n) :: d' => if String.eqb k k' then (k', S n) :: d' else (k', n) :: bump k d'
  end.

(** The prefix a name contributes: the text before the first of ['_'], ['-'],
    [' '] that occurs in it, when shorter than 15. *)
Definition name_prefix (name : string) : option string :=
  let try_sep (sep : ascii) := if contains sep name then Some (before sep name) else None in
  match try_sep "_"%char with
  | Some p => if (String.length p <? 15)%nat then Some p else None
  | None =>
    match try_sep "-"%char with
    | Some p => if (String.length p <? 15)%nat then Some p else None
    | None =>
      match try_sep " "%char with
      | Some p => if (String.length p <? 15)%nat then Some p else None
      | None => None
      end
    end
  end.

(** [sorted(items, key=lambda x: -x[1])], stable. *)
Fixpoint insert_by_count (x : string * nat) (sorted : list (string * nat)) :=
  match sorted with
  | [] => [x]
  | y :: rest => if (snd y <? snd x)%nat then x :: y :: rest
                 else y :: insert_by_count x rest
  end.
Definition sort_by_count_desc (items : list (string * nat)) : list (string * nat) :=
  foldl (fun acc x => insert_by_count x acc) [] items.

Definition count_if {A} (p : A -> bool) (l : list A) : nat := length (List.filter p l).

Definition get_naming_preferences (self : t) : NamingPreferences.t :=
  let rs := renames self in
  match rs with
  | [] => {| NamingPreferences.learned_patterns := None;
             NamingPreferences.sample_size := 0 |}
  | _ =>
    let names := (fun a => default ""%string (FileAccessEvent.new_name a)) <$> rs in
    let uses_dates :=
      count_if (fun name => existsb isdigit (chars name)
                            && (4 <=? count_if isdigit (chars name))%nat) names in
    let uses_underscores := count_if (contains "_"%char) names in
    let uses_hyphens := count_if (contains "-"%char) names in
    let uses_lowercase := count_if (fun name => String.eqb name (lower name)) names in
    let uses_camelCase :=
      count_if (fun name => existsb isupper (chars (tail_str name))) names in
    let prefixes :=
      foldl (fun d name => match name_prefix name with
                           | Some p => bump p d
                           | None => d
                           end) [] names in
    let lengths := String.length <$> names in
    let total := length rs in
    {| NamingPreferences.learned_patterns := Some
         {| Patterns.uses_dates := uses_dates;
            Patterns.uses_underscores := uses_underscores;
            Patterns.uses_hyphens := uses_hyphens;
            Patterns.uses_camelCase := uses_camelCase;
            Patterns.uses_lowercase := uses_lowercase;
            Patterns.uses_prefixes := take 5 (sort_by_count_desc prefixes);
            Patterns.average_length :=
              (Qsum (Qofnat <$> lengths) / Qofnat (length lengths))%Q;
            Patterns.primary_separator :=
              if (uses_hyphens <? uses_underscores)%nat then "underscore" else "hyphen";
            Patterns.date_frequency := (Qofnat uses_dates / Qofnat total)%Q |};
       NamingPreferences.sample_size := length rs |}
  end.

Module SuggestionEffectiveness.
Record t : Type := {
  total_suggestions : Z;
  acceptance_rate : Q;
  rejection_rate : Q;
  customization_rate : Q;
  effective : option bool;
}.
End SuggestionEffectiveness.

Definition get_suggestion_effectiveness (self : t) : SuggestionEffectiveness.t :=
  let accepted := suggestions_accepted (stats self) in
  let rejected := suggestions_rejected (stats self) in
  let customized := suggestions_customized (stats self) in
  let total := (accepted + rejected + customized)%Z in
  if (total =? 0)%Z then
    {| SuggestionEffectiveness.total_suggestions := 0;
       SuggestionEffectiveness.acceptance_rate := 0;
       SuggestionEffectiveness.rejection_rate := 0;
       SuggestionEffectiveness.customization_rate := 0;
       SuggestionEffectiveness.effective := None |}
  else
    {| SuggestionEffectiveness.total_suggestions := total;
       SuggestionEffectiveness.acceptance_rate := (inject_Z accepted / inject_Z total)%Q;
       SuggestionEffectiveness.rejection_rate := (inject_Z rejected / inject_Z total)%Q;
       SuggestionEffectiveness.customization_rate := (inject_Z customized / inject_Z total)%Q;
       SuggestionEffectiveness.effective :=
         Some (Qgtb (inject_Z (accepted + customized) / inject_Z total) 0.5) |}.

(** *** Data management *)

(** [clear_all_data]: the log, the sessions and the counters are reset and
    written; the open session, if any, stays open. *)
Definition clear_all_data : M St unit :=
  on_self (fun self =>
    {| events := default_events; sessions := []; stats := default_stats;
       current_session := current_session self |});;
  _save_data.

(** [(last_dt - first_dt).days + 1], or 0 when a date is missing. *)
Definition _calculate_days_active (self : t) : Z :=
  match first_seen (stats self), last_seen (stats self) with
  | Some first, Some last => ((last - first) `div` DAY + 1)%Z
  | _, _ => 0%Z
  end.

Module Summary.
Record t : Type := {
  total_searches : Z;
  search_success_rate : Q;
  files_accessed : Z;
  renames : Z;
  suggestion_acceptance : SuggestionEffectiveness.t;
  naming_preferences : NamingPreferences.t;
  first_seen : option Z;
  last_seen : option Z;
  days_active : Z;
}.
End Summary.

Definition get_summary (self : t) : Summary.t :=
  {| Summary.total_searches := total_searches (stats self);
     Summary.search_success_rate :=
       (inject_Z (successful_searches (stats self))
        / inject_Z (Z.max (total_searches (stats self)) 1))%Q;
     Summary.files_accessed := total_files_accessed (stats self);
     Summary.renames := renames_performed (stats self);
     Summary.suggestion_acceptance := get_suggestion_effectiveness self;
     Summary.naming_preferences := get_naming_preferences self;
     Summary.first_seen := first_seen (stats self);
     Summary.last_seen := last_seen (stats self);
     Summary.days_active := _calculate_days_active self |}.

End behavior_tracker.

(** ** Dictionaries built at run time *)

(** [d[k]] *)
Definition subscript (d : gmap string json) (k : string) : outcome json :=
  match d !! k with
  | Some v => Return v
  | None => Raise KeyError
  end.

(** [s.replace('_', ' ')] *)
Fixpoint replace_underscores (s : string) : string :=
  match s with
  | EmptyString => EmptyString
  | String c s' =>
      String (if Ascii.eqb c "_"%char then " "%char else c) (replace_underscores s')
  end.

(** * difficulty_detector.py *)

Module difficulty_detector.

Module SkillAssessment.
Record t : Type := {
  skill_name : string;
  score : Q;
  confidence : Q;
  trend : string;
  evidence : list string;
  last_updated : string;
  samples_count : nat;
}.
End SkillAssessment.

Module DifficultyReport.
Record t : Type := {
  overall_skill : Q;
  skills : list (string * SkillAssessment.t);   (* in insertion order *)
  struggles : list (gmap string json);
  improvements : list (gmap string json);
  regressions : list (gmap string json);
  recommendations : list string;
}.
End DifficultyReport.

(** [skills.get(name)] *)
Fixpoint skills_get (name : string) (skills : list (string * SkillAssessment.t))
  : option SkillAssessment.t :=
  match skills with
  | [] => None
  | (k, a) :: rest => if String.eqb name k then Some a else skills_get name rest
  end.

Definition THRESHOLD_STRUGGLING : Q := 0.4.
Definition THRESHOLD_LEARNING : Q := 0.7.
Definition THRESHOLD_PROFICIENT : Q := 0.85.

(** The detector object: [skill_history], a [defaultdict(list)] of
    [{"score", "timestamp"}] entries.  Its [tracker] is the tracker of the
    coach and is passed to the methods. *)
Record t : Type := {
  skill_history : gmap string (list (Q * Z));
}.

Definition __init__ : t := {| skill_history := ∅ |}.

Section methods.
Context {py : PyRuntime}.
Local Open Scope Q_scope.

Definition mean (xs : list Q) : Q := Qsum xs / Qofnat (length xs).

Definition _calculate_trend (now : Z) (skill_name : string) (current_score : Q)
  : M t string :=
  self ← get;
  let history := default [] (skill_history self !! skill_name) ++ [(current_score, now)] in
  modify (fun self =>
    {| skill_history := <[skill_name := last_n 10 history]> (skill_history self) |});;
  if (length history <? 3)%nat then ret "new"%string
  else
    let recent := fst <$> last_n 3 history in
    let older :=
      if (3 <? length history)%nat then fst <$> take (length history - 3) history
      else recent in
    let recent_avg := mean recent in
    let older_avg := mean older in
    let diff := recent_avg - older_avg in
    if Qgtb diff 0.1 then ret "improving"%string
    else if Qltb diff (-0.1) then ret "regressing"%string
    else ret "stable"%string.

Definition neutral (name reason : string) (now : Z) (samples : nat) : SkillAssessment.t :=
  {| SkillAssessment.skill_name := name;
     SkillAssessment.score := 0.5;
     SkillAssessment.confidence := 0.1;
     SkillAssessment.trend := "new";
     SkillAssessment.evidence := [reason];
     SkillAssessment.last_updated := isoformat now;
     SkillAssessment.samples_count := samples |}.

Definition _assess_search_ability (tracker : behavior_tracker.t) (now : Z)
  : M t SkillAssessment.t :=
  let patterns := behavior_tracker.get_search_patterns tracker now 30 in
  let total := behavior_tracker.SearchPatterns.total_searches patterns in
  if (total <? 3)%nat then
    ret (neutral "search_ability" "Not enough search data" now total)
  else
    let success_rate := behavior_tracker.SearchPatterns.success_rate patterns in
    let refinement_rate :=
      Qofnat (length (behavior_tracker.SearchPatterns.search_refinements patterns))
      / Qofnat total in
    let failure_rate :=
      Qofnat (length (behavior_tracker.SearchPatterns.failed_queries patterns))
      / Qofnat total in
    let evidence :=
      [ "Search success rate: " +:+ format_percent success_rate;
        "Search refinement rate: " +:+ format_percent refinement_rate;
        "Abandoned searches: " +:+ format_percent failure_rate ] in
    let score :=
      success_rate * 0.5 + (1 - refinement_rate) * 0.25 + (1 - failure_rate) * 0.25 in
    trend ← _calculate_trend now "search_ability" score;
    ret {| SkillAssessment.skill_name := "search_ability";
           SkillAssessment.score := score;
           SkillAssessment.confidence := Qmin (Qofnat total / 20) 1.0;
           SkillAssessment.trend := trend;
           SkillAssessment.evidence := evidence;
           SkillAssessment.last_updated := isoformat now;
           SkillAssessment.samples_count := total |}.

Definition _assess_naming_consistency (tracker : behavior_tracker.t) (now : Z)
  : M t SkillAssessment.t :=
  let naming_data := behavior_tracker.get_naming_preferences tracker in
  let sample_size := behavior_tracker.NamingPreferences.sample_size naming_data in
  if (sample_size <? 5)%nat then
    ret (neutral "naming_consistency" "Not enough naming data" now sample_size)
  else
    match behavior_tracker.NamingPreferences.learned_patterns naming_data with
    | None => raise AttributeError      (* [None.get] *)
    | Some patterns =>
      let underscore_pct :=
        Qofnat (behavior_tracker.Patterns.uses_underscores patterns) / Qofnat sample_size in
      let hyphen_pct :=
        Qofnat (behavior_tracker.Patterns.uses_hyphens patterns) / Qofnat sample_size in
      let separator_consistency :=
        Qmax (Qmax underscore_pct hyphen_pct) (1 - underscore_pct - hyphen_pct) in
      let lowercase_pct :=
        Qofnat (behavior_tracker.Patterns.uses_lowercase patterns) / Qofnat sample_size in
      let case_consistency := Qmax lowercase_pct (1 - lowercase_pct) in
      let prefixes := behavior_tracker.Patterns.uses_prefixes patterns in
      let has_prefixes :=
        match prefixes with
        | [] => false
        | (_, count) :: _ => (3 <=? count)%nat
        end in
      let evidence :=
        [ "Separator consistency: " +:+ format_percent separator_consistency;
          "Case consistency: " +:+ format_percent case_consistency;
          "Uses category prefixes: " +:+ (if has_prefixes then "Yes" else "No") ] in
      let score :=
        separator_consistency * 0.4 + case_consistency * 0.3
        + (if has_prefixes then 0.3 else 0.15) in
      trend ← _calculate_trend now "naming_consistency" score;
      ret {| SkillAssessment.skill_name := "naming_consistency";
             SkillAssessment.score := score;
             SkillAssessment.confidence := Qmin (Qofnat sample_size / 15) 1.0;
             SkillAssessment.trend := trend;
             SkillAssessment.evidence := evidence;
             SkillAssessment.last_updated := isoformat now;
             SkillAssessment.samples_count := sample_size |}
    end.

(** [folder_to_types]: for each folder the set of file types met in it. *)
Definition folder_types (accesses : list behavior_tracker.FileAccessEvent.t)
  : gmap string (gset string) :=
  foldl (fun m a =>
           let path := behavior_tracker.FileAccessEvent.file_path a in
           if String.eqb path "" then m
           else
             let folder := Path_parent path in
             <[folder := default ∅ (m !! folder)
                         ∪ {[ behavior_tracker.FileAccessEvent.file_type a ]}]> m)
        ∅ accesses.

(** [type_folders]: for each file type the number of folders that hold it. *)
Definition type_folder_counts (folder_to_types : gmap string (gset string))
  : gmap string nat :=
  behavior_tracker.count_keys
    (mjoin ((fun kv => elements (snd kv)) <$> map_to_list folder_to_types)).

Definition _assess_folder_organization (tracker : behavior_tracker.t) (now : Z)
  : M t SkillAssessment.t :=
  let events := behavior_tracker.navigation (behavior_tracker.events tracker) in
  let file_accesses := behavior_tracker.file_accesses (behavior_tracker.events tracker) in
  if (length events <? 5)%nat then
    ret (neutral "folder_organization" "Not enough navigation data" now (length events))
  else
    let avg_nav_time :=
      Qsum (behavior_tracker.NavigationEvent.time_spent_seconds <$> last_n 20 events)
      / Qofnat (Nat.min (length events) 20) in
    let time_score := 1.0 - Qmin (avg_nav_time / 60) 1.0 in
    let paths :=
      List.filter (fun p => negb (String.eqb p ""))
        (behavior_tracker.FileAccessEvent.file_path <$> last_n 50 file_accesses) in
    let avg_depth :=
      Qsum ((fun p => Qofnat (length (Path_parts p))) <$> paths) / Qofnat (length paths) in
    let depth_score :=
      match paths with
      | [] => 0.5
      | _ => 1.0 - Qmin ((avg_depth - 3) / 7) 1.0
      end in
    let folder_to_types := folder_types (last_n 100 file_accesses) in
    let type_folders := type_folder_counts folder_to_types in
    let max_scatter :=
      if decide (type_folders = ∅) then 1%nat
      else max_list (snd <$> map_to_list type_folders) in
    let scatter_score :=
      if decide (folder_to_types = ∅) then 0.5
      else 1.0 - Qmin ((Qofnat max_scatter - 3) / 10) 1.0 in
    let evidence :=
      [ "Avg navigation time: " +:+ format_fixed1 avg_nav_time +:+ "s" ]
      ++ match paths with
         | [] => []
         | _ => [ "Avg folder depth: " +:+ format_fixed1 avg_depth ]
         end
      ++ (if decide (folder_to_types = ∅) then []
          else [ "Max file type scatter: " +:+ pretty max_scatter +:+ " folders" ]) in
    let score := time_score * 0.3 + depth_score * 0.35 + scatter_score * 0.35 in
    trend ← _calculate_trend now "folder_organization" score;
    ret {| SkillAssessment.skill_name := "folder_organization";
           SkillAssessment.score := score;
           SkillAssessment.confidence := Qmin (Qofnat (length events) / 20) 1.0;
           SkillAssessment.trend := trend;
           SkillAssessment.evidence := evidence;
           SkillAssessment.last_updated := isoformat now;
           SkillAssessment.samples_count := length events |}.

Definition _assess_file_management (tracker : behavior_tracker.t) (now : Z)
  : M t SkillAssessment.t :=
  let file_patterns := behavior_tracker.get_file_patterns tracker now 30 in
  let suggestion_effectiveness := behavior_tracker.get_suggestion_effectiveness tracker in
  let total := behavior_tracker.FilePatterns.total_accesses file_patterns in
  if (total <? 5)%nat then
    ret (neutral "file_management" "Not enough file access data" now total)
  else
    let by_access_type := behavior_tracker.FilePatterns.by_access_type file_patterns in
    let renames := default 0%nat (by_access_type !! "rename") in
    let opens := default 1%nat (by_access_type !! "open") in
    let rename_ratio := Qofnat renames / Qofnat (Nat.max opens 1) in
    let rename_score := 1.0 - Qmin (rename_ratio / 0.3) 1.0 in
    let has_suggestions :=
      (0 <? behavior_tracker.SuggestionEffectiveness.total_suggestions
              suggestion_effectiveness)%Z in
    let acceptance :=
      behavior_tracker.SuggestionEffectiveness.acceptance_rate suggestion_effectiveness in
    let customization :=
      behavior_tracker.SuggestionEffectiveness.customization_rate suggestion_effectiveness in
    let suggestion_score :=
      if has_suggestions then acceptance * 0.7 + customization * 0.3 else 0.5 in
    let operation_types :=
      length (List.filter (fun v => (0 <? v)%nat) (snd <$> map_to_list by_access_type)) in
    let variety_score := Qmin (Qofnat operation_types / 4) 1.0 in
    let evidence :=
      [ "Rename ratio: " +:+ format_percent rename_ratio ]
      ++ (if has_suggestions
          then [ "Suggestion acceptance: " +:+ format_percent acceptance;
                 "Suggestion customization: " +:+ format_percent customization ]
          else [])
      ++ [ "Operation variety: " +:+ pretty operation_types +:+ " types" ] in
    let score := rename_score * 0.4 + suggestion_score * 0.35 + variety_score * 0.25 in
    trend ← _calculate_trend now "file_management" score;
    ret {| SkillAssessment.skill_name := "file_management";
           SkillAssessment.score := score;
           SkillAssessment.confidence := Qmin (Qofnat total / 30) 1.0;
           SkillAssessment.trend := trend;
           SkillAssessment.evidence := evidence;
           SkillAssessment.last_updated := isoformat now;
           SkillAssessment.samples_count := total |}.

(** [sorted(struggles, key=lambda x: x["score"])], stable; each entry is
    carried with its score. *)
Fixpoint insert_by_score (x : Q * gmap string json) (sorted : list (Q * gmap string json)) :=
  match sorted with
  | [] => [x]
  | y :: rest => if Qltb (fst x) (fst y) then x :: y :: rest
                 else y :: insert_by_score x rest
  end.
Definition sort_by_score (items : list (Q * gmap string json)) :=
  foldl (fun acc x => insert_by_score x acc) [] items.

Definition _identify_struggles (skills : list (string * SkillAssessment.t))
  : list (gmap string json) :=
  let struggles :=
    omap (fun '(name, assessment) =>
            if Qltb (SkillAssessment.score assessment) THRESHOLD_STRUGGLING
               && Qgtb (SkillAssessment.confidence assessment) 0.3
            then Some (SkillAssessment.score assessment,
                       ({[ "skill" := JStr name;
                           "score" := JFloat (SkillAssessment.score assessment);
                           "evidence" := JArr (JStr <$> SkillAssessment.evidence assessment);
                           "severity" :=
                             JStr (if Qltb (SkillAssessment.score assessment) 0.25
                                   then "high" else "medium") ]} : gmap string json))
            else None) skills in
  snd <$> sort_by_score struggles.

Definition _identify_improvements (skills : list (string * SkillAssessment.t))
  : list (gmap string json) :=
  omap (fun '(name, assessment) =>
          if String.eqb (SkillAssessment.trend assessment) "improving"
          then Some ({[ "skill" := JStr name;
                        "current_score" := JFloat (SkillAssessment.score assessment);
                        "message" :=
                          JStr ("Great progress on " +:+ replace_underscores name +:+ "!") ]}
                     : gmap string json)
          else None) skills.

Definition _identify_regressions (skills : list (string * SkillAssessment.t))
  : list (gmap string json) :=
  omap (fun '(name, assessment) =>
          if String.eqb (SkillAssessment.trend assessment) "regressing"
             && Qgtb (SkillAssessment.confidence assessment) 0.4
          then Some ({[ "skill" := JStr name;
                        "current_score" := JFloat (SkillAssessment.score assessment);
                        "message" :=
                          JStr ("Noticed some regression in " +:+ replace_underscores name
                                +:+ ". Let me help!");
                        "should_increase_suggestions" := JBool true ]}
                     : gmap string json)
          else None) skills.

Definition recommendation_for (skill : json) : list string :=
  match skill with
  | JStr "search_ability" =>
      [ "Try using more specific keywords when searching. I'll show preview snippets to help you identify the right files." ]
  | JStr "naming_consistency" =>
      [ "I noticed varying naming patterns. Consider using a consistent format like: CATEGORY_topic_YYYYMMDD (e.g., NOTES_meeting_20260209)" ]
  | JStr "folder_organization" =>
      [ "Some files seem scattered. Would you like me to suggest a folder structure based on your file types and topics?" ]
  | JStr "file_management" =>
      [ "You're renaming files frequently. I can suggest better names upfront to save you time." ]
  | _ => []
  end%string.

Fixpoint recommend_struggles (struggles : list (gmap string json)) : outcome (list string) :=
  match struggles with
  | [] => Return []
  | struggle :: rest =>
      match subscript struggle "skill" with
      | Return skill =>
          match recommend_struggles rest with
          | Return rs => Return (recommendation_for skill ++ rs)
          | other => other
          end
      | Raise e => Raise e
      | Untyped => Untyped
      end
  end.

Definition _generate_recommendations (skills : list (string * SkillAssessment.t))
    (struggles : list (gmap string json)) : outcome (list string) :=
  match recommend_struggles (take 2 struggles) with
  | Return recommendations =>
      let improving :=
        List.filter (fun s => String.eqb (SkillAssessment.trend s) "improving")
                    (snd <$> skills) in
      Return (recommendations ++
              match improving with
              | [] => []
              | first :: _ =>
                  [ "You're getting better at "
                    +:+ replace_underscores (SkillAssessment.skill_name first)
                    +:+ "! Keep it up." ]
              end)
  | other => other
  end.

Definition assess_all_skills (tracker : behavior_tracker.t) (now : Z)
  : M t DifficultyReport.t :=
  search ← _assess_search_ability tracker now;
  naming ← _assess_naming_consistency tracker now;
  folder ← _assess_folder_organization tracker now;
  files ← _assess_file_management tracker now;
  let skills :=
    [ ("search_ability", search); ("naming_consistency", naming);
      ("folder_organization", folder); ("file_management", files) ]%string in
  let valid_skills :=
    List.filter (fun s => Qgtb (SkillAssessment.confidence s) 0.3) (snd <$> skills) in
  let overall :=
    match valid_skills with
    | [] => 0.5
    | _ =>
        Qsum ((fun s => SkillAssessment.score s * SkillAssessment.confidence s)
                <$> valid_skills)
        / Qsum (SkillAssessment.confidence <$> valid_skills)
    end in
  let struggles := _identify_struggles skills in
  let improvements := _identify_improvements skills in
  let regressions := _identify_regressions skills in
  recommendations ← lift_outcome (_generate_recommendations skills struggles);
  ret {| DifficultyReport.overall_skill := overall;
         DifficultyReport.skills := skills;
         DifficultyReport.struggles := struggles;
         DifficultyReport.improvements := improvements;
         DifficultyReport.regressions := regressions;
         DifficultyReport.recommendations := recommendations |}.

(** [should_show_suggestions(skill_name)]: the pair [(should_show, intensity)]. *)
Definition should_show_suggestions (tracker : behavior_tracker.t) (now : Z)
    (skill_name : string) : M t (bool * Q) :=
  report ← assess_all_skills tracker now;
  match skills_get skill_name (DifficultyReport.skills report) with
  | None => ret (true, 0.5)
  | Some assessment =>
      if String.eqb (SkillAssessment.trend assessment) "new" then ret (true, 0.5)
      else if String.eqb (SkillAssessment.trend assessment) "regressing" then
        let intensity := 1.0 - SkillAssessment.score assessment in
        ret (true, Qmin (intensity * 1.2) 1.0)
      else if Qltb (SkillAssessment.score assessment) THRESHOLD_STRUGGLING then
        let intensity := 1.0 - SkillAssessment.score assessment in
        ret (true, intensity)
      else if Qltb (SkillAssessment.score assessment) THRESHOLD_LEARNING then
        let intensity := (THRESHOLD_LEARNING - SkillAssessment.score assessment) / 0.3 in
        ret (true, intensity)
      else if Qltb (SkillAssessment.score assessment) THRESHOLD_PROFICIENT then
        let intensity := (THRESHOLD_PROFICIENT - SkillAssessment.score assessment) / 0.15 in
        ret (true, intensity * 0.5)
      else ret (false, 0.0)
  end.

(** [get_suggestion_intensity]: the intensity of each skill area, in the
    order of the loop; every round assesses all skills again. *)
Definition get_suggestion_intensity (tracker : behavior_tracker.t) (now : Z)
  : M t (list (string * Q)) :=
  let fix loop (names : list string) : M t (list (string * Q)) :=
    match names with
    | [] => ret []
    | skill :: rest =>
        '(show, intensity) ← should_show_suggestions tracker now skill;
        intensities ← loop rest;
        ret ((skill, if show : bool then intensity else 0.0) :: intensities)
    end in
  loop [ "search_ability"; "naming_consistency"; "folder_organization";
         "file_management" ]%string.

End methods.
End difficulty_detector.

(** * suggestion_engine.py *)

Module suggestion_engine.

Module NamingSuggestion.
Record t : Type := {
  suggested_name : string;
  original_name : string;
  confidence : Q;
  reasoning : string;
  alternatives : list string;
  convention_used : string;
  category : option string;
}.
End NamingSuggestion.

Module FolderSuggestion.
Record t : Type := {
  suggested_path : string;
  original_path : string;
  reasoning : string;
  confidence : Q;
  creates_new_folder : bool;
  moves_to_existing : bool;
}.
End FolderSuggestion.

(** [user_conventions] once something was learned. *)
Module Conventions.
Record t : Type := {
  separator : string;
  uses_dates : bool;
  case_style : string;
  common_prefixes : list string;
  avg_length : Q;
}.
End Conventions.

(** The engine object; [user_conventions] is [None] for the empty dict. *)
Record t : Type := {
  user_conventions : option Conventions.t;
}.

Definition _learn_user_conventions (tracker : behavior_tracker.t) : option Conventions.t :=
  let naming_prefs := behavior_tracker.get_naming_preferences tracker in
  match behavior_tracker.NamingPreferences.learned_patterns naming_prefs with
  | None => None
  | Some patterns =>
      Some {| Conventions.separator :=
                if (behavior_tracker.Patterns.uses_hyphens patterns
                    <? behavior_tracker.Patterns.uses_underscores patterns)%nat
                then "_" else "-";
              Conventions.uses_dates :=
                Qgtb (behavior_tracker.Patterns.date_frequency patterns) 0.3;
              Conventions.case_style :=
                if (behavior_tracker.Patterns.uses_camelCase patterns
                    <? behavior_tracker.Patterns.uses_lowercase patterns)%nat
                then "lowercase" else "camelCase";
              Conventions.common_prefixes :=
                fst <$> behavior_tracker.Patterns.uses_prefixes patterns;
              Conventions.avg_length :=
                behavior_tracker.Patterns.average_length patterns |}
  end.

Definition __init__ (tracker : behavior_tracker.t) : t :=
  {| user_conventions := _learn_user_conventions tracker |}.

(** The branch of [suggest_filename] taken without a content analysis
    (stem and suffix of the path, inferred file type, chosen convention,
    cleaned title, alternatives, category, confidence, reasoning).  It is a
    pipeline over file-name text whose result no property below reads; it
    may raise (a learned average length is a float and is used as a slice
    bound). *)
Class NamingPipeline : Type := {
  suggest_from_path : option Conventions.t -> string -> Z -> outcome NamingSuggestion.t;
}.

Section methods.
Context {naming : NamingPipeline}.

(** [suggest_filename(file_path, content_analysis)] as the coach calls it:
    the second argument is the [Optional[str]] content of the file.  A
    non-empty string is truthy and has no [get]. *)
Definition suggest_filename (self : t) (now : Z) (file_path : string)
    (content_analysis : option string) : outcome NamingSuggestion.t :=
  if truthy content_analysis then Raise AttributeError   (* content_analysis.get("title", "") *)
  else suggest_from_path (user_conventions self) file_path now.

(** [Path(base_directory)] for the [Optional[List[str]]] the coach passes. *)
Definition Path_of_folders (base_directory : option (list string)) : outcome string :=
  Raise TypeError.

(** [suggest_folder(file_path, base_directory)] as the coach calls it: the
    second argument is the list of available folders (or [None]);
    [_analyze_existing_folders] starts with [Path(base_directory)]. *)
Definition suggest_folder (self : t) (file_path : string)
    (base_directory : option (list string)) : outcome FolderSuggestion.t :=
  match Path_of_folders base_directory with
  | Return _ => Untyped
  | Raise e => Raise e
  | Untyped => Untyped
  end.

End methods.
End suggestion_engine.

(** * adaptive_coach.py *)

Module adaptive_coach.

Import difficulty_detector.

Module CoachingSession.
Record t : Type := {
  session_id : string;
  started_at : Z;
  skill_snapshot : list (string * Q);
  suggestions_offered : Z;
  suggestions_accepted : Z;
  suggestions_dismissed : Z;
}.
End CoachingSession.

(** [asdict(suggestion)] *)
Inductive Content : Type :=
  | NamingContent (s : suggestion_engine.NamingSuggestion.t)
  | FolderContent (s : suggestion_engine.FolderSuggestion.t).

Module SuggestionResult.
Record t : Type := {
  suggestion_type : string;
  content : option Content;
  intensity : Q;
  reason : string;
  skill_level : string;
  should_show : bool;
}.
End SuggestionResult.

(** An entry of [CoachingState.skill_history]. *)
Module HistoryEntry.
Record t : Type := {
  date : string;
  score : Q;
  trend : string;
}.
End HistoryEntry.

Module CoachingState.
Record t : Type := {
  total_suggestions_offered : Z;
  total_suggestions_accepted : Z;
  total_suggestions_dismissed : Z;
  last_assessment : option string;
  skill_history : gmap string (list HistoryEntry.t);
  fade_out_overrides : gmap string bool;
}.
Definition default : t :=
  {| total_suggestions_offered := 0; total_suggestions_accepted := 0;
     total_suggestions_dismissed := 0; last_assessment := None;
     skill_history := ∅; fade_out_overrides := ∅ |}.
End CoachingState.

Definition INTENSITY_FULL : Q := 1.0.
Definition INTENSITY_REGULAR : Q := 0.7.
Definition INTENSITY_OCCASIONAL : Q := 0.3.
Definition INTENSITY_MINIMAL : Q := 0.1.
Definition INTENSITY_NONE : Q := 0.0.

Definition SKILL_STRUGGLING : Q := 0.4.
Definition SKILL_LEARNING : Q := 0.7.
Definition SKILL_PROFICIENT : Q := 0.85.

(** The coach object. *)
Record t : Type := {
  tracker : behavior_tracker.t;
  detector : difficulty_detector.t;
  suggester : suggestion_engine.t;
  state : CoachingState.t;
  current_session : option CoachingSession.t;
  _cached_report : option DifficultyReport.t;
  _cache_time : option Z;
}.
Definition _cache_duration : Z := 5 * MINUTE.

(** The data directory: the tracker's files and [coaching_state.json]. *)
Record Disk : Type := {
  tracker_files : behavior_tracker.Files;
  state_file : file;
}.

(** What a method of the coach can touch. *)
Record World : Type := {
  self : t;
  disk : Disk;
}.

(** *** Intensity *)

Definition _calculate_intensity (assessment : SkillAssessment.t) : Q * string :=
  let score := SkillAssessment.score assessment in
  let trend := SkillAssessment.trend assessment in
  let '(base_intensity, level) :=
    if Qltb score SKILL_STRUGGLING then (INTENSITY_FULL, "struggling")
    else if Qltb score SKILL_LEARNING then (INTENSITY_REGULAR, "learning")
    else if Qltb score SKILL_PROFICIENT then (INTENSITY_OCCASIONAL, "proficient")
    else (INTENSITY_MINIMAL, "mastered") in
  let '(adjusted, level) :=
    if String.eqb trend "regressing" then
      (Qmin (base_intensity + 0.2) INTENSITY_FULL,
       if String.eqb level "mastered" then "proficient" else level)
    else if String.eqb trend "improving" then
      (Qmax (base_intensity - 0.1) INTENSITY_NONE, level)
    else (base_intensity, level) in
  let adjusted :=
    if Qltb (SkillAssessment.confidence assessment) 0.5
    then Qmax adjusted INTENSITY_REGULAR else adjusted in
  (adjusted, level)%string.

(** [random.random() < intensity] for the draw [rnd]. *)
Definition _should_show_at_intensity (rnd intensity : Q) : bool := Qltb rnd intensity.

Definition _safe_divide (a b : Z) : Q :=
  if (0 <? b)%Z then (inject_Z a / inject_Z b)%Q else 0.0%Q.

(** *** State persistence *)

Definition entry_to_json (e : HistoryEntry.t) : json :=
  JObj {[ "date" := JStr (HistoryEntry.date e);
          "score" := JFloat (HistoryEntry.score e);
          "trend" := JStr (HistoryEntry.trend e) ]}.

(** The document [json.dump] writes in [_save_state]. *)
Definition state_to_json (s : CoachingState.t) : json :=
  JObj {[ "total_suggestions_offered" := JInt (CoachingState.total_suggestions_offered s);
          "total_suggestions_accepted" := JInt (CoachingState.total_suggestions_accepted s);
          "total_suggestions_dismissed" := JInt (CoachingState.total_suggestions_dismissed s);
          "last_assessment" :=
            match CoachingState.last_assessment s with
            | Some d => JStr d
            | None => JNull
            end;
          "skill_history" :=
            JObj ((fun entries => JArr (entry_to_json <$> entries))
                    <$> CoachingState.skill_history s);
          "fade_out_overrides" := JObj (JBool <$> CoachingState.fade_out_overrides s) ]}.

(** Typed readings of loaded values; [None] where the value has another
    shape than [_save_state] writes. *)
Definition as_int (j : json) : option Z :=
  match j with JInt n => Some n | _ => None end.
Definition as_bool (j : json) : option bool :=
  match j with JBool b => Some b | _ => None end.
Definition as_optional_str (j : json) : option (option string) :=
  match j with JStr s => Some (Some s) | JNull => Some None | _ => None end.
Definition as_entry (j : json) : option HistoryEntry.t :=
  match j with
  | JObj e =>
      match e !! "date", e !! "score", e !! "trend" with
      | Some (JStr d), Some (JFloat x), Some (JStr t) =>
          if decide (size e = 3%nat)
          then Some {| HistoryEntry.date := d; HistoryEntry.score := x;
                       HistoryEntry.trend := t |}
          else None
      | _, _, _ => None
      end
  | _ => None
  end.
Definition as_list {A} (f : json -> option A) (j : json) : option (list A) :=
  match j with JArr items => mapM f items | _ => None end.
Definition as_dict {A} (f : json -> option A) (j : json) : option (gmap string A) :=
  match j with
  | JObj m =>
      if decide (map_Forall (fun _ v => is_Some (f v)) m) then Some (omap f m) else None
  | _ => None
  end.

(** [data.get(key, default)] *)
Definition dict_get (data : gmap string json) (key : string) (default : json) : json :=
  match data !! key with
  | Some v => v
  | None => default
  end.

(** [_load_state]: only [JSONDecodeError] and [KeyError] are caught. *)
Definition _load_state (state_file : file) : outcome CoachingState.t :=
  match state_file with
  | Absent => Return CoachingState.default
  | Unreadable => Raise PermissionError
  | NotText => Raise UnicodeDecodeError
  | NotJson => Return CoachingState.default
  | Document (JObj data) =>
      match as_int (dict_get data "total_suggestions_offered" (JInt 0)),
            as_int (dict_get data "total_suggestions_accepted" (JInt 0)),
            as_int (dict_get data "total_suggestions_dismissed" (JInt 0)),
            as_optional_str (dict_get data "last_assessment" JNull),
            as_dict (as_list as_entry) (dict_get data "skill_history" (JObj ∅)),
            as_dict as_bool (dict_get data "fade_out_overrides" (JObj ∅)) with
      | Some offered, Some accepted, Some dismissed, Some last, Some history, Some overrides =>
          Return {| CoachingState.total_suggestions_offered := offered;
                    CoachingState.total_suggestions_accepted := accepted;
                    CoachingState.total_suggestions_dismissed := dismissed;
                    CoachingState.last_assessment := last;
                    CoachingState.skill_history := history;
                    CoachingState.fade_out_overrides := overrides |}
      | _, _, _, _, _, _ => Untyped
      end
  | Document _ => Raise AttributeError     (* [data.get] on a list, string, number, ... *)
  end.

Definition _save_state : M World unit :=
  modify (fun w =>
    {| self := self w;
       disk := {| tracker_files := tracker_files (disk w);
                  state_file := Document (state_to_json (state (self w))) |} |}).

(** [AdaptiveCoach(data_dir)] over the files found in the directory. *)
Definition __init__ (d : Disk) : outcome t :=
  match behavior_tracker.__init__ (tracker_files d) with
  | Return tracker =>
      let detector := difficulty_detector.__init__ in
      let suggester := suggestion_engine.__init__ tracker in
      match _load_state (state_file d) with
      | Return state =>
          Return {| tracker := tracker; detector := detector; suggester := suggester;
                    state := state; current_session := None;
                    _cached_report := None; _cache_time := None |}
      | Raise e => Raise e
      | Untyped => Untyped
      end
  | Raise e => Raise e
  | Untyped => Untyped
  end.

(** *** Field updates *)

Definition on_self (f : t -> t) : M World unit :=
  modify (fun w => {| self := f (self w); disk := disk w |}).
Definition set_state (f : CoachingState.t -> CoachingState.t) (c : t) : t :=
  {| tracker := tracker c; detector := detector c; suggester := suggester c;
     state := f (state c); current_session := current_session c;
     _cached_report := _cached_report c; _cache_time := _cache_time c |}.
Definition set_session (f : option CoachingSession.t -> option CoachingSession.t) (c : t) : t :=
  {| tracker := tracker c; detector := detector c; suggester := suggester c;
     state := state c; current_session := f (current_session c);
     _cached_report := _cached_report c; _cache_time := _cache_time c |}.
Definition set_cached_report (r : option DifficultyReport.t) (c : t) : t :=
  {| tracker := tracker c; detector := detector c; suggester := suggester c;
     state := state c; current_session := current_session c;
     _cached_report := r; _cache_time := _cache_time c |}.
Definition set_cache_time (o : option Z) (c : t) : t :=
  {| tracker := tracker c; detector := detector c; suggester := suggester c;
     state := state c; current_session := current_session c;
     _cached_report := _cached_report c; _cache_time := o |}.
Definition set_detector (d : difficulty_detector.t) (c : t) : t :=
  {| tracker := tracker c; detector := d; suggester := suggester c;
     state := state c; current_session := current_session c;
     _cached_report := _cached_report c; _cache_time := _cache_time c |}.

Definition bump_counters (d_offered d_accepted d_dismissed : Z) (s : CoachingState.t)
  : CoachingState.t :=
  {| CoachingState.total_suggestions_offered :=
       CoachingState.total_suggestions_offered s + d_offered;
     CoachingState.total_suggestions_accepted :=
       CoachingState.total_suggestions_accepted s + d_accepted;
     CoachingState.total_suggestions_dismissed :=
       CoachingState.total_suggestions_dismissed s + d_dismissed;
     CoachingState.last_assessment := CoachingState.last_assessment s;
     CoachingState.skill_history := CoachingState.skill_history s;
     CoachingState.fade_out_overrides := CoachingState.fade_out_overrides s |}.
Definition set_skill_history
    (f : gmap string (list HistoryEntry.t) -> gmap string (list HistoryEntry.t))
    (s : CoachingState.t) : CoachingState.t :=
  {| CoachingState.total_suggestions_offered := CoachingState.total_suggestions_offered s;
     CoachingState.total_suggestions_accepted := CoachingState.total_suggestions_accepted s;
     CoachingState.total_suggestions_dismissed := CoachingState.total_suggestions_dismissed s;
     CoachingState.last_assessment := CoachingState.last_assessment s;
     CoachingState.skill_history := f (CoachingState.skill_history s);
     CoachingState.fade_out_overrides := CoachingState.fade_out_overrides s |}.
Definition set_overrides (f : gmap string bool -> gmap string bool)
    (s : CoachingState.t) : CoachingState.t :=
  {| CoachingState.total_suggestions_offered := CoachingState.total_suggestions_offered s;
     CoachingState.total_suggestions_accepted := CoachingState.total_suggestions_accepted s;
     CoachingState.total_suggestions_dismissed := CoachingState.total_suggestions_dismissed s;
     CoachingState.last_assessment := CoachingState.last_assessment s;
     CoachingState.skill_history := CoachingState.skill_history s;
     CoachingState.fade_out_overrides := f (CoachingState.fade_out_overrides s) |}.
Definition set_last_assessment (d : option string) (s : CoachingState.t) : CoachingState.t :=
  {| CoachingState.total_suggestions_offered := CoachingState.total_suggestions_offered s;
     CoachingState.total_suggestions_accepted := CoachingState.total_suggestions_accepted s;
     CoachingState.total_suggestions_dismissed := CoachingState.total_suggestions_dismissed s;
     CoachingState.last_assessment := d;
     CoachingState.skill_history := CoachingState.skill_history s;
     CoachingState.fade_out_overrides := CoachingState.fade_out_overrides s |}.
Definition bump_session (d_offered d_accepted d_dismissed : Z)
    (o : option CoachingSession.t) : option CoachingSession.t :=
  (fun cs =>
     {| CoachingSession.session_id := CoachingSession.session_id cs;
        CoachingSession.started_at := CoachingSession.started_at cs;
        CoachingSession.skill_snapshot := CoachingSession.skill_snapshot cs;
        CoachingSession.suggestions_offered :=
          CoachingSession.suggestions_offered cs + d_offered;
        CoachingSession.suggestions_accepted :=
          CoachingSession.suggestions_accepted cs + d_accepted;
        CoachingSession.suggestions_dismissed :=
          CoachingSession.suggestions_dismissed cs + d_dismissed |}) <$> o.

Definition set_tracker (tr : behavior_tracker.t) (c : t) : t :=
  {| tracker := tr; detector := detector c; suggester := suggester c;
     state := state c; current_session := current_session c;
     _cached_report := _cached_report c; _cache_time := _cache_time c |}.

(** A method of the detector, run on [self.detector]. *)
Definition run_detector {A} (c : M difficulty_detector.t A) : M World A :=
  fun w =>
    let '(o, d') := c (detector (self w)) in
    (o, {| self := set_detector d' (self w); disk := disk w |}).

(** A method of the tracker, run on [self.tracker] and its files. *)
Definition run_tracker {A} (c : M behavior_tracker.St A) : M World A :=
  fun w =>
    let '(o, (tr', fs')) := c (tracker (self w), tracker_files (disk w)) in
    (o, {| self := set_tracker tr' (self w);
           disk := {| tracker_files := fs'; state_file := state_file (disk w) |} |}).

(** [self.tracker.<name>(...)] for a name the model gives no body to: the
    attribute lookup fails unless the tracker has the name. *)
Definition tracker_call (name : string) : M World unit :=
  if bool_decide (name ∈ behavior_tracker.attributes) then untyped
  else raise AttributeError.

Module SkillStatus.
Record t : Type := {
  score : Q;
  level : string;
  trend : string;
  intensity : Q;
  guidance_active : bool;
  samples : nat;
  confidence : Q;
}.
End SkillStatus.

Module Status.
Record t : Type := {
  overall_skill : Q;
  skills : list (string * SkillStatus.t);
  offered : Z;
  accepted : Z;
  dismissed : Z;
  acceptance_rate : Q;
  recommendations : list string;
  struggles : list json;
  improvements : list json;
  regressions : list json;
  session_active : bool;
}.
End Status.

Inductive SessionSummary : Type :=
  | NoActiveSession                                  (* {'error': 'No active session'} *)
  | Summary (session_id duration : string) (suggestions_offered suggestions_accepted : Z)
            (acceptance_rate : Q) (skill_snapshot : list (string * Q)).

(** [[x['area'] for x in entries]] *)
Fixpoint areas (entries : list (gmap string json)) : outcome (list json) :=
  match entries with
  | [] => Return []
  | x :: rest =>
      match subscript x "area" with
      | Return a =>
          match areas rest with
          | Return l => Return (a :: l)
          | other => other
          end
      | Raise e => Raise e
      | Untyped => Untyped
      end
  end.

(** The dictionary [get_search_tip] returns. *)
Module SearchTip.
Record t : Type := {
  type : string;
  tip : string;
  examples : list string;
  intensity : Q;
}.
End SearchTip.

(** An entry of the dictionary [get_fade_status] returns. *)
Module FadeStatus.
Record t : Type := {
  level : string;
  intensity : Q;
  faded_out : bool;
  override_disabled : bool;
  will_re_engage : bool;
}.
End FadeStatus.

Section methods.
Context {py : PyRuntime} {naming : suggestion_engine.NamingPipeline}.

Definition _get_difficulty_report (now : Z) : M World DifficultyReport.t :=
  w ← get;
  let refresh : M World DifficultyReport.t :=
    report ← run_detector (assess_all_skills (tracker (self w)) now);
    on_self (set_cached_report (Some report));;
    on_self (set_cache_time (Some now));;
    for_each (DifficultyReport.skills report) (fun '(name, assessment) =>
      on_self (set_state (set_skill_history (fun h =>
        <[name := last_n 100
                    (default [] (h !! name)
                     ++ [ {| HistoryEntry.date := isoformat now;
                             HistoryEntry.score := SkillAssessment.score assessment;
                             HistoryEntry.trend := SkillAssessment.trend assessment |} ])]>
          h))));;
    on_self (set_state (set_last_assessment (Some (isoformat now))));;
    _save_state;;
    ret report in
  match _cached_report (self w), _cache_time (self w) with
  | Some report, Some cache_time =>
      if (now - cache_time <? _cache_duration)%Z then ret report else refresh
  | _, _ => refresh
  end.

Definition _calculate_duration (now start : Z) : string :=
  let minutes := ((now - start) ÷ MINUTE)%Z in
  if (minutes <? 60)%Z then pretty minutes +:+ "m"
  else pretty (minutes `div` 60)%Z +:+ "h " +:+ pretty (minutes `mod` 60)%Z +:+ "m".

Definition start_session (now : Z) : M World string :=
  session_id ← run_tracker (behavior_tracker.start_session now);
  report ← _get_difficulty_report now;
  on_self (set_session (fun _ => Some
    {| CoachingSession.session_id := session_id;
       CoachingSession.started_at := now;
       CoachingSession.skill_snapshot :=
         (fun '(name, assessment) => (name, SkillAssessment.score assessment))
           <$> DifficultyReport.skills report;
       CoachingSession.suggestions_offered := 0;
       CoachingSession.suggestions_accepted := 0;
       CoachingSession.suggestions_dismissed := 0 |}));;
  ret session_id.

Definition end_session (now : Z) : M World SessionSummary :=
  w ← get;
  match current_session (self w) with
  | None => ret NoActiveSession
  | Some cs =>
      let summary :=
        Summary (CoachingSession.session_id cs)
                (_calculate_duration now (CoachingSession.started_at cs))
                (CoachingSession.suggestions_offered cs)
                (CoachingSession.suggestions_accepted cs)
                (_safe_divide (CoachingSession.suggestions_accepted cs)
                              (CoachingSession.suggestions_offered cs))
                (CoachingSession.skill_snapshot cs) in
      run_tracker (behavior_tracker.end_session now);;
      on_self (set_session (fun _ => None));;
      ret summary
  end.

Definition _create_naming_result (now : Z) (filename : string) (content : option string)
    (file_path : option string) (intensity : Q) (skill_level reason : string)
  : M World SuggestionResult.t :=
  w ← get;
  suggestion ← lift_outcome
    (suggestion_engine.suggest_filename (suggester (self w)) now filename content);
  on_self (set_session (bump_session 1 0 0));;
  on_self (set_state (bump_counters 1 0 0));;
  ret {| SuggestionResult.suggestion_type := "naming";
         SuggestionResult.content := Some (NamingContent suggestion);
         SuggestionResult.intensity := intensity;
         SuggestionResult.reason := reason;
         SuggestionResult.skill_level := skill_level;
         SuggestionResult.should_show := true |}.

Definition _create_folder_result (file_path : string)
    (available_folders : option (list string)) (intensity : Q)
    (skill_level reason : string) : M World SuggestionResult.t :=
  w ← get;
  suggestion ← lift_outcome
    (suggestion_engine.suggest_folder (suggester (self w)) file_path available_folders);
  on_self (set_session (bump_session 1 0 0));;
  on_self (set_state (bump_counters 1 0 0));;
  ret {| SuggestionResult.suggestion_type := "folder";
         SuggestionResult.content := Some (FolderContent suggestion);
         SuggestionResult.intensity := intensity;
         SuggestionResult.reason := reason;
         SuggestionResult.skill_level := skill_level;
         SuggestionResult.should_show := true |}.

Definition get_naming_suggestion (now : Z) (rnd : Q) (filename : string)
    (content file_path : option string) : M World SuggestionResult.t :=
  report ← _get_difficulty_report now;
  match skills_get "naming_consistency" (DifficultyReport.skills report) with
  | None =>
      _create_naming_result now filename content file_path INTENSITY_FULL "new"
        "No naming history - providing full guidance"
  | Some naming_skill =>
      let '(intensity, skill_level) := _calculate_intensity naming_skill in
      w ← get;
      if default false (CoachingState.fade_out_overrides (state (self w))
                          !! "naming_consistency") then
        ret {| SuggestionResult.suggestion_type := "none";
               SuggestionResult.content := None;
               SuggestionResult.intensity := 0.0;
               SuggestionResult.reason := "User disabled naming suggestions";
               SuggestionResult.skill_level := skill_level;
               SuggestionResult.should_show := false |}
      else if negb (_should_show_at_intensity rnd intensity) then
        ret {| SuggestionResult.suggestion_type := "naming";
               SuggestionResult.content := None;
               SuggestionResult.intensity := intensity;
               SuggestionResult.reason := "Faded out - skill level: " +:+ skill_level;
               SuggestionResult.skill_level := skill_level;
               SuggestionResult.should_show := false |}
      else
        _create_naming_result now filename content file_path intensity skill_level
          ("Skill: " +:+ format_percent (SkillAssessment.score naming_skill)
           +:+ ", Trend: " +:+ SkillAssessment.trend naming_skill)
  end.

Definition get_folder_suggestion (now : Z) (rnd : Q) (file_path : string)
    (available_folders : option (list string)) : M World SuggestionResult.t :=
  report ← _get_difficulty_report now;
  match skills_get "folder_organization" (DifficultyReport.skills report) with
  | None =>
      _create_folder_result file_path available_folders INTENSITY_FULL "new"
        "No folder organization history"
  | Some folder_skill =>
      let '(intensity, skill_level) := _calculate_intensity folder_skill in
      w ← get;
      if default false (CoachingState.fade_out_overrides (state (self w))
                          !! "folder_organization") then
        ret {| SuggestionResult.suggestion_type := "none";
               SuggestionResult.content := None;
               SuggestionResult.intensity := 0.0;
               SuggestionResult.reason := "User disabled folder suggestions";
               SuggestionResult.skill_level := skill_level;
               SuggestionResult.should_show := false |}
      else if negb (_should_show_at_intensity rnd intensity) then
        ret {| SuggestionResult.suggestion_type := "folder";
               SuggestionResult.content := None;
               SuggestionResult.intensity := intensity;
               SuggestionResult.reason := "Faded out - skill level: " +:+ skill_level;
               SuggestionResult.skill_level := skill_level;
               SuggestionResult.should_show := false |}
      else
        _create_folder_result file_path available_folders intensity skill_level
          ("Skill: " +:+ format_percent (SkillAssessment.score folder_skill)
           +:+ ", Trend: " +:+ SkillAssessment.trend folder_skill)
  end.

Definition record_suggestion_response (suggestion_type : string) (accepted : bool)
    (original_value suggested_value final_value : string) : M World unit :=
  on_self (set_session
    (if accepted then bump_session 0 1 0 else bump_session 0 0 1));;
  on_self (set_state
    (if accepted then bump_counters 0 1 0 else bump_counters 0 0 1));;
  _save_state;;
  tracker_call "record_organization_decision";;
  on_self (set_cached_report None).

Definition get_status (now : Z) : M World Status.t :=
  report ← _get_difficulty_report now;
  let skills_status :=
    (fun '(name, assessment) =>
       let '(intensity, level) := _calculate_intensity assessment in
       (name, {| SkillStatus.score := SkillAssessment.score assessment;
                 SkillStatus.level := level;
                 SkillStatus.trend := SkillAssessment.trend assessment;
                 SkillStatus.intensity := intensity;
                 SkillStatus.guidance_active := Qgtb intensity INTENSITY_MINIMAL;
                 SkillStatus.samples := SkillAssessment.samples_count assessment;
                 SkillStatus.confidence := SkillAssessment.confidence assessment |}))
      <$> DifficultyReport.skills report in
  w ← get;
  let st := state (self w) in
  struggles ← lift_outcome (areas (DifficultyReport.struggles report));
  improvements ← lift_outcome (areas (DifficultyReport.improvements report));
  regressions ← lift_outcome (areas (DifficultyReport.regressions report));
  ret {| Status.overall_skill := DifficultyReport.overall_skill report;
         Status.skills := skills_status;
         Status.offered := CoachingState.total_suggestions_offered st;
         Status.accepted := CoachingState.total_suggestions_accepted st;
         Status.dismissed := CoachingState.total_suggestions_dismissed st;
         Status.acceptance_rate :=
           _safe_divide (CoachingState.total_suggestions_accepted st)
                        (CoachingState.total_suggestions_offered st);
         Status.recommendations := DifficultyReport.recommendations report;
         Status.struggles := struggles;
         Status.improvements := improvements;
         Status.regressions := regressions;
         Status.session_active := bool_decide (is_Some (current_session (self w))) |}.

Definition set_fade_out_override (skill_name : string) (disabled : bool) : M World unit :=
  on_self (set_state (set_overrides (fun o => <[skill_name := disabled]> o)));;
  _save_state.

Definition reset_skill_tracking (skill_name : option string) : M World unit :=
  on_self (set_state (set_skill_history (fun h =>
    if truthy skill_name then <[default ""%string skill_name := []]> h else ∅)));;
  _save_state;;
  on_self (set_cached_report None).

Definition force_re_engagement (skill_name : string) : M World unit :=
  on_self (set_state (set_overrides (fun o => delete skill_name o)));;
  on_self (set_state (set_skill_history (fun h => <[skill_name := []]> h)));;
  _save_state;;
  on_self (set_cached_report None).

Definition get_search_tip (now : Z) (query : string) (results_count : Z)
  : M World (option SearchTip.t) :=
  report ← _get_difficulty_report now;
  match skills_get "search_ability" (DifficultyReport.skills report) with
  | None => ret None
  | Some search_skill =>
      let '(intensity, skill_level) := _calculate_intensity search_skill in
      if Qltb intensity INTENSITY_OCCASIONAL then ret None
      else if (results_count =? 0)%Z then
        ret (Some {| SearchTip.type := "no_results";
                     SearchTip.tip := "Try using different keywords or check spelling";
                     SearchTip.examples := ["Use broader terms"; "Try related concepts"];
                     SearchTip.intensity := intensity |})
      else if Qltb (SkillAssessment.score search_skill) SKILL_LEARNING then
        ret (Some {| SearchTip.type := "general";
                     SearchTip.tip := "Describe what you're looking for naturally";
                     SearchTip.examples :=
                       ["meeting notes about budget"; "that python script for parsing"];
                     SearchTip.intensity := intensity |})
      else ret None
  end.

Definition get_fade_status (now : Z) : M World (list (string * FadeStatus.t)) :=
  report ← _get_difficulty_report now;
  w ← get;
  ret ((fun '(name, assessment) =>
          let '(intensity, level) := _calculate_intensity assessment in
          (name, {| FadeStatus.level := level;
                    FadeStatus.intensity := intensity;
                    FadeStatus.faded_out := Qle_bool intensity INTENSITY_MINIMAL;
                    FadeStatus.override_disabled :=
                      default false
                        (CoachingState.fade_out_overrides (state (self w)) !! name);
                    FadeStatus.will_re_engage :=
                      String.eqb (SkillAssessment.trend assessment) "regressing" |}))
         <$> DifficultyReport.skills report).

End methods.
End adaptive_coach.

(** * Running the model *)

(** A runtime for POSIX-style paths: instants and digests are rendered in
    decimal, a path is split at ['/'], percentages are rounded half up. *)
Module sample.

Fixpoint split_on (c : ascii) (s : string) : list string :=
  match s with
  | EmptyString => [EmptyString]
  | String d s' =>
      if Ascii.eqb c d then EmptyString :: split_on c s'
      else match split_on c s' with
           | [] => [String d EmptyString]
           | w :: ws => String d w :: ws
           end
  end.

Definition parts (p : string) : list string :=
  (if contains "/"%char (String.substring 0 1 p) then ["/"%string] else [])
  ++ List.filter (fun w => negb (String.eqb w "") && negb (String.eqb w "."))
                 (split_on "/"%char p).

Definition join_parts (ws : list string) : string :=
  match ws with
  | [] => "."
  | "/"%string :: rest => "/" +:+ String.concat "/" rest
  | _ => String.concat "/" ws
  end.

Definition parent (p : string) : string :=
  let ws := parts p in
  match ws with
  | ["/"%string] => "/"
  | _ => join_parts (take (length ws - 1) ws)
  end.

Definition suffix_lower (p : string) : string :=
  match reverse (parts p) with
  | [] => ""
  | name :: _ =>
      match reverse (split_on "."%char name) with
      | ext :: _ :: _ => if String.eqb ext "" then "" else "." +:+ lower ext
      | _ => ""
      end
  end.

Definition percent (x : Q) : string :=
  pretty (Qfloor (x * 100 + (1 # 2))%Q) +:+ "%".

Definition fixed1 (x : Q) : string :=
  let tenths := Qfloor (x * 10 + (1 # 2))%Q in
  pretty (tenths `div` 10)%Z +:+ "." +:+ pretty (tenths `mod` 10)%Z.

#[export] Instance runtime : PyRuntime :=
  {| isoformat := fun now => pretty now;
     session_digest := fun now => pretty now;
     Path_parts := parts;
     Path_parent := parent;
     Path_suffix_lower := suffix_lower;
     format_percent := percent;
     format_fixed1 := fixed1 |}.

(** A naming pipeline that proposes the name it was given. *)
#[export] Instance naming : suggestion_engine.NamingPipeline :=
  {| suggestion_engine.suggest_from_path := fun _ file_path _ =>
       Return {| suggestion_engine.NamingSuggestion.suggested_name := file_path;
                 suggestion_engine.NamingSuggestion.original_name := file_path;
                 suggestion_engine.NamingSuggestion.confidence := 0.5;
                 suggestion_engine.NamingSuggestion.reasoning := "";
                 suggestion_engine.NamingSuggestion.alternatives := [];
                 suggestion_engine.NamingSuggestion.convention_used := "semantic";
                 suggestion_engine.NamingSuggestion.category := None |} |}.

(** A first run: nothing in the data directory. *)
Definition empty_disk : adaptive_coach.Disk :=
  {| adaptive_coach.tracker_files :=
       {| behavior_tracker.events_file := SAbsent;
          behavior_tracker.sessions_file := SAbsent;
          behavior_tracker.stats_file := SAbsent |};
     adaptive_coach.state_file := Absent |}.

Definition empty_tracker : behavior_tracker.t :=
  {| behavior_tracker.events := behavior_tracker.default_events;
     behavior_tracker.sessions := [];
     behavior_tracker.stats := behavior_tracker.default_stats;
     behavior_tracker.current_session := None |}.

(** The coach of a first run. *)
Definition fresh_coach : adaptive_coach.t :=
  {| adaptive_coach.tracker := empty_tracker;
     adaptive_coach.detector := difficulty_detector.__init__;
     adaptive_coach.suggester := {| suggestion_engine.user_conventions := None |};
     adaptive_coach.state := adaptive_coach.CoachingState.default;
     adaptive_coach.current_session := None;
     adaptive_coach._cached_report := None;
     adaptive_coach._cache_time := None |}.

Definition fresh_world : adaptive_coach.World :=
  {| adaptive_coach.self := fresh_coach; adaptive_coach.disk := empty_disk |}.

(** A search at instant [now] that ended without a click. *)
Definition abandoned_search (now : Z) : behavior_tracker.SearchEvent.t :=
  {| behavior_tracker.SearchEvent.timestamp := now;
     behavior_tracker.SearchEvent.query := "budget";
     behavior_tracker.SearchEvent.results_count := 0;
     behavior_tracker.SearchEvent.clicked_result := None;
     behavior_tracker.SearchEvent.time_to_click_ms := None;
     behavior_tracker.SearchEvent.refined_query := None;
     behavior_tracker.SearchEvent.session_id := "s" |}.

(** A store that holds [n] abandoned searches made at instant 0. *)
Definition tracker_with_searches (n : nat) : behavior_tracker.t :=
  {| behavior_tracker.events :=
       {| behavior_tracker.searches := replicate n (abandoned_search 0);
          behavior_tracker.file_accesses := [];
          behavior_tracker.navigation := [];
          behavior_tracker.decisions := [] |};
     behavior_tracker.sessions := [];
     behavior_tracker.stats := behavior_tracker.default_stats;
     behavior_tracker.current_session := None |}.

Definition world_with_searches (n : nat) : adaptive_coach.World :=
  {| adaptive_coach.self :=
       adaptive_coach.set_tracker (tracker_with_searches n) fresh_coach;
     adaptive_coach.disk := empty_disk |}.

(** A data directory whose [coaching_state.json] holds the JSON array [[]]. *)
Definition disk_with_array_state : adaptive_coach.Disk :=
  {| adaptive_coach.tracker_files := adaptive_coach.tracker_files empty_disk;
     adaptive_coach.state_file := Document (JArr []) |}.

(** The fresh coach after the user disabled naming and folder suggestions. *)
Definition silenced_world : adaptive_coach.World :=
  {| adaptive_coach.self :=
       adaptive_coach.set_state
         (adaptive_coach.set_overrides (fun _ =>
            {[ "naming_consistency" := true; "folder_organization" := true ]}))
         fresh_coach;
     adaptive_coach.disk := empty_disk |}.

(** An assessment with the given score, confidence and trend. *)
Definition assessment (score confidence : Q) (trend : string)
  : difficulty_detector.SkillAssessment.t :=
  {| difficulty_detector.SkillAssessment.skill_name := "naming_consistency";
     difficulty_detector.SkillAssessment.score := score;
     difficulty_detector.SkillAssessment.confidence := confidence;
     difficulty_detector.SkillAssessment.trend := trend;
     difficulty_detector.SkillAssessment.evidence := [];
     difficulty_detector.SkillAssessment.last_updated := "";
     difficulty_detector.SkillAssessment.samples_count := 20 |}.

(** A rename of [notes.md] at instant 0, with or without a new name. *)
Definition rename_event (new_name : option string) : behavior_tracker.FileAccessEvent.t :=
  {| behavior_tracker.FileAccessEvent.timestamp := 0;
     behavior_tracker.FileAccessEvent.file_path := "notes.md";
     behavior_tracker.FileAccessEvent.file_type := ".md";
     behavior_tracker.FileAccessEvent.access_type := "rename";
     behavior_tracker.FileAccessEvent.previous_name := Some "notes.md"%string;
     behavior_tracker.FileAccessEvent.new_name := new_name;
     behavior_tracker.FileAccessEvent.source_path := None;
     behavior_tracker.FileAccessEvent.dest_path := None;
     behavior_tracker.FileAccessEvent.session_id := "s" |}.

(** A store that holds [n] such renames. *)
Definition tracker_with_renames (n : nat) (new_name : option string) : behavior_tracker.t :=
  {| behavior_tracker.events :=
       {| behavior_tracker.searches := [];
          behavior_tracker.file_accesses := replicate n (rename_event new_name);
          behavior_tracker.navigation := [];
          behavior_tracker.decisions := [] |};
     behavior_tracker.sessions := [];
     behavior_tracker.stats := behavior_tracker.default_stats;
     behavior_tracker.current_session := None |}.

(** A search at instant 0 that ended with a click. *)
Definition clicked_search : behavior_tracker.SearchEvent.t :=
  {| behavior_tracker.SearchEvent.timestamp := 0;
     behavior_tracker.SearchEvent.query := "budget";
     behavior_tracker.SearchEvent.results_count := 3;
     behavior_tracker.SearchEvent.clicked_result := Some "budget.md"%string;
     behavior_tracker.SearchEvent.time_to_click_ms := Some 1200%Z;
     behavior_tracker.SearchEvent.refined_query := None;
     behavior_tracker.SearchEvent.session_id := "s" |}.

(** An access of [notes.md] at instant 0. *)
Definition access_event (access_type : string) : behavior_tracker.FileAccessEvent.t :=
  {| behavior_tracker.FileAccessEvent.timestamp := 0;
     behavior_tracker.FileAccessEvent.file_path := "notes.md";
     behavior_tracker.FileAccessEvent.file_type := ".md";
     behavior_tracker.FileAccessEvent.access_type := access_type;
     behavior_tracker.FileAccessEvent.previous_name := None;
     behavior_tracker.FileAccessEvent.new_name := None;
     behavior_tracker.FileAccessEvent.source_path := None;
     behavior_tracker.FileAccessEvent.dest_path := None;
     behavior_tracker.FileAccessEvent.session_id := "s" |}.

(** A decision on a suggested name at instant 0. *)
Definition decision_event (decision_type : string) : behavior_tracker.OrganizationDecision.t :=
  {| behavior_tracker.OrganizationDecision.timestamp := 0;
     behavior_tracker.OrganizationDecision.decision_type := decision_type;
     behavior_tracker.OrganizationDecision.suggested_value := Some "2026_notes.md"%string;
     behavior_tracker.OrganizationDecision.user_value := "2026_notes.md";
     behavior_tracker.OrganizationDecision.file_path := "notes.md";
     behavior_tracker.OrganizationDecision.context := ∅ |}.

(** A store after some use: three searches (two with a click), six file
    accesses (four opens, a rename, a move) and four decisions on
    suggestions (two approved, one rejected, one customized), with the
    counters the recording methods leave. *)
Definition busy_tracker : behavior_tracker.t :=
  {| behavior_tracker.events :=
       {| behavior_tracker.searches := [ clicked_search; abandoned_search 0; clicked_search ];
          behavior_tracker.file_accesses :=
            [ access_event "open"; access_event "open";
              rename_event (Some "2026_notes.md"%string);
              access_event "open"; access_event "move"; access_event "open" ];
          behavior_tracker.navigation := [];
          behavior_tracker.decisions :=
            [ decision_event "approve_suggestion"; decision_event "reject_suggestion";
              decision_event "approve_suggestion"; decision_event "custom_name" ] |};
     behavior_tracker.sessions := [];
     behavior_tracker.stats :=
       {| behavior_tracker.total_searches := 3;
          behavior_tracker.successful_searches := 2;
          behavior_tracker.total_files_accessed := 6;
          behavior_tracker.renames_performed := 1;
          behavior_tracker.suggestions_accepted := 2;
          behavior_tracker.suggestions_rejected := 1;
          behavior_tracker.suggestions_customized := 1;
          behavior_tracker.first_seen := Some 0%Z;
          behavior_tracker.last_seen := Some 0%Z;
          behavior_tracker.skill_scores := ∅ |};
     behavior_tracker.current_session := None |}.

(** Two struggling skills, the first of them improving. *)
Definition struggling_skills : list (string * difficulty_detector.SkillAssessment.t) :=
  [ ("naming_consistency", assessment 0.2 0.8 "improving");
    ("folder_organization", assessment 0.3 0.8 "stable") ]%string.

(** The fresh coach once the history of the search skill has reached its
    100 entries. *)
Definition world_with_full_history : adaptive_coach.World :=
  {| adaptive_coach.self :=
       adaptive_coach.set_state
         (adaptive_coach.set_skill_history (fun _ =>
            {[ "search_ability"%string :=
                 replicate 100
                   {| adaptive_coach.HistoryEntry.date := "0";
                      adaptive_coach.HistoryEntry.score := 0.5;
                      adaptive_coach.HistoryEntry.trend := "new" |} ]}))
         fresh_coach;
     adaptive_coach.disk := empty_disk |}.

End sample.

(** * Vocabulary of the properties *)

Import difficulty_detector.

(** The four skill areas, in the order [assess_all_skills] lists them. *)
Definition skill_areas : list string :=
  [ "search_ability"; "naming_consistency"; "folder_organization"; "file_management" ].

(** A report that carries every skill area. *)
Definition report_complete (r : DifficultyReport.t) : Prop :=
  fst <$> DifficultyReport.skills r = skill_areas.

(** The report cache holds nothing or a complete report.  The constructor
    and every method of the coach keep it so. *)
Definition cache_sound (c : adaptive_coach.t) : Prop :=
  forall r, adaptive_coach._cached_report c = Some r -> report_complete r.

(** The neutral assessment of a skill without enough samples. *)
Definition is_neutral (a : SkillAssessment.t) : Prop :=
  (SkillAssessment.score a == 0.5)%Q /\
  (SkillAssessment.confidence a == 0.1)%Q /\
  SkillAssessment.trend a = "new".

(** The sample counts of the four assessors, read off the event log: the
    searches later than 30 days before [now], the rename accesses that
    carry a non-empty new name (of the whole log), the navigation events
    (of the whole log), the file accesses later than 30 days before [now]. *)
Definition searches_in_window (tracker : behavior_tracker.t) (now : Z) : nat :=
  length (List.filter
            (fun s => (now - 30 * DAY <? behavior_tracker.SearchEvent.timestamp s)%Z)
            (behavior_tracker.searches (behavior_tracker.events tracker))).

Definition named_renames (tracker : behavior_tracker.t) (now : Z) : nat :=
  length (List.filter
            (fun a => String.eqb (behavior_tracker.FileAccessEvent.access_type a) "rename"
                      && truthy (behavior_tracker.FileAccessEvent.new_name a))
            (behavior_tracker.file_accesses (behavior_tracker.events tracker))).

Definition navigation_events (tracker : behavior_tracker.t) (now : Z) : nat :=
  length (behavior_tracker.navigation (behavior_tracker.events tracker)).

Definition accesses_in_window (tracker : behavior_tracker.t) (now : Z) : nat :=
  length (List.filter
            (fun a => (now - 30 * DAY <? behavior_tracker.FileAccessEvent.timestamp a)%Z)
            (behavior_tracker.file_accesses (behavior_tracker.events tracker))).

(** The rename accesses of the log, with or without a new name. *)
Definition rename_events (tracker : behavior_tracker.t) : nat :=
  length (List.filter
            (fun a => String.eqb (behavior_tracker.FileAccessEvent.access_type a) "rename")
            (behavior_tracker.file_accesses (behavior_tracker.events tracker))).


(** What an assessor does around its minimum sample count: it returns an
    assessment that counts [count] samples, the assessment is the neutral
    one exactly when [count] is below [minimum], and below [minimum] the
    confidence is at most 0.1 with trend "new". *)
Definition neutral_below (assess : M t SkillAssessment.t) (d : t)
    (count minimum : nat) : Prop :=
  exists a d',
    assess d = (Return a, d') /\
    SkillAssessment.samples_count a = count /\
    ((count < minimum)%nat <-> is_neutral a) /\
    ((count < minimum)%nat ->
       (SkillAssessment.confidence a <= 0.1)%Q /\ SkillAssessment.trend a = "new").


(** A struggle entry that names its skill. *)
Definition names_skill (entry : gmap string json) : Prop := is_Some (entry !! "skill").

(** The cached report is still valid at instant [now]. *)
Definition cache_fresh (now : Z) (c : adaptive_coach.t) : Prop :=
  exists r cache_time,
    adaptive_coach._cached_report c = Some r /\
    adaptive_coach._cache_time c = Some cache_time /\
    (now - cache_time < adaptive_coach._cache_duration)%Z.

(** A computation of the coach that leaves the report cache empty or
    complete. *)
Definition keeps_cache_sound {A} (c : M adaptive_coach.World A) : Prop :=
  forall w,
    cache_sound (adaptive_coach.self w) ->
    cache_sound (adaptive_coach.self (snd (c w))).

(** A stored file that is missing or cannot be read as JSON. *)
Definition no_document {A} (f : stored A) : Prop :=
  match f with
  | SAbsent | SUnreadable | SNotText | SNotJson => True
  | Encoded _ | OtherJson _ => False
  end.

(** Every skill of the state keeps at most 100 history entries. *)
Definition history_capped (s : adaptive_coach.CoachingState.t) : Prop :=
  map_Forall (fun _ entries => (length entries <= 100)%nat)
    (adaptive_coach.CoachingState.skill_history s).

(** Suggestion counters that never went below zero. *)
Definition counters_nonnegative (tr : behavior_tracker.t) : Prop :=
  (0 <= behavior_tracker.suggestions_accepted (behavior_tracker.stats tr))%Z /\
  (0 <= behavior_tracker.suggestions_rejected (behavior_tracker.stats tr))%Z /\
  (0 <= behavior_tracker.suggestions_customized (behavior_tracker.stats tr))%Z.

(** The order of the keys [_identify_struggles] sorts by. *)
Definition by_score (x y : Q * gmap string json) : Prop := (fst x <= fst y)%Q.

(** The counters of the store agree with its event log. *)
Definition stats_consistent (tr : behavior_tracker.t) : Prop :=
  let ev := behavior_tracker.events tr in
  let st := behavior_tracker.stats tr in
  let decided kind :=
    Z.of_nat (behavior_tracker.count_if
      (fun x => String.eqb (behavior_tracker.OrganizationDecision.decision_type x) kind)
      (behavior_tracker.decisions ev)) in
  behavior_tracker.total_searches st = Z.of_nat (length (behavior_tracker.searches ev)) /\
  behavior_tracker.successful_searches st
  = Z.of_nat (behavior_tracker.count_if
      (fun s => truthy (behavior_tracker.SearchEvent.clicked_result s))
      (behavior_tracker.searches ev)) /\
  behavior_tracker.total_files_accessed st
  = Z.of_nat (length (behavior_tracker.file_accesses ev)) /\
  behavior_tracker.renames_performed st
  = Z.of_nat (behavior_tracker.count_if
      (fun a => String.eqb (behavior_tracker.FileAccessEvent.access_type a) "rename")
      (behavior_tracker.file_accesses ev)) /\
  behavior_tracker.suggestions_accepted st = decided "approve_suggestion"%string /\
  behavior_tracker.suggestions_rejected st = decided "reject_suggestion"%string /\
  behavior_tracker.suggestions_customized st = decided "custom_name"%string.

(** Two counter records that differ at most in their dates and scores. *)
Definition same_counters (s1 s2 : behavior_tracker.Stats) : Prop :=
  behavior_tracker.total_searches s1 = behavior_tracker.total_searches s2 /\
  behavior_tracker.successful_searches s1 = behavior_tracker.successful_searches s2 /\
  behavior_tracker.total_files_accessed s1 = behavior_tracker.total_files_accessed s2 /\
  behavior_tracker.renames_performed s1 = behavior_tracker.renames_performed s2 /\
  behavior_tracker.suggestions_accepted s1 = behavior_tracker.suggestions_accepted s2 /\
  behavior_tracker.suggestions_rejected s1 = behavior_tracker.suggestions_rejected s2 /\
  behavior_tracker.suggestions_customized s1 = behavior_tracker.suggestions_customized s2.

(** * Properties *)

(** ** Arithmetic of the comparisons *)

Lemma Qltb_lt (x y : Q) : Qltb x y = true <-> (x < y)%Q.
Proof.
  unfold Qltb. rewrite negb_true_iff.
  split.
  - intros H. apply Qnot_le_lt. intros Hle.
    apply Qle_bool_iff in Hle. congruence.
  - intros H. destruct (Qle_bool y x) eqn:E; [|reflexivity].
    apply Qle_bool_iff in E. exfalso. apply (Qlt_not_le _ _ H E).
Qed.

Lemma Qltb_ge (x y : Q) : Qltb x y = false <-> (y <= x)%Q.
Proof.
  unfold Qltb. rewrite negb_false_iff. apply Qle_bool_iff.
Qed.

Lemma Qltb_reflect (x y : Q) : reflect (x < y)%Q (Qltb x y).
Proof.
  destruct (Qltb x y) eqn:E; constructor.
  - by apply Qltb_lt.
  - apply Qltb_ge in E. by apply Qle_not_lt.
Qed.

Lemma Qltb_compat (x x' y : Q) : (x == x')%Q -> Qltb x y = Qltb x' y.
Proof.
  intros E. destruct (Qltb_reflect x y) as [H|H], (Qltb_reflect x' y) as [H'|H'];
    try reflexivity; exfalso.
  - apply H'. by rewrite <- E.
  - apply H. by rewrite E.
Qed.

(** ** Intensity *)

Section intensity.
Import adaptive_coach.
Local Open Scope Q_scope.

(** Case analysis on the score band, the trend and the confidence test. *)
Ltac intensity_cases a :=
  unfold _calculate_intensity;
  destruct (Qltb_reflect (SkillAssessment.score a) SKILL_STRUGGLING);
  [| destruct (Qltb_reflect (SkillAssessment.score a) SKILL_LEARNING);
     [| destruct (Qltb_reflect (SkillAssessment.score a) SKILL_PROFICIENT)]];
  (destruct (String.eqb (SkillAssessment.trend a) "regressing") eqn:?;
   [| destruct (String.eqb (SkillAssessment.trend a) "improving") eqn:?]);
  destruct (Qltb (SkillAssessment.confidence a) 0.5) eqn:?;
  cbn [fst snd String.eqb Ascii.eqb Bool.eqb].

Lemma intensity_in_unit_interval (a : SkillAssessment.t) :
  0 <= fst (_calculate_intensity a) <= 1.
Proof.
  intensity_cases a; vm_compute; split; discriminate.
Qed.

Lemma regressing_never_mastered (a : SkillAssessment.t) :
  SkillAssessment.trend a = "regressing" ->
  snd (_calculate_intensity a) <> "mastered".
Proof.
  intros Ht. unfold _calculate_intensity. rewrite Ht. cbn [String.eqb Ascii.eqb Bool.eqb].
  destruct (Qltb _ SKILL_STRUGGLING); [| destruct (Qltb _ SKILL_LEARNING);
    [| destruct (Qltb _ SKILL_PROFICIENT)]];
  destruct (Qltb _ 0.5); cbn; discriminate.
Qed.

Lemma intensity_monotone (a1 a2 : SkillAssessment.t) :
  SkillAssessment.trend a1 = SkillAssessment.trend a2 ->
  SkillAssessment.confidence a1 == SkillAssessment.confidence a2 ->
  SkillAssessment.score a1 <= SkillAssessment.score a2 ->
  fst (_calculate_intensity a2) <= fst (_calculate_intensity a1).
Proof.
  intros Ht Hc Hs.
  unfold _calculate_intensity.
  rewrite Ht, (Qltb_compat _ _ 0.5 Hc).
  destruct (Qltb_reflect (SkillAssessment.score a1) SKILL_STRUGGLING) as [L1|L1];
  [| destruct (Qltb_reflect (SkillAssessment.score a1) SKILL_LEARNING) as [L2|L2];
     [| destruct (Qltb_reflect (SkillAssessment.score a1) SKILL_PROFICIENT) as [L3|L3]]];
  (destruct (Qltb_reflect (SkillAssessment.score a2) SKILL_STRUGGLING) as [R1|R1];
   [| destruct (Qltb_reflect (SkillAssessment.score a2) SKILL_LEARNING) as [R2|R2];
      [| destruct (Qltb_reflect (SkillAssessment.score a2) SKILL_PROFICIENT) as [R3|R3]]]);
  unfold SKILL_STRUGGLING, SKILL_LEARNING, SKILL_PROFICIENT in *;
  try (exfalso; lra);
  (destruct (String.eqb (SkillAssessment.trend a2) "regressing");
   [| destruct (String.eqb (SkillAssessment.trend a2) "improving")]);
  destruct (Qltb (SkillAssessment.confidence a2) 0.5);
  vm_compute; discriminate.
Qed.

(** C6. With the trend and the confidence fixed, the intensity does not
    increase when the score increases; representatives of the four bands
    (struggling, learning, proficient, mastered) have intensities in
    non-increasing order. *)
Theorem intensity_non_increasing_in_score :
  (forall a1 a2 : SkillAssessment.t,
     SkillAssessment.trend a1 = SkillAssessment.trend a2 ->
     SkillAssessment.confidence a1 == SkillAssessment.confidence a2 ->
     SkillAssessment.score a1 <= SkillAssessment.score a2 ->
     fst (_calculate_intensity a2) <= fst (_calculate_intensity a1)) /\
  (forall struggling learning proficient mastered : SkillAssessment.t,
     SkillAssessment.trend struggling = SkillAssessment.trend learning ->
     SkillAssessment.trend learning = SkillAssessment.trend proficient ->
     SkillAssessment.trend proficient = SkillAssessment.trend mastered ->
     SkillAssessment.confidence struggling == SkillAssessment.confidence learning ->
     SkillAssessment.confidence learning == SkillAssessment.confidence proficient ->
     SkillAssessment.confidence proficient == SkillAssessment.confidence mastered ->
     SkillAssessment.score struggling < SKILL_STRUGGLING ->
     SKILL_STRUGGLING <= SkillAssessment.score learning < SKILL_LEARNING ->
     SKILL_LEARNING <= SkillAssessment.score proficient < SKILL_PROFICIENT ->
     SKILL_PROFICIENT <= SkillAssessment.score mastered ->
     fst (_calculate_intensity mastered) <= fst (_calculate_intensity proficient) /\
     fst (_calculate_intensity proficient) <= fst (_calculate_intensity learning) /\
     fst (_calculate_intensity learning) <= fst (_calculate_intensity struggling)).
Proof.
  split.
  - apply intensity_monotone.
  - intros s l p m T1 T2 T3 C1 C2 C3 Hs Hl Hp Hm.
    unfold SKILL_STRUGGLING, SKILL_LEARNING, SKILL_PROFICIENT in *.
    repeat split; apply intensity_monotone; try assumption; lra.
Qed.

Lemma intensity_non_increasing_in_score_witness :
  (0.2 <= 0.9) /\
  fst (_calculate_intensity (sample.assessment 0.9 0.8 "stable"))
  <= fst (_calculate_intensity (sample.assessment 0.2 0.8 "stable")).
Proof.
  split; [vm_compute; discriminate |].
  apply (proj1 intensity_non_increasing_in_score);
    [reflexivity | reflexivity | vm_compute; discriminate].
Defined.

(** C7. A regressing assessment gets at least the intensity of a stable
    one with the same score and confidence, and its level is never
    "mastered". *)
Theorem regression_boost (regressing stable : SkillAssessment.t) :
  SkillAssessment.trend regressing = "regressing" ->
  SkillAssessment.trend stable = "stable" ->
  SkillAssessment.score regressing == SkillAssessment.score stable ->
  SkillAssessment.confidence regressing == SkillAssessment.confidence stable ->
  fst (_calculate_intensity stable) <= fst (_calculate_intensity regressing) /\
  snd (_calculate_intensity regressing) <> "mastered".
Proof.
  intros Hr Hs Hsc Hc. split; [| by apply regressing_never_mastered].
  unfold _calculate_intensity.
  rewrite Hr, Hs, (Qltb_compat _ _ 0.5 Hc),
    (Qltb_compat _ _ SKILL_STRUGGLING Hsc), (Qltb_compat _ _ SKILL_LEARNING Hsc),
    (Qltb_compat _ _ SKILL_PROFICIENT Hsc).
  destruct (Qltb _ SKILL_STRUGGLING); [| destruct (Qltb _ SKILL_LEARNING);
    [| destruct (Qltb _ SKILL_PROFICIENT)]];
  destruct (Qltb _ 0.5); vm_compute; discriminate.
Qed.

Lemma regression_boost_witness :
  fst (_calculate_intensity (sample.assessment 0.9 0.8 "stable"))
  <= fst (_calculate_intensity (sample.assessment 0.9 0.8 "regressing")) /\
  snd (_calculate_intensity (sample.assessment 0.9 0.8 "regressing")) <> "mastered".
Proof.
  apply regression_boost; reflexivity.
Defined.

End intensity.

(** ** The method monad *)

Lemma mbind_unfold {S A B} (k : A -> M S B) (c : M S A) (s : S) :
  mbind k c s =
  match c s with
  | (Return a, s') => k a s'
  | (Raise e, s') => (Raise e, s')
  | (Untyped, s') => (Untyped, s')
  end.
Proof. reflexivity. Qed.

Lemma mbind_return {S A B} (k : A -> M S B) (c : M S A) (s s' : S) (a : A) :
  c s = (Return a, s') -> mbind k c s = k a s'.
Proof. intros E. by rewrite mbind_unfold, E. Qed.

Lemma mbind_raise {S A B} (k : A -> M S B) (c : M S A) (s s' : S) (e : exn) :
  c s = (Raise e, s') -> mbind k c s = (Raise e, s').
Proof. intros E. by rewrite mbind_unfold, E. Qed.

(** ** The assessors return *)

Section detector.
Context {py : PyRuntime}.
Local Open Scope Q_scope.

Lemma _calculate_trend_returns (now : Z) (name : string) (score : Q) (d : t) :
  exists trend,
    _calculate_trend now name score d =
    (Return trend,
     {| skill_history :=
          <[name := last_n 10 (default [] (skill_history d !! name) ++ [(score, now)])]>
            (skill_history d) |}).
Proof.
  unfold _calculate_trend. rewrite mbind_unfold. cbn [get].
  rewrite mbind_unfold. cbn [modify].
  repeat match goal with |- context [if ?b then _ else _] => destruct b end;
    eexists; reflexivity.
Qed.

Lemma search_ability_returns (tracker : behavior_tracker.t) (now : Z) (d : t) :
  let total := behavior_tracker.SearchPatterns.total_searches
                 (behavior_tracker.get_search_patterns tracker now 30) in
  exists a d',
    _assess_search_ability tracker now d = (Return a, d') /\
    SkillAssessment.samples_count a = total /\
    ((total < 3)%nat ->
       a = neutral "search_ability" "Not enough search data" now total) /\
    ((3 <= total)%nat ->
       SkillAssessment.confidence a = Qmin (Qofnat total / 20) 1.0).
Proof.
  intros total. unfold _assess_search_ability. cbv zeta. fold total.
  destruct (Nat.ltb_spec total 3) as [Hlt|Hge].
  - eexists _, _. split; [reflexivity|]. split; [reflexivity|].
    split; [done | lia].
  - match goal with |- context [_calculate_trend ?n ?s ?x] =>
      destruct (_calculate_trend_returns n s x d) as [trend E] end.
    rewrite mbind_unfold, E.
    eexists _, _. split; [reflexivity|]. split; [reflexivity|].
    split; [lia | done].
Qed.

Lemma naming_sample_size (tracker : behavior_tracker.t) :
  behavior_tracker.NamingPreferences.sample_size
    (behavior_tracker.get_naming_preferences tracker)
  = length (behavior_tracker.renames tracker).
Proof.
  unfold behavior_tracker.get_naming_preferences.
  by destruct (behavior_tracker.renames tracker).
Qed.

Lemma naming_patterns_learned (tracker : behavior_tracker.t) :
  behavior_tracker.renames tracker <> [] ->
  is_Some (behavior_tracker.NamingPreferences.learned_patterns
             (behavior_tracker.get_naming_preferences tracker)).
Proof.
  unfold behavior_tracker.get_naming_preferences.
  destruct (behavior_tracker.renames tracker); [done|]. intros _. by eexists.
Qed.

Lemma naming_consistency_returns (tracker : behavior_tracker.t) (now : Z) (d : t) :
  let total := length (behavior_tracker.renames tracker) in
  exists a d',
    _assess_naming_consistency tracker now d = (Return a, d') /\
    SkillAssessment.samples_count a = total /\
    ((total < 5)%nat ->
       a = neutral "naming_consistency" "Not enough naming data" now total) /\
    ((5 <= total)%nat ->
       SkillAssessment.confidence a = Qmin (Qofnat total / 15) 1.0).
Proof.
  intros total. unfold _assess_naming_consistency. cbv zeta.
  rewrite naming_sample_size. fold total.
  destruct (Nat.ltb_spec total 5) as [Hlt|Hge].
  - eexists _, _. split; [reflexivity|]. split; [reflexivity|].
    split; [done | lia].
  - destruct (naming_patterns_learned tracker) as [patterns ->].
    { intros E. subst total. rewrite E in Hge. cbn in Hge. lia. }
    match goal with |- context [_calculate_trend ?n ?s ?x] =>
      destruct (_calculate_trend_returns n s x d) as [trend E] end.
    rewrite mbind_unfold, E.
    eexists _, _. split; [reflexivity|]. split; [reflexivity|].
    split; [lia | done].
Qed.

Lemma folder_organization_returns (tracker : behavior_tracker.t) (now : Z) (d : t) :
  let total := length (behavior_tracker.navigation (behavior_tracker.events tracker)) in
  exists a d',
    _assess_folder_organization tracker now d = (Return a, d') /\
    SkillAssessment.samples_count a = total /\
    ((total < 5)%nat ->
       a = neutral "folder_organization" "Not enough navigation data" now total) /\
    ((5 <= total)%nat ->
       SkillAssessment.confidence a = Qmin (Qofnat total / 20) 1.0).
Proof.
  intros total. unfold _assess_folder_organization. cbv zeta. fold total.
  destruct (Nat.ltb_spec total 5) as [Hlt|Hge].
  - eexists _, _. split; [reflexivity|]. split; [reflexivity|].
    split; [done | lia].
  - match goal with |- context [_calculate_trend ?n ?s ?x] =>
      destruct (_calculate_trend_returns n s x d) as [trend E] end.
    rewrite mbind_unfold, E.
    eexists _, _. split; [reflexivity|]. split; [reflexivity|].
    split; [lia | done].
Qed.

Lemma file_management_returns (tracker : behavior_tracker.t) (now : Z) (d : t) :
  let total := behavior_tracker.FilePatterns.total_accesses
                 (behavior_tracker.get_file_patterns tracker now 30) in
  exists a d',
    _assess_file_management tracker now d = (Return a, d') /\
    SkillAssessment.samples_count a = total /\
    ((total < 5)%nat ->
       a = neutral "file_management" "Not enough file access data" now total) /\
    ((5 <= total)%nat ->
       SkillAssessment.confidence a = Qmin (Qofnat total / 30) 1.0).
Proof.
  intros total. unfold _assess_file_management. cbv zeta. fold total.
  destruct (Nat.ltb_spec total 5) as [Hlt|Hge].
  - eexists _, _. split; [reflexivity|]. split; [reflexivity|].
    split; [done | lia].
  - match goal with |- context [_calculate_trend ?n ?s ?x] =>
      destruct (_calculate_trend_returns n s x d) as [trend E] end.
    rewrite mbind_unfold, E.
    eexists _, _. split; [reflexivity|]. split; [reflexivity|].
    split; [lia | done].
Qed.

Lemma Qofnat_le (n m : nat) : (n <= m)%nat -> Qofnat n <= Qofnat m.
Proof. intros H. unfold Qofnat. rewrite <- Zle_Qle. lia. Qed.

Lemma Qofnat_lt (n m : nat) : (n < m)%nat -> Qofnat n < Qofnat m.
Proof. intros H. unfold Qofnat. rewrite <- Zlt_Qlt. lia. Qed.

Lemma neutral_is_neutral (name reason : string) (now : Z) (n : nat) :
  is_neutral (neutral name reason now n).
Proof. repeat split; reflexivity. Qed.

(** From the two branches of an assessor to its behaviour around the minimum. *)
Lemma neutral_below_intro (assess : M t SkillAssessment.t) (d : t)
    (count minimum : nat) (divisor : Q) (name reason : string) (now : Z) :
  0.1 * divisor < Qofnat minimum -> 0 < divisor ->
  (exists a d',
     assess d = (Return a, d') /\
     SkillAssessment.samples_count a = count /\
     ((count < minimum)%nat -> a = neutral name reason now count) /\
     ((minimum <= count)%nat ->
        SkillAssessment.confidence a = Qmin (Qofnat count / divisor) 1.0)) ->
  neutral_below assess d count minimum.
Proof.
  intros Hmin Hpos (a & d' & E & Hn & Hlow & Hhigh).
  exists a, d'. split; [done|]. split; [done|]. split; [split|].
  - intros Hlt. rewrite (Hlow Hlt). apply neutral_is_neutral.
  - intros (_ & Hc & _).
    destruct (Nat.lt_ge_cases count minimum) as [|Hge]; [done|]. exfalso.
    rewrite (Hhigh Hge) in Hc.
    pose proof (Qofnat_le _ _ Hge) as Hq.
    assert (0.1 < Qofnat count / divisor) as Hd.
    { apply Qlt_shift_div_l; [done|]. lra. }
    destruct (Q.min_spec (Qofnat count / divisor) 1.0) as [[_ Hm]|[_ Hm]];
      rewrite Hm in Hc; lra.
  - intros Hlt. rewrite (Hlow Hlt). split; [cbn; lra | reflexivity].
Qed.

(** C5, as the assessors count.  Each assessor returns the neutral
    assessment (score 0.5, confidence 0.1, trend "new") exactly when its
    sample count is below its minimum, the counts being read off the event
    log: 3 searches later than 30 days before [now], 5 rename accesses that
    carry a non-empty new name (whole log), 5 navigation events (whole
    log), 5 file accesses later than 30 days before [now]; the assessment
    reports that count as [samples_count], and below the minimum the
    confidence is at most 0.1 and the trend is "new". *)
Theorem neutral_exactly_below_minimum (tracker : behavior_tracker.t) (now : Z) (d : t) :
  neutral_below (_assess_search_ability tracker now) d (searches_in_window tracker now) 3 /\
  neutral_below (_assess_naming_consistency tracker now) d (named_renames tracker now) 5 /\
  neutral_below (_assess_folder_organization tracker now) d
    (navigation_events tracker now) 5 /\
  neutral_below (_assess_file_management tracker now) d (accesses_in_window tracker now) 5.
Proof.
  repeat split.
  - eapply (neutral_below_intro _ _ _ _ 20);
      [vm_compute; reflexivity | reflexivity | apply search_ability_returns].
  - eapply (neutral_below_intro _ _ _ _ 15);
      [vm_compute; reflexivity | reflexivity | apply naming_consistency_returns].
  - eapply (neutral_below_intro _ _ _ _ 20);
      [vm_compute; reflexivity | reflexivity | apply folder_organization_returns].
  - eapply (neutral_below_intro _ _ _ _ 30);
      [vm_compute; reflexivity | reflexivity | apply file_management_returns].
Qed.





End detector.



(** C5, as the claim words it, fails for renames without a new name: seven
    rename accesses are in the log, more than the minimum of 5, and the
    naming assessment is still the neutral one, from 0 samples. *)
Lemma unnamed_renames_are_not_counted :
  exists a d',
    _assess_naming_consistency (py := sample.runtime)
      (sample.tracker_with_renames 7 None) 0 difficulty_detector.__init__
    = (Return a, d') /\
    rename_events (sample.tracker_with_renames 7 None) = 7%nat /\
    SkillAssessment.samples_count a = 0%nat /\
    is_neutral a.
Proof.
  eexists _, _. split; [vm_compute; reflexivity|].
  split; [reflexivity|]. split; [reflexivity|]. repeat split; reflexivity.
Qed.

(** ** The report is complete *)

Section report.
Context {py : PyRuntime}.

Lemma insert_by_score_Forall (P : Q * gmap string json -> Prop) x sorted :
  P x -> Forall P sorted -> Forall P (insert_by_score x sorted).
Proof.
  intros Hx. induction 1 as [|y rest Hy Hrest IH]; cbn.
  - by constructor.
  - destruct (Qltb (fst x) (fst y)); repeat constructor; done.
Qed.

Lemma sort_by_score_Forall (P : Q * gmap string json -> Prop) items :
  Forall P items -> Forall P (sort_by_score items).
Proof.
  unfold sort_by_score. generalize (@nil (Q * gmap string json)) (Forall_nil_2 P).
  induction items as [|x items IH]; intros acc Hacc Hall; cbn; [done|].
  inversion Hall; subst. apply IH; [|done]. by apply insert_by_score_Forall.
Qed.

Lemma _identify_struggles_name_skill skills :
  Forall names_skill (_identify_struggles skills).
Proof.
  unfold _identify_struggles. apply Forall_fmap.
  apply sort_by_score_Forall.
  induction skills as [|[name a] skills IH]; cbn; [constructor|].
  destruct (_ && _); cbn; [|done].
  constructor; [|done]. cbn. unfold names_skill.
  rewrite lookup_insert_eq. by eexists.
Qed.

Lemma recommend_struggles_returns (struggles : list (gmap string json)) :
  Forall names_skill struggles -> exists rs, recommend_struggles struggles = Return rs.
Proof.
  induction 1 as [|s rest [v Hv] _ [rs IH]]; cbn.
  - by eexists.
  - unfold subscript. rewrite Hv, IH. by eexists.
Qed.

Lemma _generate_recommendations_returns skills :
  exists rs, _generate_recommendations skills (_identify_struggles skills) = Return rs.
Proof.
  unfold _generate_recommendations.
  destruct (recommend_struggles_returns (take 2 (_identify_struggles skills))) as [rs ->].
  { apply Forall_take, _identify_struggles_name_skill. }
  by eexists.
Qed.

Lemma assess_all_skills_returns (tracker : behavior_tracker.t) (now : Z) (d : t) :
  exists r d',
    assess_all_skills tracker now d = (Return r, d') /\ report_complete r.
Proof.
  unfold assess_all_skills.
  destruct (search_ability_returns tracker now d) as (a1 & d1 & E1 & _).
  rewrite (mbind_return _ _ _ _ _ E1).
  destruct (naming_consistency_returns tracker now d1) as (a2 & d2 & E2 & _).
  rewrite (mbind_return _ _ _ _ _ E2).
  destruct (folder_organization_returns tracker now d2) as (a3 & d3 & E3 & _).
  rewrite (mbind_return _ _ _ _ _ E3).
  destruct (file_management_returns tracker now d3) as (a4 & d4 & E4 & _).
  rewrite (mbind_return _ _ _ _ _ E4).
  cbv zeta.
  match goal with |- context [_generate_recommendations ?s _] =>
    destruct (_generate_recommendations_returns s) as [rs Hrs] end.
  rewrite mbind_unfold. unfold lift_outcome. rewrite Hrs.
  eexists _, _. split; reflexivity.
Qed.

(** The report of a store without events: four neutral assessments. *)
Lemma report_of_empty_store (now : Z) (d : t) :
  assess_all_skills sample.empty_tracker now d =
  (Return
     {| DifficultyReport.overall_skill := 0.5;
        DifficultyReport.skills :=
          [ ("search_ability",
             neutral "search_ability" "Not enough search data" now 0);
            ("naming_consistency",
             neutral "naming_consistency" "Not enough naming data" now 0);
            ("folder_organization",
             neutral "folder_organization" "Not enough navigation data" now 0);
            ("file_management",
             neutral "file_management" "Not enough file access data" now 0) ];
        DifficultyReport.struggles := [];
        DifficultyReport.improvements := [];
        DifficultyReport.regressions := [];
        DifficultyReport.recommendations := [] |}, d).
Proof. reflexivity. Qed.

End report.

(** ** The report cache *)

Import adaptive_coach.

Section coach.
Context {py : PyRuntime} {naming : suggestion_engine.NamingPipeline}.

Lemma history_loop_returns (now : Z) (skills : list (string * SkillAssessment.t))
    (c : adaptive_coach.t) (dk : Disk) :
  exists h,
    for_each skills (fun '(name, assessment) =>
      on_self (set_state (set_skill_history (fun h =>
        <[name := last_n 100
                    (default [] (h !! name)
                     ++ [ {| HistoryEntry.date := isoformat now;
                             HistoryEntry.score := SkillAssessment.score assessment;
                             HistoryEntry.trend := SkillAssessment.trend assessment |} ])]>
          h)))) {| self := c; disk := dk |}
    = (Return tt, {| self := set_state (set_skill_history (fun _ => h)) c; disk := dk |}).
Proof.
  revert c. induction skills as [|[name a] skills IH]; intros c; cbn [for_each].
  - exists (CoachingState.skill_history (state c)). destruct c as [? ? ? [] ? ? ?]. reflexivity.
  - unfold bind at 1. unfold on_self at 1. unfold modify at 1. cbn [self disk].
    destruct (IH (set_state (set_skill_history (fun h =>
        <[name := last_n 100
                    (default [] (h !! name)
                     ++ [ {| HistoryEntry.date := isoformat now;
                             HistoryEntry.score := SkillAssessment.score a;
                             HistoryEntry.trend := SkillAssessment.trend a |} ])]>
          h)) c)) as [h E].
    rewrite E. exists h. reflexivity.
Qed.

(** What a call of [_get_difficulty_report] leaves behind. *)
Lemma _get_difficulty_report_spec (now : Z) (w : World) :
  cache_sound (self w) ->
  exists r w',
    _get_difficulty_report now w = (Return r, w') /\
    report_complete r /\
    _cached_report (self w') = Some r /\
    cache_fresh now (self w') /\
    tracker (self w') = tracker (self w) /\
    current_session (self w') = current_session (self w) /\
    CoachingState.fade_out_overrides (state (self w'))
    = CoachingState.fade_out_overrides (state (self w)) /\
    CoachingState.total_suggestions_offered (state (self w'))
    = CoachingState.total_suggestions_offered (state (self w)) /\
    CoachingState.total_suggestions_accepted (state (self w'))
    = CoachingState.total_suggestions_accepted (state (self w)) /\
    CoachingState.total_suggestions_dismissed (state (self w'))
    = CoachingState.total_suggestions_dismissed (state (self w)) /\
    ((_cached_report (self w) = Some r /\ cache_fresh now (self w)) \/
     exists d', assess_all_skills (tracker (self w)) now (detector (self w))
                = (Return r, d')).
Proof.
  intros Hs. destruct w as [c dk].
  unfold _get_difficulty_report. rewrite mbind_unfold. cbn [get self].
  assert (forall k : M World DifficultyReport.t,
    k = (report ← run_detector (assess_all_skills (tracker c) now);
    on_self (set_cached_report (Some report));;
    on_self (set_cache_time (Some now));;
    for_each (DifficultyReport.skills report) (fun '(name, assessment) =>
      on_self (set_state (set_skill_history (fun h =>
        <[name := last_n 100
                    (default [] (h !! name)
                     ++ [ {| HistoryEntry.date := isoformat now;
                             HistoryEntry.score := SkillAssessment.score assessment;
                             HistoryEntry.trend := SkillAssessment.trend assessment |} ])]>
          h))));;
    on_self (set_state (set_last_assessment (Some (isoformat now))));;
    _save_state;;
    ret report) ->
    exists r w', k {| self := c; disk := dk |} = (Return r, w') /\
    report_complete r /\
    _cached_report (self w') = Some r /\
    cache_fresh now (self w') /\
    tracker (self w') = tracker c /\
    current_session (self w') = current_session c /\
    CoachingState.fade_out_overrides (state (self w'))
    = CoachingState.fade_out_overrides (state c) /\
    CoachingState.total_suggestions_offered (state (self w'))
    = CoachingState.total_suggestions_offered (state c) /\
    CoachingState.total_suggestions_accepted (state (self w'))
    = CoachingState.total_suggestions_accepted (state c) /\
    CoachingState.total_suggestions_dismissed (state (self w'))
    = CoachingState.total_suggestions_dismissed (state c) /\
    ((_cached_report c = Some r /\ cache_fresh now c) \/
     exists d', assess_all_skills (tracker c) now (detector c) = (Return r, d')))
    as Hrefresh.
  { intros k ->.
    unfold run_detector. rewrite mbind_unfold. cbn [self disk].
    destruct (assess_all_skills_returns (tracker c) now (detector c)) as (r & d' & E & Hc).
    rewrite E.
    rewrite mbind_unfold. unfold on_self at 1, modify at 1. cbn [self disk].
    rewrite mbind_unfold. unfold on_self at 1, modify at 1. cbn [self disk].
    rewrite mbind_unfold.
    match goal with |- context [for_each _ _ {| self := ?c'; disk := ?dk' |}] =>
      destruct (history_loop_returns now (DifficultyReport.skills r) c' dk') as [h Eh] end.
    rewrite Eh.
    rewrite mbind_unfold. unfold on_self at 1, modify at 1. cbn [self disk].
    rewrite mbind_unfold. unfold _save_state, modify. cbn [self disk].
    eexists _, _. split; [reflexivity|]. split; [done|].
    split; [reflexivity|]. split.
    { exists r, now. split; [reflexivity|]. split; [reflexivity|].
      rewrite Z.sub_diag. reflexivity. }
    repeat split. right. by exists d'. }
  destruct (_cached_report c) as [r|] eqn:Ec; [destruct (_cache_time c) as [t|] eqn:Et;
    [destruct (Z.ltb_spec (now - t) _cache_duration) as [Hlt|Hge]|]|];
    try (apply Hrefresh; reflexivity).
  exists r, {| self := c; disk := dk |}. split; [reflexivity|].
  split; [by apply Hs|]. split; [done|]. split; [by exists r, t|]. repeat split.
  left. split; [done | by exists r, t].
Qed.

Lemma cache_hit (now : Z) (w : World) (r : DifficultyReport.t) :
  _cached_report (self w) = Some r -> cache_fresh now (self w) ->
  _get_difficulty_report now w = (Return r, w).
Proof.
  intros Er (r' & t & Er' & Et & Hlt).
  unfold _get_difficulty_report. rewrite mbind_unfold. cbn [get].
  rewrite Er, Et. by destruct (Z.ltb_spec (now - t) _cache_duration); [|lia].
Qed.

Lemma complete_has_naming (r : DifficultyReport.t) :
  report_complete r ->
  exists a, skills_get "naming_consistency" (DifficultyReport.skills r) = Some a.
Proof.
  unfold report_complete, skill_areas.
  destruct (DifficultyReport.skills r) as [|[n1 a1] [|[n2 a2] l]]; try discriminate.
  cbn. intros [= -> -> _]. cbn. by eexists.
Qed.

Lemma complete_has_folder (r : DifficultyReport.t) :
  report_complete r ->
  exists a, skills_get "folder_organization" (DifficultyReport.skills r) = Some a.
Proof.
  unfold report_complete, skill_areas.
  destruct (DifficultyReport.skills r) as [|[n1 a1] [|[n2 a2] [|[n3 a3] l]]]; try discriminate.
  cbn. intros [= -> -> -> _]. cbn. by eexists.
Qed.

Lemma naming_override_silences (w : World) (now : Z) (rnd : Q) (filename : string)
    (content file_path : option string) :
  cache_sound (self w) ->
  CoachingState.fade_out_overrides (state (self w)) !! "naming_consistency" = Some true ->
  exists r w',
    get_naming_suggestion now rnd filename content file_path w = (Return r, w') /\
    (SuggestionResult.intensity r == 0)%Q /\
    SuggestionResult.suggestion_type r = "none" /\
    SuggestionResult.should_show r = false.
Proof.
  intros Hs Ho.
  destruct (_get_difficulty_report_spec now w Hs)
    as (r & w' & E & Hc & _ & _ & _ & _ & Hov & _).
  unfold get_naming_suggestion. rewrite (mbind_return _ _ _ _ _ E).
  destruct (complete_has_naming r Hc) as [a ->].
  destruct (_calculate_intensity a) as [intensity level].
  rewrite mbind_unfold. cbn [get]. rewrite Hov, Ho. cbn [default].
  eexists _, _. split; [reflexivity|]. repeat split.
Qed.

Lemma folder_override_silences (w : World) (now : Z) (rnd : Q) (file_path : string)
    (available_folders : option (list string)) :
  cache_sound (self w) ->
  CoachingState.fade_out_overrides (state (self w)) !! "folder_organization" = Some true ->
  exists r w',
    get_folder_suggestion now rnd file_path available_folders w = (Return r, w') /\
    (SuggestionResult.intensity r == 0)%Q /\
    SuggestionResult.suggestion_type r = "none" /\
    SuggestionResult.should_show r = false.
Proof.
  intros Hs Ho.
  destruct (_get_difficulty_report_spec now w Hs)
    as (r & w' & E & Hc & _ & _ & _ & _ & Hov & _).
  unfold get_folder_suggestion. rewrite (mbind_return _ _ _ _ _ E).
  destruct (complete_has_folder r Hc) as [a ->].
  destruct (_calculate_intensity a) as [intensity level].
  rewrite mbind_unfold. cbn [get]. rewrite Hov, Ho. cbn [default].
  eexists _, _. split; [reflexivity|]. repeat split.
Qed.

(** C1. The computed intensity of any assessment lies in [0,1]; and a
    naming or folder suggestion requested for a skill whose override entry
    is true comes back with intensity 0, type "none" and should_show false,
    whatever the assessment of the skill and the random draw are. *)
Theorem intensity_bounded_and_override_silences :
  (forall a : SkillAssessment.t,
     (0 <= fst (_calculate_intensity a) <= 1)%Q) /\
  (forall (w : World) (now : Z) (rnd : Q) (filename : string)
          (content file_path : option string),
     cache_sound (self w) ->
     CoachingState.fade_out_overrides (state (self w)) !! "naming_consistency" = Some true ->
     exists r w',
       get_naming_suggestion now rnd filename content file_path w = (Return r, w') /\
       (SuggestionResult.intensity r == 0)%Q /\
       SuggestionResult.suggestion_type r = "none" /\
       SuggestionResult.should_show r = false) /\
  (forall (w : World) (now : Z) (rnd : Q) (file_path : string)
          (available_folders : option (list string)),
     cache_sound (self w) ->
     CoachingState.fade_out_overrides (state (self w)) !! "folder_organization" = Some true ->
     exists r w',
       get_folder_suggestion now rnd file_path available_folders w = (Return r, w') /\
       (SuggestionResult.intensity r == 0)%Q /\
       SuggestionResult.suggestion_type r = "none" /\
       SuggestionResult.should_show r = false).
Proof.
  split; [apply intensity_in_unit_interval|]. split.
  - apply naming_override_silences.
  - apply folder_override_silences.
Qed.

End coach.

Lemma intensity_bounded_and_override_silences_witness :
  exists r w',
    get_naming_suggestion (py := sample.runtime) (naming := sample.naming)
      0 0.5 "notes.md" (Some "Meeting notes about budget") None sample.silenced_world
    = (Return r, w') /\
    (SuggestionResult.intensity r == 0)%Q /\
    SuggestionResult.suggestion_type r = "none" /\
    SuggestionResult.should_show r = false.
Proof.
  apply (proj1 (proj2 (@intensity_bounded_and_override_silences
                         sample.runtime sample.naming))).
  - intros r Hr. vm_compute in Hr. discriminate.
  - vm_compute. reflexivity.
Defined.

(** ** Persistence of the coaching state *)

Lemma as_entry_to_json (e : HistoryEntry.t) : as_entry (entry_to_json e) = Some e.
Proof. destruct e. reflexivity. Qed.

Lemma as_list_fmap {A} (f : json -> option A) (g : A -> json) (l : list A) :
  (forall x, f (g x) = Some x) -> as_list f (JArr (g <$> l)) = Some l.
Proof.
  intros H. cbn. induction l as [|x l IH]; [reflexivity|].
  cbn. rewrite H. cbn. rewrite IH. reflexivity.
Qed.

Lemma as_dict_fmap {A} (f : json -> option A) (g : A -> json) (m : gmap string A) :
  (forall x, f (g x) = Some x) -> as_dict f (JObj (g <$> m)) = Some m.
Proof.
  intros H. unfold as_dict. rewrite decide_True.
  - f_equal. apply map_eq. intros i.
    rewrite lookup_omap, lookup_fmap. destruct (m !! i); cbn; [apply H | reflexivity].
  - apply map_Forall_lookup. intros i v. rewrite lookup_fmap.
    destruct (m !! i); cbn; [|discriminate]. intros [= <-]. rewrite H. by eexists.
Qed.

Lemma load_saved_state (s : CoachingState.t) :
  _load_state (Document (state_to_json s)) = Return s.
Proof.
  destruct s as [offered accepted dismissed last history overrides].
  unfold _load_state, state_to_json, dict_get.
  cbn [CoachingState.total_suggestions_offered CoachingState.total_suggestions_accepted
       CoachingState.total_suggestions_dismissed CoachingState.last_assessment
       CoachingState.skill_history CoachingState.fade_out_overrides].
  set (doc := (_ : gmap string json)).
  assert (doc !! "total_suggestions_offered" = Some (JInt offered)) as -> by reflexivity.
  assert (doc !! "total_suggestions_accepted" = Some (JInt accepted)) as -> by reflexivity.
  assert (doc !! "total_suggestions_dismissed" = Some (JInt dismissed)) as -> by reflexivity.
  assert (doc !! "last_assessment"
          = Some (match last with Some d => JStr d | None => JNull end)) as -> by reflexivity.
  assert (doc !! "skill_history"
          = Some (JObj ((fun entries => JArr (entry_to_json <$> entries)) <$> history)))
    as -> by reflexivity.
  assert (doc !! "fade_out_overrides" = Some (JObj (JBool <$> overrides))) as -> by reflexivity.
  cbn [as_int].
  rewrite (as_dict_fmap (as_list as_entry) (fun entries => JArr (entry_to_json <$> entries)))
    by (intros l; apply as_list_fmap, as_entry_to_json).
  rewrite (as_dict_fmap as_bool JBool) by done.
  by destruct last.
Qed.

(** C9. The document written by [_save_state] is read back by
    [_load_state] as the same coaching state (counters, last assessment,
    skill history, overrides), and a coach constructed over the directory
    starts from that state. *)
Theorem saved_state_reloads (w : World) :
  _load_state (state_file (disk (snd (_save_state w)))) = Return (state (self w)) /\
  adaptive_coach.__init__ (disk (snd (_save_state w))) =
    match behavior_tracker.__init__ (tracker_files (disk w)) with
    | Return tr =>
        Return {| tracker := tr;
                  detector := difficulty_detector.__init__;
                  suggester := suggestion_engine.__init__ tr;
                  state := state (self w);
                  current_session := None;
                  _cached_report := None;
                  _cache_time := None |}
    | Raise e => Raise e
    | Untyped => Untyped
    end.
Proof.
  unfold _save_state, modify, adaptive_coach.__init__. cbn [snd disk state_file tracker_files].
  rewrite load_saved_state. split; [reflexivity|].
  by destruct (behavior_tracker.__init__ _).
Qed.

(** ** Loading from a damaged directory *)

Lemma tracker_init_never_raises (fs : behavior_tracker.Files) (e : exn) :
  behavior_tracker.__init__ fs <> Raise e.
Proof.
  unfold behavior_tracker.__init__, behavior_tracker._load_json.
  destruct fs as [[] [] []]; discriminate.
Qed.

Lemma tracker_init_default (fs : behavior_tracker.Files) :
  no_document (behavior_tracker.events_file fs) ->
  no_document (behavior_tracker.sessions_file fs) ->
  no_document (behavior_tracker.stats_file fs) ->
  behavior_tracker.__init__ fs = Return sample.empty_tracker.
Proof.
  destruct fs as [[] [] []]; cbn; intros; done.
Qed.

Lemma load_state_default :
  _load_state Absent = Return CoachingState.default /\
  _load_state NotJson = Return CoachingState.default.
Proof. by split. Qed.

(** C10, as the code has it.  The tracker falls back to its defaults, but
    [_load_state] catches only JSONDecodeError and KeyError: a state file
    that holds a JSON array makes the constructor of the coach raise
    AttributeError, an unreadable one PermissionError, one that is not
    text UnicodeDecodeError. *)
Theorem constructor_surfaces_load_errors :
  adaptive_coach.__init__ sample.disk_with_array_state = Raise AttributeError /\
  _load_state (Document (JArr [])) = Raise AttributeError /\
  _load_state Unreadable = Raise PermissionError /\
  _load_state NotText = Raise UnicodeDecodeError.
Proof. repeat split. Qed.

(** ** Responses, status and the cache invariant *)

Section orchestrator.
Context {py : PyRuntime} {naming : suggestion_engine.NamingPipeline}.

Lemma no_record_organization_decision :
  "record_organization_decision" ∉ behavior_tracker.attributes.
Proof. apply (bool_decide_unpack _). vm_compute. reflexivity. Qed.

Lemma tracker_call_raises (w : World) :
  tracker_call "record_organization_decision" w = (Raise AttributeError, w).
Proof.
  unfold tracker_call. rewrite bool_decide_eq_false_2; [reflexivity|].
  apply no_record_organization_decision.
Qed.

(** C2, as the code has it.  Every call of [record_suggestion_response]
    ends with AttributeError: the counters are incremented and the state is
    written, then the call of [tracker.record_organization_decision] fails
    because the tracker has no such method (its method is
    [record_decision]); no decision event reaches the store and the cached
    report is not invalidated. *)
Theorem record_suggestion_response_raises (w : World) (suggestion_type : string)
    (accepted : bool) (original_value suggested_value final_value : string) :
  exists w',
    record_suggestion_response suggestion_type accepted
      original_value suggested_value final_value w = (Raise AttributeError, w') /\
    tracker (self w') = tracker (self w) /\
    behavior_tracker.events_file (tracker_files (disk w'))
    = behavior_tracker.events_file (tracker_files (disk w)) /\
    _cached_report (self w') = _cached_report (self w) /\
    _cache_time (self w') = _cache_time (self w) /\
    state (self w') =
      (if accepted then bump_counters 0 1 0 else bump_counters 0 0 1) (state (self w)) /\
    state_file (disk w') = Document (state_to_json (state (self w'))).
Proof.
  unfold record_suggestion_response.
  rewrite mbind_unfold. unfold on_self at 1, modify at 1.
  rewrite mbind_unfold. unfold on_self at 1, modify at 1.
  rewrite mbind_unfold. unfold _save_state at 1, modify at 1.
  rewrite mbind_unfold, tracker_call_raises.
  eexists. split; [reflexivity|]. cbn. repeat split.
Qed.

(** C3, as the code has it.  On the coach of an empty store the request
    for "notes.md" with content "Meeting notes about budget" finds the
    neutral naming assessment, hence level "learning" and intensity 0.7;
    when the draw is below 0.7 the suggestion engine is given the content
    string as its content analysis and raises AttributeError, otherwise the
    result is a faded "naming" result with should_show false. *)
Theorem fresh_naming_suggestion (now : Z) (rnd : Q) :
  adaptive_coach.__init__ sample.empty_disk = Return sample.fresh_coach /\
  fst (get_naming_suggestion now rnd "notes.md" (Some "Meeting notes about budget") None
         sample.fresh_world)
  = if Qltb rnd 0.7 then Raise AttributeError
    else Return {| SuggestionResult.suggestion_type := "naming";
                   SuggestionResult.content := None;
                   SuggestionResult.intensity := 0.7;
                   SuggestionResult.reason := "Faded out - skill level: learning";
                   SuggestionResult.skill_level := "learning";
                   SuggestionResult.should_show := false |}.
Proof.
  split; [reflexivity|].
  assert (cache_sound (self sample.fresh_world)) as Hs by (intros r Hr; discriminate).
  destruct (_get_difficulty_report_spec now sample.fresh_world Hs)
    as (r & w' & E & _ & _ & _ & _ & _ & Hov & _ & _ & _ & Hsrc).
  destruct Hsrc as [[Hr _] | [d' Hd]]; [discriminate|].
  change (tracker (self sample.fresh_world)) with sample.empty_tracker in Hd.
  rewrite report_of_empty_store in Hd. injection Hd as <- _.
  unfold get_naming_suggestion. rewrite (mbind_return _ _ _ _ _ E).
  cbn [skills_get DifficultyReport.skills String.eqb Ascii.eqb Bool.eqb].
  replace (_calculate_intensity (neutral "naming_consistency" "Not enough naming data" now 0))
    with (0.7%Q, "learning") by reflexivity.
  rewrite mbind_unfold. cbn [get]. rewrite Hov.
  change (CoachingState.fade_out_overrides (state (self sample.fresh_world))
          !! "naming_consistency") with (@None bool).
  cbn [default]. unfold _should_show_at_intensity.
  destruct (Qltb rnd 0.7); cbn [negb]; [|reflexivity].
  unfold _create_naming_result. rewrite mbind_unfold. cbn [get].
  rewrite mbind_unfold. reflexivity.
Qed.

(** C8, as the code has it.  With ten abandoned searches in the store the
    report lists search_ability as a struggle, and [get_status] raises
    KeyError: it reads the key 'area' of an entry that was built with the
    key 'skill'. *)
Theorem get_status_raises_on_struggle :
  fst (get_status DAY (sample.world_with_searches 10)) = Raise KeyError.
Proof. vm_compute. reflexivity. Qed.

Lemma get_status_repeats (w w1 : World) (now1 now2 : Z) (s : Status.t) :
  cache_sound (self w) ->
  get_status now1 w = (Return s, w1) ->
  cache_fresh now2 (self w1) ->
  get_status now2 w1 = (Return s, w1).
Proof.
  intros Hs H Hfresh.
  destruct (_get_difficulty_report_spec now1 w Hs) as (r & w' & E & _ & Hr & _).
  unfold get_status in H. rewrite (mbind_return _ _ _ _ _ E) in H.
  assert (w1 = w') as ->.
  { revert H. cbv zeta. rewrite mbind_unfold. cbn [get].
    unfold lift_outcome. rewrite !mbind_unfold.
    destruct (areas (DifficultyReport.struggles r)); try discriminate.
    rewrite !mbind_unfold.
    destruct (areas (DifficultyReport.improvements r)); try discriminate.
    rewrite !mbind_unfold.
    destruct (areas (DifficultyReport.regressions r)); try discriminate.
    by intros [= _ ->]. }
  unfold get_status. rewrite (mbind_return _ _ _ _ _ (cache_hit now2 w' r Hr Hfresh)).
  exact H.
Qed.

(** [get_status] fails as soon as the report lists a struggle. *)
Lemma areas_raise (entries : list (gmap string json)) :
  entries <> [] -> Forall (fun x => x !! "area" = None) entries ->
  areas entries = Raise KeyError.
Proof.
  intros Hne Hall. destruct Hall as [|x rest Hx _]; [done|].
  cbn. unfold subscript. by rewrite Hx.
Qed.

Lemma keeps_ret {A} (a : A) : keeps_cache_sound (mret a).
Proof. by intros w. Qed.
Lemma keeps_raise {A} (e : exn) : keeps_cache_sound (raise (A := A) e).
Proof. by intros w. Qed.
Lemma keeps_untyped {A} : keeps_cache_sound (untyped (A := A)).
Proof. by intros w. Qed.
Lemma keeps_lift {A} (o : outcome A) : keeps_cache_sound (lift_outcome o).
Proof. by intros w. Qed.
Lemma keeps_get : keeps_cache_sound get.
Proof. by intros w. Qed.
Lemma keeps_bind {A B} (c : M World A) (k : A -> M World B) :
  keeps_cache_sound c -> (forall a, keeps_cache_sound (k a)) ->
  keeps_cache_sound (mbind k c).
Proof.
  intros Hc Hk w Hw. rewrite mbind_unfold. specialize (Hc w Hw).
  destruct (c w) as [[a|e|] w']; cbn in *; [by apply Hk | done | done].
Qed.
Lemma keeps_on_self (f : adaptive_coach.t -> adaptive_coach.t) :
  (forall c, _cached_report (f c) = _cached_report c \/ _cached_report (f c) = None) ->
  keeps_cache_sound (on_self f).
Proof.
  intros Hf w Hw r. cbn. destruct (Hf (self w)) as [-> | ->]; [apply Hw | discriminate].
Qed.
Lemma keeps_save : keeps_cache_sound _save_state.
Proof. by intros w. Qed.
Lemma keeps_run_tracker {A} (c : M behavior_tracker.St A) : keeps_cache_sound (run_tracker c).
Proof.
  intros w Hw. unfold run_tracker. by destruct (c _) as [o [tr fs]].
Qed.
Lemma keeps_tracker_call (name : string) : keeps_cache_sound (tracker_call name).
Proof. intros w Hw. unfold tracker_call. by destruct (bool_decide _). Qed.
Lemma keeps_report (now : Z) : keeps_cache_sound (_get_difficulty_report now).
Proof.
  intros w Hw.
  destruct (_get_difficulty_report_spec now w Hw) as (r & w' & -> & Hc & Hr & _).
  cbn. intros r'. rewrite Hr. by intros [= <-].
Qed.

Ltac keeps :=
  repeat first
    [ apply keeps_report | apply keeps_save | apply keeps_run_tracker
    | apply keeps_tracker_call
    | apply keeps_ret | apply keeps_raise | apply keeps_untyped | apply keeps_lift
    | apply keeps_get
    | apply keeps_on_self; intros ?; (by left) || (by right)
    | match goal with
      | |- keeps_cache_sound (match ?x with _ => _ end) => destruct x
      end
    | apply keeps_bind; [| intros ?] ].

(** X1. The report cache holds nothing or a report that carries the four
    skill areas: the constructor establishes this, and every method of the
    coach keeps it, also when the method raises. *)
Lemma cache_sound_invariant :
  (forall d c, adaptive_coach.__init__ d = Return c -> cache_sound c) /\
  (forall now, keeps_cache_sound (start_session now)) /\
  (forall now, keeps_cache_sound (end_session now)) /\
  (forall now rnd filename content file_path,
     keeps_cache_sound (get_naming_suggestion now rnd filename content file_path)) /\
  (forall now rnd file_path folders,
     keeps_cache_sound (get_folder_suggestion now rnd file_path folders)) /\
  (forall kind accepted original suggested final,
     keeps_cache_sound (record_suggestion_response kind accepted original suggested final)) /\
  (forall now, keeps_cache_sound (get_status now)) /\
  (forall skill disabled, keeps_cache_sound (set_fade_out_override skill disabled)) /\
  (forall skill, keeps_cache_sound (reset_skill_tracking skill)) /\
  (forall skill, keeps_cache_sound (force_re_engagement skill)) /\
  (forall now query results_count,
     keeps_cache_sound (get_search_tip now query results_count)) /\
  (forall now, keeps_cache_sound (get_fade_status now)).
Proof.
  split.
  { intros d c. unfold adaptive_coach.__init__.
    destruct (behavior_tracker.__init__ _); try discriminate.
    destruct (_load_state _); try discriminate.
    intros [= <-] r. discriminate. }
  repeat split; intros.
  - unfold start_session. keeps.
  - unfold end_session. keeps.
  - unfold get_naming_suggestion, _create_naming_result. keeps.
  - unfold get_folder_suggestion, _create_folder_result. keeps.
  - unfold record_suggestion_response. keeps.
  - unfold get_status. keeps.
  - unfold set_fade_out_override. keeps.
  - unfold reset_skill_tracking. keeps.
  - unfold force_re_engagement. keeps.
  - unfold get_search_tip. keeps.
  - unfold get_fade_status. keeps.
Qed.

End orchestrator.

(** * Further properties *)

(** ** Lists, counts and ratios *)

Lemma Qle_bool_reflect (x y : Q) : reflect (x <= y)%Q (Qle_bool x y).
Proof.
  destruct (Qle_bool x y) eqn:E; constructor.
  - by apply Qle_bool_iff.
  - intros H. apply Qle_bool_iff in H. congruence.
Qed.

Lemma last_n_length {A} (n : nat) (l : list A) : (length (last_n n l) <= n)%nat.
Proof. unfold last_n. rewrite length_drop. lia. Qed.

Lemma last_n_length_le {A} (n : nat) (l : list A) : (length (last_n n l) <= length l)%nat.
Proof. unfold last_n. rewrite length_drop. lia. Qed.


Lemma filter_length_le {A} (p : A -> bool) (l : list A) :
  (length (List.filter p l) <= length l)%nat.
Proof. induction l as [|x l IH]; cbn; [lia|]. destruct (p x); cbn; lia. Qed.

Lemma omap_length_le {A B} (f : A -> option B) (l : list A) :
  (length (omap f l) <= length l)%nat.
Proof. induction l as [|x l IH]; cbn; [lia|]. destruct (f x); cbn; lia. Qed.

Lemma count_if_le {A} (p : A -> bool) (l : list A) :
  (behavior_tracker.count_if p l <= length l)%nat.
Proof. apply filter_length_le. Qed.

Section ratios.
Local Open Scope Q_scope.

Lemma ratio_unit (n m : nat) :
  (n <= m)%nat -> (0 < m)%nat -> 0 <= Qofnat n / Qofnat m <= 1.
Proof.
  intros Hle Hpos.
  pose proof (Qofnat_le _ _ Hle). pose proof (Qofnat_lt _ _ Hpos).
  pose proof (Qofnat_le 0 n ltac:(lia)).
  change (Qofnat 0) with 0 in *.
  split.
  - apply Qle_shift_div_l; [done|]. lra.
  - apply Qle_shift_div_r; [done|]. lra.
Qed.

Lemma Qofnat_nonneg (n : nat) : 0 <= Qofnat n.
Proof. change 0 with (Qofnat 0). apply Qofnat_le. lia. Qed.

Lemma ratio_nonneg (n m : nat) : (0 < m)%nat -> 0 <= Qofnat n / Qofnat m.
Proof.
  intros Hm. apply Qle_shift_div_l.
  - change 0 with (Qofnat 0). by apply Qofnat_lt.
  - pose proof (Qofnat_nonneg n). lra.
Qed.

Lemma Zratio_unit (a t : Z) :
  (0 <= a <= t)%Z -> (0 < t)%Z -> 0 <= inject_Z a / inject_Z t <= 1.
Proof.
  intros [Ha Hat] Ht.
  rewrite Zle_Qle in Ha, Hat. rewrite Zlt_Qlt in Ht.
  change (inject_Z 0) with 0 in *.
  split.
  - apply Qle_shift_div_l; [done|]. lra.
  - apply Qle_shift_div_r; [done|]. lra.
Qed.

Lemma one_minus_min_unit (x : Q) : 0 <= 1.0 - Qmin x 1.0.
Proof. pose proof (Q.le_min_r x 1.0). lra. Qed.

Lemma one_minus_min_le (x : Q) : 0 <= x -> 1.0 - Qmin x 1.0 <= 1.
Proof.
  intros Hx. destruct (Q.min_spec x 1.0) as [[_ E]|[_ E]]; rewrite E; lra.
Qed.

End ratios.

(** ** The intensity bands *)

Section intensity_bands.
Import adaptive_coach.
Local Open Scope Q_scope.

Ltac bands a :=
  destruct (Qltb_reflect (SkillAssessment.score a) SKILL_STRUGGLING);
  [| destruct (Qltb_reflect (SkillAssessment.score a) SKILL_LEARNING);
     [| destruct (Qltb_reflect (SkillAssessment.score a) SKILL_PROFICIENT)]];
  unfold SKILL_STRUGGLING, SKILL_LEARNING, SKILL_PROFICIENT in *.

(** X2. Suggestions for a skill are faded out (intensity at most
    [INTENSITY_MINIMAL]) exactly when its score is at least
    [SKILL_PROFICIENT], its trend is not "regressing" and the confidence of
    the assessment is at least 0.5. *)
Theorem faded_out_exactly_when_mastered (a : SkillAssessment.t) :
  fst (_calculate_intensity a) <= INTENSITY_MINIMAL <->
  SKILL_PROFICIENT <= SkillAssessment.score a /\
  SkillAssessment.trend a <> "regressing" /\
  0.5 <= SkillAssessment.confidence a.
Proof.
  unfold _calculate_intensity, INTENSITY_MINIMAL.
  destruct (String.eqb_spec (SkillAssessment.trend a) "regressing") as [Hr|Hr];
  [| destruct (String.eqb_spec (SkillAssessment.trend a) "improving") as [Hi|Hi]];
  destruct (Qltb_reflect (SkillAssessment.confidence a) 0.5) as [Hc|Hc];
  bands a; cbn [fst];
  (split; [intros H; try (exfalso; vm_compute in H; apply H; reflexivity)
          | intros (H1 & H2 & H3); try (exfalso; lra); try done]);
  try (split; [lra | split; [done | lra]]);
  try (vm_compute; discriminate).
Qed.

(** X3. An assessment with confidence below 0.5 is never coached below the
    regular intensity, whatever its score and trend. *)
Theorem low_confidence_keeps_regular_intensity (a : SkillAssessment.t) :
  SkillAssessment.confidence a < 0.5 ->
  INTENSITY_REGULAR <= fst (_calculate_intensity a).
Proof.
  intros Hc. unfold _calculate_intensity.
  destruct (Qltb_reflect (SkillAssessment.confidence a) 0.5) as [_|H]; [|done].
  destruct (Qltb _ SKILL_STRUGGLING); [| destruct (Qltb _ SKILL_LEARNING);
    [| destruct (Qltb _ SKILL_PROFICIENT)]];
  (destruct (String.eqb (SkillAssessment.trend a) "regressing");
   [| destruct (String.eqb (SkillAssessment.trend a) "improving")]);
  vm_compute; discriminate.
Qed.

Lemma low_confidence_keeps_regular_intensity_witness :
  INTENSITY_REGULAR <= fst (_calculate_intensity (sample.assessment 0.95 0.2 "improving")).
Proof.
  apply low_confidence_keeps_regular_intensity. reflexivity.
Defined.

(** X4. With the same score and confidence, an "improving" assessment gets
    at most the intensity of one whose trend is not "regressing", and the
    same level. *)
Theorem improving_lowers_intensity (improving other : SkillAssessment.t) :
  SkillAssessment.trend improving = "improving" ->
  SkillAssessment.trend other <> "regressing" ->
  SkillAssessment.score improving == SkillAssessment.score other ->
  SkillAssessment.confidence improving == SkillAssessment.confidence other ->
  fst (_calculate_intensity improving) <= fst (_calculate_intensity other) /\
  snd (_calculate_intensity improving) = snd (_calculate_intensity other).
Proof.
  intros Hi Ho Hsc Hc. unfold _calculate_intensity.
  rewrite Hi, (Qltb_compat _ _ 0.5 Hc),
    (Qltb_compat _ _ SKILL_STRUGGLING Hsc), (Qltb_compat _ _ SKILL_LEARNING Hsc),
    (Qltb_compat _ _ SKILL_PROFICIENT Hsc).
  destruct (String.eqb_spec (SkillAssessment.trend other) "regressing"); [done|].
  cbn [String.eqb Ascii.eqb Bool.eqb].
  destruct (Qltb _ SKILL_STRUGGLING); [| destruct (Qltb _ SKILL_LEARNING);
    [| destruct (Qltb _ SKILL_PROFICIENT)]];
  destruct (String.eqb (SkillAssessment.trend other) "improving");
  destruct (Qltb _ 0.5); (split; [vm_compute; discriminate | reflexivity]).
Qed.

Lemma improving_lowers_intensity_witness :
  fst (_calculate_intensity (sample.assessment 0.5 0.8 "improving"))
  <= fst (_calculate_intensity (sample.assessment 0.5 0.8 "stable")) /\
  snd (_calculate_intensity (sample.assessment 0.5 0.8 "improving"))
  = snd (_calculate_intensity (sample.assessment 0.5 0.8 "stable")).
Proof.
  apply improving_lowers_intensity;
    [reflexivity | vm_compute; discriminate | reflexivity | reflexivity].
Defined.

End intensity_bands.

(** ** Trends and scores of the detector *)

Section detector_scores.
Import difficulty_detector.
Context {py : PyRuntime}.
Local Open Scope Q_scope.


(** X6. The first two assessments of a skill have trend "new", the third
    one "stable" (both windows of the comparison are then the same three
    scores); later trends are "improving", "stable" or "regressing". *)
Theorem trend_of_early_assessments (now : Z) (name : string) (score : Q) (d : t) :
  let earlier := length (default [] (skill_history d !! name)) in
  let trend := fst (_calculate_trend now name score d) in
  ((earlier < 2)%nat -> trend = Return "new") /\
  (earlier = 2%nat -> trend = Return "stable") /\
  ((2 <= earlier)%nat ->
     trend = Return "improving" \/ trend = Return "stable" \/ trend = Return "regressing").
Proof.
  cbv zeta. unfold _calculate_trend. rewrite mbind_unfold. cbn [get].
  rewrite mbind_unfold. cbn [modify].
  set (history := default [] (skill_history d !! name) ++ [(score, now)]).
  assert (length history = S (length (default [] (skill_history d !! name)))) as Hlen.
  { unfold history. rewrite length_app. cbn. lia. }
  rewrite Hlen.
  destruct (Nat.ltb_spec (S (length (default [] (skill_history d !! name)))) 3) as [H3|H3].
  { split; [done|]. split; intros; lia. }
  split; [intros; lia|]. split.
  - intros H2. rewrite H2. cbn [Nat.ltb Nat.leb].
    destruct (Qltb_reflect 0.1 (mean (fst <$> last_n 3 history)
                                - mean (fst <$> last_n 3 history))) as [H|H].
    { exfalso. lra. }
    unfold Qgtb.
    destruct (Qltb_reflect 0.1 (mean (fst <$> last_n 3 history)
                                - mean (fst <$> last_n 3 history))) as [H'|H']; [done|].
    destruct (Qltb_reflect (mean (fst <$> last_n 3 history)
                            - mean (fst <$> last_n 3 history)) (-0.1)) as [H''|H''];
      [exfalso; lra | reflexivity].
  - intros _.
    repeat match goal with |- context [if ?b then _ else _] => destruct b end; auto.
Qed.

Lemma _calculate_trend_spec (now : Z) (name : string) (score : Q) (d : t) :
  exists trend,
    _calculate_trend now name score d =
    (Return trend,
     {| skill_history :=
          <[name := last_n 10 (default [] (skill_history d !! name) ++ [(score, now)])]>
            (skill_history d) |}) /\
    ((length (default [] (skill_history d !! name)) < 2)%nat -> trend = "new"%string).
Proof.
  unfold _calculate_trend. rewrite mbind_unfold. cbn [get].
  rewrite mbind_unfold. cbn [modify]. rewrite length_app. cbn [length].
  destruct (Nat.ltb_spec (length (default [] (skill_history d !! name)) + 1) 3) as [H|H].
  - eexists. by split.
  - repeat match goal with |- context [if ?b then _ else _] => destruct b end;
      (eexists; split; [reflexivity | intros; lia]).
Qed.

Lemma success_rate_unit (searches : list behavior_tracker.SearchEvent.t) :
  0 <= behavior_tracker._calculate_success_rate searches <= 1.
Proof.
  destruct searches as [|s l]; [by vm_compute|].
  unfold behavior_tracker._calculate_success_rate.
  apply ratio_unit; [apply filter_length_le | cbn; lia].
Qed.

Lemma search_ability_assessed (tracker : behavior_tracker.t) (now : Z) (d : t) :
  exists a d',
    _assess_search_ability tracker now d = (Return a, d') /\
    0 <= SkillAssessment.score a <= 1 /\
    (forall other, other <> "search_ability"%string ->
       skill_history d' !! other = skill_history d !! other) /\
    ((length (default [] (skill_history d !! "search_ability")) < 2)%nat ->
       SkillAssessment.trend a = "new"%string).
Proof.
  unfold _assess_search_ability. cbv zeta.
  unfold behavior_tracker.get_search_patterns. cbv zeta.
  cbn [behavior_tracker.SearchPatterns.total_searches
       behavior_tracker.SearchPatterns.success_rate
       behavior_tracker.SearchPatterns.failed_queries
       behavior_tracker.SearchPatterns.search_refinements].
  set (recent := List.filter _ (behavior_tracker.searches _)).
  destruct (Nat.ltb_spec (length recent) 3) as [Hlt|Hge].
  { eexists _, _. split; [reflexivity|]. split; [by vm_compute|]. by split. }
  match goal with |- context [_calculate_trend ?n ?s ?x] =>
    destruct (_calculate_trend_spec n s x d) as (trend & E & Hnew) end.
  rewrite mbind_unfold, E.
  eexists _, _. split; [reflexivity|]. cbn [SkillAssessment.score].
  split; [|split; [intros other Ho; cbn [skill_history]; by apply lookup_insert_ne | exact Hnew]].
  pose proof (success_rate_unit recent) as Hs.
  match goal with |- context [Qofnat (length (last_n 10 (omap ?f recent))) / _] =>
    pose proof (ratio_unit (length (last_n 10 (omap f recent))) (length recent)
                  ltac:(etrans; [apply last_n_length_le | apply omap_length_le])
                  ltac:(lia)) as Hr end.
  match goal with |- context [Qofnat (length (last_n 10 (?g <$> List.filter ?p recent))) / _] =>
    pose proof (ratio_unit (length (last_n 10 (g <$> List.filter p recent))) (length recent)
                  ltac:(etrans; [apply last_n_length_le |
                                 rewrite length_fmap; apply filter_length_le])
                  ltac:(lia)) as Hf end.
  lra.
Qed.

(** X7. [_assess_search_ability] always returns, with a score between 0
    and 1. *)
Theorem search_score_in_unit_interval (tracker : behavior_tracker.t) (now : Z) (d : t) :
  exists a d',
    _assess_search_ability tracker now d = (Return a, d') /\
    0 <= SkillAssessment.score a <= 1.
Proof.
  destruct (search_ability_assessed tracker now d) as (a & d' & E & Hb & _).
  by exists a, d'.
Qed.

(** What [get_naming_preferences] counts is bounded by the number of
    renames it learned from. *)
Lemma naming_counts_bounded_by_sample (tracker : behavior_tracker.t) :
  let prefs := behavior_tracker.get_naming_preferences tracker in
  let n := behavior_tracker.NamingPreferences.sample_size prefs in
  n = length (behavior_tracker.renames tracker) /\
  (behavior_tracker.NamingPreferences.learned_patterns prefs = None <-> n = 0%nat) /\
  forall p, behavior_tracker.NamingPreferences.learned_patterns prefs = Some p ->
    (behavior_tracker.Patterns.uses_dates p <= n)%nat /\
    (behavior_tracker.Patterns.uses_underscores p <= n)%nat /\
    (behavior_tracker.Patterns.uses_hyphens p <= n)%nat /\
    (behavior_tracker.Patterns.uses_camelCase p <= n)%nat /\
    (behavior_tracker.Patterns.uses_lowercase p <= n)%nat /\
    (length (behavior_tracker.Patterns.uses_prefixes p) <= 5)%nat /\
    0 <= behavior_tracker.Patterns.date_frequency p <= 1.
Proof.
  cbv zeta. unfold behavior_tracker.get_naming_preferences.
  destruct (behavior_tracker.renames tracker) as [|r rs] eqn:E.
  { cbn. split; [done|]. split; [done|]. intros p [=]. }
  set (l := r :: rs). assert (0 < length l)%nat as Hpos by (cbn; lia). clearbody l.
  cbn [behavior_tracker.NamingPreferences.sample_size
       behavior_tracker.NamingPreferences.learned_patterns].
  split; [done|]. split; [split; [discriminate | lia]|].
  intros p [= <-]. cbn [behavior_tracker.Patterns.uses_dates
    behavior_tracker.Patterns.uses_underscores behavior_tracker.Patterns.uses_hyphens
    behavior_tracker.Patterns.uses_camelCase behavior_tracker.Patterns.uses_lowercase
    behavior_tracker.Patterns.uses_prefixes behavior_tracker.Patterns.date_frequency].
  set (names := (fun a => default ""%string (behavior_tracker.FileAccessEvent.new_name a))
                  <$> l).
  assert (length names = length l) as Hn by apply length_fmap.
  rewrite <- Hn.
  repeat (split; [apply count_if_le|]).
  split; [rewrite length_take; lia|].
  apply ratio_unit; [apply count_if_le | lia].
Qed.

Lemma naming_counts (tracker : behavior_tracker.t) (p : behavior_tracker.Patterns.t) :
  behavior_tracker.NamingPreferences.learned_patterns
    (behavior_tracker.get_naming_preferences tracker) = Some p ->
  let n := length (behavior_tracker.renames tracker) in
  (behavior_tracker.Patterns.uses_underscores p <= n)%nat /\
  (behavior_tracker.Patterns.uses_hyphens p <= n)%nat /\
  (behavior_tracker.Patterns.uses_lowercase p <= n)%nat.
Proof.
  unfold behavior_tracker.get_naming_preferences.
  destruct (behavior_tracker.renames tracker) as [|r rs] eqn:E; [discriminate|].
  set (l := r :: rs). clearbody l.
  intros [= <-]. cbn [behavior_tracker.Patterns.uses_underscores
    behavior_tracker.Patterns.uses_hyphens behavior_tracker.Patterns.uses_lowercase].
  set (names := (fun a => default ""%string (behavior_tracker.FileAccessEvent.new_name a))
                  <$> l).
  assert (length names = length l) as Hn by apply length_fmap.
  cbv zeta. rewrite <- Hn. repeat split; apply count_if_le.
Qed.

Lemma naming_formula_bounds (u h l bonus : Q) :
  0 <= u <= 1 -> 0 <= h <= 1 -> 0 <= l <= 1 -> 0.15 <= bonus <= 0.3 ->
  13 # 30 <= Qmax (Qmax u h) (1 - u - h) * 0.4 + Qmax l (1 - l) * 0.3 + bonus <= 1.
Proof.
  intros Hu Hh Hl Hb.
  pose proof (Q.max_spec u h) as M1.
  set (m1 := Qmax u h) in *.
  pose proof (Q.max_spec m1 (1 - u - h)) as M2.
  set (m2 := Qmax m1 (1 - u - h)) in *.
  pose proof (Q.max_spec l (1 - l)) as M3.
  set (m3 := Qmax l (1 - l)) in *.
  clearbody m1 m2 m3.
  destruct M1 as [[? ?]|[? ?]], M2 as [[? ?]|[? ?]], M3 as [[? ?]|[? ?]]; lra.
Qed.

Lemma naming_consistency_assessed (tracker : behavior_tracker.t) (now : Z) (d : t) :
  exists a d',
    _assess_naming_consistency tracker now d = (Return a, d') /\
    13 # 30 <= SkillAssessment.score a <= 1 /\
    Qltb (SkillAssessment.score a) THRESHOLD_STRUGGLING = false /\
    (forall other, other <> "naming_consistency"%string ->
       skill_history d' !! other = skill_history d !! other) /\
    ((length (default [] (skill_history d !! "naming_consistency")) < 2)%nat ->
       SkillAssessment.trend a = "new"%string).
Proof.
  assert (forall x : Q, 13 # 30 <= x -> Qltb x THRESHOLD_STRUGGLING = false) as Hthr.
  { intros x Ha. apply Qltb_ge. unfold THRESHOLD_STRUGGLING. lra. }
  unfold _assess_naming_consistency. cbv zeta.
  rewrite naming_sample_size.
  destruct (Nat.ltb_spec (length (behavior_tracker.renames tracker)) 5) as [Hlt|Hge].
  { eexists _, _. split; [reflexivity|]. split; [by vm_compute|].
    split; [apply Hthr; by vm_compute|]. by split. }
  destruct (naming_patterns_learned tracker) as [patterns Hp].
  { intros E. rewrite E in Hge. cbn in Hge. lia. }
  rewrite Hp.
  destruct (naming_counts tracker patterns Hp) as (Hu & Hh & Hl).
  match goal with |- context [_calculate_trend ?n ?s ?x] =>
    destruct (_calculate_trend_spec n s x d) as (trend & E & Hnew) end.
  rewrite mbind_unfold, E.
  eexists _, _. split; [reflexivity|]. cbn [SkillAssessment.score].
  set (n := length (behavior_tracker.renames tracker)) in *.
  match goal with |- ?lo <= ?e <= ?hi /\ _ =>
    assert (lo <= e <= hi) as Hb
  end.
  { apply naming_formula_bounds; try (apply ratio_unit; lia).
    destruct (match behavior_tracker.Patterns.uses_prefixes patterns with
              | [] => false | (_, count) :: _ => (3 <=? count)%nat end);
      split; by vm_compute. }
  split; [exact Hb|]. split; [apply Hthr; apply Hb|].
  split; [intros other Ho; cbn [skill_history]; by apply lookup_insert_ne | exact Hnew].
Qed.

(** X8. [_assess_naming_consistency] always returns, with a score between
    13/30 and 1: the naming skill is never below [THRESHOLD_STRUGGLING]. *)
Theorem naming_score_never_struggling (tracker : behavior_tracker.t) (now : Z) (d : t) :
  exists a d',
    _assess_naming_consistency tracker now d = (Return a, d') /\
    13 # 30 <= SkillAssessment.score a <= 1 /\
    Qltb (SkillAssessment.score a) THRESHOLD_STRUGGLING = false.
Proof.
  destruct (naming_consistency_assessed tracker now d) as (a & d' & E & Hb & Hs & _).
  by exists a, d'.
Qed.

Lemma effectiveness_rates (tracker : behavior_tracker.t) :
  counters_nonnegative tracker ->
  let e := behavior_tracker.get_suggestion_effectiveness tracker in
  let total := behavior_tracker.SuggestionEffectiveness.total_suggestions e in
  0 <= behavior_tracker.SuggestionEffectiveness.acceptance_rate e <= 1 /\
  0 <= behavior_tracker.SuggestionEffectiveness.rejection_rate e <= 1 /\
  0 <= behavior_tracker.SuggestionEffectiveness.customization_rate e <= 1 /\
  (total = 0%Z ->
     behavior_tracker.SuggestionEffectiveness.effective e = None /\
     behavior_tracker.SuggestionEffectiveness.acceptance_rate e == 0) /\
  (total <> 0%Z ->
     behavior_tracker.SuggestionEffectiveness.acceptance_rate e
     + behavior_tracker.SuggestionEffectiveness.rejection_rate e
     + behavior_tracker.SuggestionEffectiveness.customization_rate e == 1 /\
     is_Some (behavior_tracker.SuggestionEffectiveness.effective e)).
Proof.
  intros (Ha & Hr & Hc). cbv zeta. unfold behavior_tracker.get_suggestion_effectiveness.
  set (a := behavior_tracker.suggestions_accepted _) in *.
  set (r := behavior_tracker.suggestions_rejected _) in *.
  set (c := behavior_tracker.suggestions_customized _) in *.
  destruct (Z.eqb_spec (a + r + c) 0) as [Hz|Hz]; cbn.
  { repeat split; try lra; try done. }
  assert (0 < a + r + c)%Z as Hpos by lia.
  pose proof (Zratio_unit a (a + r + c) ltac:(lia) Hpos).
  pose proof (Zratio_unit r (a + r + c) ltac:(lia) Hpos).
  pose proof (Zratio_unit c (a + r + c) ltac:(lia) Hpos).
  split; [done|]. split; [done|]. split; [done|]. split; [done|]. intros _.
  assert (~ inject_Z (a + r + c) == 0) as Hne.
  { rewrite Zlt_Qlt in Hpos. change (inject_Z 0) with 0 in Hpos. lra. }
  split; [|by eexists].
  rewrite (inject_Z_plus (a + r) c), (inject_Z_plus a r) in *. field. done.
Qed.

Lemma file_management_assessed
    (tracker : behavior_tracker.t) (now : Z) (d : t) :
  exists a d',
    _assess_file_management tracker now d = (Return a, d') /\
    (counters_nonnegative tracker -> 0 <= SkillAssessment.score a <= 1) /\
    (forall other, other <> "file_management"%string ->
       skill_history d' !! other = skill_history d !! other) /\
    ((length (default [] (skill_history d !! "file_management")) < 2)%nat ->
       SkillAssessment.trend a = "new"%string).
Proof.
  unfold _assess_file_management. cbv zeta.
  match goal with |- context [(?n <? 5)%nat] =>
    destruct (Nat.ltb_spec n 5) as [Hlt|Hge] end.
  { eexists _, _. split; [reflexivity|]. split; [intros _; by vm_compute|]. by split. }
  match goal with |- context [_calculate_trend ?n ?s ?x] =>
    destruct (_calculate_trend_spec n s x d) as (trend & E & Hnew) end.
  rewrite mbind_unfold, E.
  eexists _, _. split; [reflexivity|]. cbn [SkillAssessment.score].
  split; [|split; [intros other Ho; cbn [skill_history]; by apply lookup_insert_ne | exact Hnew]].
  intros Hnn.
  destruct (effectiveness_rates tracker Hnn) as (Hacc & _ & Hcus & _ & Hsum).
  set (by_type := behavior_tracker.FilePatterns.by_access_type _).
  set (eff := behavior_tracker.get_suggestion_effectiveness tracker) in *.
  set (ratio := Qofnat (default 0%nat (by_type !! "rename"))
                / Qofnat (Nat.max (default 1%nat (by_type !! "open")) 1)).
  assert (0 <= ratio) as Hratio by (apply ratio_nonneg; lia).
  assert (0 <= ratio / 0.3) as Hr3.
  { apply Qle_shift_div_l; [reflexivity | lra]. }
  pose proof (one_minus_min_unit (ratio / 0.3)) as R1.
  pose proof (one_minus_min_le (ratio / 0.3) Hr3) as R2.
  set (rename_score := 1.0 - Qmin (ratio / 0.3) 1.0) in *.
  set (types := length (List.filter _ (snd <$> map_to_list by_type))).
  assert (0 <= Qofnat types / 4) as Hv.
  { apply Qle_shift_div_l; [reflexivity|]. pose proof (Qofnat_nonneg types). lra. }
  assert (0 <= Qmin (Qofnat types / 4) 1.0 <= 1) as V.
  { destruct (Q.min_spec (Qofnat types / 4) 1.0) as [[? ->]|[? ->]]; lra. }
  set (variety := Qmin (Qofnat types / 4) 1.0) in *.
  set (acc := behavior_tracker.SuggestionEffectiveness.acceptance_rate eff) in *.
  set (cus := behavior_tracker.SuggestionEffectiveness.customization_rate eff) in *.
  clearbody rename_score variety.
  destruct (0 <? _)%Z eqn:Hpos; [|lra].
  assert (acc + cus <= 1) as Hac.
  { destruct Hsum as [Hs _].
    { intros Hz. rewrite Hz in Hpos. discriminate. }
    pose proof (effectiveness_rates tracker Hnn) as (_ & Hrej & _).
    fold eff in Hrej. lra. }
  lra.
Qed.

(** X9. When the suggestion counters are not negative,
    [_assess_file_management] returns a score between 0 and 1. *)
Theorem file_management_score_in_unit_interval
    (tracker : behavior_tracker.t) (now : Z) (d : t) :
  counters_nonnegative tracker ->
  exists a d',
    _assess_file_management tracker now d = (Return a, d') /\
    0 <= SkillAssessment.score a <= 1.
Proof.
  intros Hnn.
  destruct (file_management_assessed tracker now d) as (a & d' & E & Hb & _).
  exists a, d'. split; [exact E | by apply Hb].
Qed.

Lemma folder_organization_assessed (tracker : behavior_tracker.t) (now : Z) (d : t) :
  exists a d',
    _assess_folder_organization tracker now d = (Return a, d') /\
    0 <= SkillAssessment.score a /\
    (forall other, other <> "folder_organization"%string ->
       skill_history d' !! other = skill_history d !! other) /\
    ((length (default [] (skill_history d !! "folder_organization")) < 2)%nat ->
       SkillAssessment.trend a = "new"%string).
Proof.
  unfold _assess_folder_organization. cbv zeta.
  match goal with |- context [(?n <? 5)%nat] =>
    destruct (Nat.ltb_spec n 5) as [Hlt|Hge] end.
  { eexists _, _. split; [reflexivity|]. split; [by vm_compute|]. by split. }
  match goal with |- context [_calculate_trend ?n ?s ?x] =>
    destruct (_calculate_trend_spec n s x d) as (trend & E & Hnew) end.
  rewrite mbind_unfold, E.
  eexists _, _. split; [reflexivity|]. cbn [SkillAssessment.score].
  split; [|split; [intros other Ho; cbn [skill_history]; by apply lookup_insert_ne | exact Hnew]].
  match goal with |- 0 <= ?t * 0.3 + ?dp * 0.35 + ?sc * 0.35 =>
    assert (0 <= t) as Ht by apply one_minus_min_unit;
    assert (0 <= dp) as Hd;
    [| assert (0 <= sc) as Hsc; [| lra]]
  end.
  - destruct (List.filter _ _); [by vm_compute | apply one_minus_min_unit].
  - destruct (decide _); [by vm_compute | apply one_minus_min_unit].
Qed.

(** X16. [_assess_folder_organization] always returns, and the score of its
    assessment is never negative. *)
Theorem folder_score_never_negative (tracker : behavior_tracker.t) (now : Z) (d : t) :
  exists a d',
    _assess_folder_organization tracker now d = (Return a, d') /\
    0 <= SkillAssessment.score a.
Proof.
  destruct (folder_organization_assessed tracker now d) as (a & d' & E & Hb & _).
  by exists a, d'.
Qed.

(** The report of [assess_all_skills]: the four assessments, their score
    bounds, and trend "new" for a skill with fewer than two earlier trend
    entries. *)
Lemma assess_all_skills_assessed (tracker : behavior_tracker.t) (now : Z) (d : t) :
  exists r d' search naming folder files,
    assess_all_skills tracker now d = (Return r, d') /\
    DifficultyReport.skills r
    = [ ("search_ability", search); ("naming_consistency", naming);
        ("folder_organization", folder); ("file_management", files) ]%string /\
    0 <= SkillAssessment.score search <= 1 /\
    0 <= SkillAssessment.score naming <= 1 /\
    0 <= SkillAssessment.score folder /\
    (counters_nonnegative tracker -> 0 <= SkillAssessment.score files <= 1) /\
    forall name a, (name, a) ∈ DifficultyReport.skills r ->
      (length (default [] (skill_history d !! name)) < 2)%nat ->
      SkillAssessment.trend a = "new"%string.
Proof.
  unfold assess_all_skills.
  destruct (search_ability_assessed tracker now d) as (a1 & d1 & E1 & B1 & F1 & N1).
  rewrite (mbind_return _ _ _ _ _ E1).
  destruct (naming_consistency_assessed tracker now d1) as (a2 & d2 & E2 & B2 & _ & F2 & N2).
  rewrite (mbind_return _ _ _ _ _ E2).
  destruct (folder_organization_assessed tracker now d2) as (a3 & d3 & E3 & B3 & F3 & N3).
  rewrite (mbind_return _ _ _ _ _ E3).
  destruct (file_management_assessed tracker now d3) as (a4 & d4 & E4 & B4 & F4 & N4).
  rewrite (mbind_return _ _ _ _ _ E4).
  cbv zeta.
  match goal with |- context [_generate_recommendations ?s _] =>
    destruct (_generate_recommendations_returns s) as [rs Hrs] end.
  rewrite mbind_unfold. unfold lift_outcome. rewrite Hrs.
  eexists _, _, a1, a2, a3, a4. split; [reflexivity|]. cbn [DifficultyReport.skills].
  split; [reflexivity|]. split; [exact B1|]. split; [lra|]. split; [exact B3|].
  split; [exact B4|].
  intros name a Hin.
  rewrite !elem_of_cons, elem_of_nil in Hin.
  destruct Hin as [[= -> ->]|[[= -> ->]|[[= -> ->]|[[= -> ->]|[]]]]].
  - exact N1.
  - rewrite <- (F1 "naming_consistency"%string) by discriminate. exact N2.
  - rewrite <- (F1 "folder_organization"%string), <- (F2 "folder_organization"%string)
      by discriminate. exact N3.
  - rewrite <- (F1 "file_management"%string), <- (F2 "file_management"%string),
      <- (F3 "file_management"%string) by discriminate. exact N4.
Qed.

Lemma skills_get_elem (name : string) (skills : list (string * SkillAssessment.t))
    (a : SkillAssessment.t) :
  skills_get name skills = Some a -> (name, a) ∈ skills.
Proof.
  induction skills as [|[k b] rest IH]; cbn; [discriminate|].
  destruct (String.eqb_spec name k) as [->|_].
  - intros [= ->]. apply list_elem_of_here.
  - intros H. apply list_elem_of_further. by apply IH.
Qed.

Lemma should_show_suggestions_returns (tracker : behavior_tracker.t) (now : Z) (d : t)
    (skill_name : string) :
  exists show intensity d',
    should_show_suggestions tracker now skill_name d = (Return (show, intensity), d') /\
    (show = false -> intensity == 0) /\
    (skill_name ∉ skill_areas -> show = true /\ intensity == 0.5) /\
    ((length (default [] (skill_history d !! skill_name)) < 2)%nat ->
       show = true /\ intensity == 0.5) /\
    (counters_nonnegative tracker -> skill_name <> "folder_organization"%string ->
       0 <= intensity <= 1).
Proof.
  destruct (assess_all_skills_assessed tracker now d)
    as (r & d' & a1 & a2 & a3 & a4 & E & Hskills & B1 & B2 & B3 & B4 & Hnew).
  unfold should_show_suggestions. rewrite (mbind_return _ _ _ _ _ E).
  destruct (skills_get skill_name (DifficultyReport.skills r)) as [a|] eqn:Hget.
  2:{ eexists _, _, _. split; [reflexivity|]. cbn.
      split; [discriminate|]. split; [by split|]. split; [by split|].
      intros _ _. split; by vm_compute. }
  pose proof (skills_get_elem _ _ _ Hget) as Hin.
  assert (skill_name ∈ skill_areas) as Hname.
  { rewrite Hskills in Hin. unfold skill_areas.
    rewrite !elem_of_cons, elem_of_nil in Hin. rewrite !elem_of_cons.
    destruct Hin as [[= -> _]|[[= -> _]|[[= -> _]|[[= -> _]|[]]]]]; auto. }
  assert (counters_nonnegative tracker -> skill_name <> "folder_organization"%string ->
          0 <= SkillAssessment.score a <= 1) as Hb.
  { intros Hnn Hne. rewrite Hskills in Hin.
    rewrite !elem_of_cons, elem_of_nil in Hin.
    destruct Hin as [[= -> ->]|[[= -> ->]|[[= -> ->]|[[= -> ->]|[]]]]];
      [exact B1 | exact B2 | done | by apply B4]. }
  specialize (Hnew skill_name a Hin).
  destruct (String.eqb_spec (SkillAssessment.trend a) "new") as [Hn|Hn].
  { eexists _, _, _. split; [reflexivity|]. cbn.
    split; [discriminate|]. split; [by split|]. split; [by split|].
    intros _ _. split; by vm_compute. }
  assert (forall P : Prop, ((length (default [] (skill_history d !! skill_name)) < 2)%nat -> P))
    as Hold.
  { intros P Hlt. by apply Hnew in Hlt. }
  destruct (String.eqb (SkillAssessment.trend a) "regressing").
  { eexists _, _, _. split; [reflexivity|]. cbn [fst snd].
    split; [discriminate|]. split; [done|]. split; [apply Hold|].
    intros Hnn Hne. specialize (Hb Hnn Hne).
    destruct (Q.min_spec ((1.0 - SkillAssessment.score a) * 1.2) 1.0) as [[? ->]|[? ->]]; lra. }
  destruct (Qltb_reflect (SkillAssessment.score a) THRESHOLD_STRUGGLING) as [H1|H1].
  { eexists _, _, _. split; [reflexivity|]. cbn [fst snd].
    split; [discriminate|]. split; [done|]. split; [apply Hold|].
    intros Hnn Hne. specialize (Hb Hnn Hne). unfold THRESHOLD_STRUGGLING in *. lra. }
  destruct (Qltb_reflect (SkillAssessment.score a) THRESHOLD_LEARNING) as [H2|H2].
  { eexists _, _, _. split; [reflexivity|]. cbn [fst snd].
    split; [discriminate|]. split; [done|]. split; [apply Hold|].
    intros _ _. unfold THRESHOLD_STRUGGLING, THRESHOLD_LEARNING in *.
    split.
    - apply Qle_shift_div_l; [reflexivity | lra].
    - apply Qle_shift_div_r; [reflexivity | lra]. }
  destruct (Qltb_reflect (SkillAssessment.score a) THRESHOLD_PROFICIENT) as [H3|H3].
  { eexists _, _, _. split; [reflexivity|]. cbn [fst snd].
    split; [discriminate|]. split; [done|]. split; [apply Hold|].
    intros _ _. unfold THRESHOLD_LEARNING, THRESHOLD_PROFICIENT in *.
    assert (0 <= (0.85 - SkillAssessment.score a) / 0.15 <= 1) as [? ?].
    { split.
      - apply Qle_shift_div_l; [reflexivity | lra].
      - apply Qle_shift_div_r; [reflexivity | lra]. }
    lra. }
  eexists _, _, _. split; [reflexivity|]. cbn [fst snd].
  split; [reflexivity|]. split; [done|]. split; [apply Hold|].
  intros _ _. split; by vm_compute.
Qed.

(** X10. [should_show_suggestions] shows suggestions at intensity 0.5 for a
    name that is not a skill area and for a skill area with fewer than two
    earlier entries in the trend history of the detector, whatever the
    event log holds. *)
Theorem unassessed_skills_get_half_intensity (tracker : behavior_tracker.t) (now : Z)
    (d : t) (skill_name : string) :
  skill_name ∉ skill_areas \/
  (length (default [] (skill_history d !! skill_name)) < 2)%nat ->
  exists intensity d',
    should_show_suggestions tracker now skill_name d = (Return (true, intensity), d') /\
    intensity == 0.5.
Proof.
  intros H.
  destruct (should_show_suggestions_returns tracker now d skill_name)
    as (show & intensity & d' & E & _ & Hunknown & Hnew & _).
  destruct H as [H|H]; [apply Hunknown in H | apply Hnew in H];
    destruct H as [-> Hi]; by exists intensity, d'.
Qed.

(** X11. [get_suggestion_intensity] returns one intensity per skill area, in
    the order of its loop; when the suggestion counters are not negative,
    every intensity other than that of "folder_organization" lies between
    0 and 1. *)
Theorem suggestion_intensities_are_fractions (tracker : behavior_tracker.t) (now : Z)
    (d : t) :
  exists intensities d',
    get_suggestion_intensity tracker now d = (Return intensities, d') /\
    fst <$> intensities = skill_areas /\
    (counters_nonnegative tracker ->
     forall name intensity, (name, intensity) ∈ intensities ->
       name <> "folder_organization"%string -> 0 <= intensity <= 1).
Proof.
  unfold get_suggestion_intensity.
  destruct (should_show_suggestions_returns tracker now d "search_ability")
    as (s1 & i1 & d1 & E1 & Z1 & _ & _ & B1).
  rewrite (mbind_return _ _ _ _ _ E1).
  destruct (should_show_suggestions_returns tracker now d1 "naming_consistency")
    as (s2 & i2 & d2 & E2 & Z2 & _ & _ & B2).
  rewrite mbind_unfold, (mbind_return _ _ _ _ _ E2).
  destruct (should_show_suggestions_returns tracker now d2 "folder_organization")
    as (s3 & i3 & d3 & E3 & _).
  rewrite mbind_unfold, (mbind_return _ _ _ _ _ E3).
  destruct (should_show_suggestions_returns tracker now d3 "file_management")
    as (s4 & i4 & d4 & E4 & Z4 & _ & _ & B4).
  rewrite mbind_unfold, (mbind_return _ _ _ _ _ E4).
  rewrite !mbind_unfold.
  eexists _, _. split; [reflexivity|]. split; [reflexivity|].
  intros Hnn name intensity Hin Hne.
  rewrite !elem_of_cons, elem_of_nil in Hin.
  destruct Hin as [[= -> ->]|[[= -> ->]|[[= -> ->]|[[= -> ->]|[]]]]]; [| |done|].
  - destruct s1; [by apply B1 | by vm_compute].
  - destruct s2; [by apply B2 | by vm_compute].
  - destruct s4; [by apply B4 | by vm_compute].
Qed.

End detector_scores.

Section detector_scores_witnesses.
Import difficulty_detector.
Local Open Scope Q_scope.

Lemma file_management_score_in_unit_interval_witness :
  exists a d',
    _assess_file_management (py := sample.runtime) sample.busy_tracker 0
      difficulty_detector.__init__ = (Return a, d') /\
    0 <= SkillAssessment.score a <= 1 /\
    SkillAssessment.samples_count a = 6%nat.
Proof.
  destruct (@file_management_score_in_unit_interval sample.runtime sample.busy_tracker 0
              difficulty_detector.__init__ ltac:(vm_compute; repeat split; discriminate))
    as (a & d' & E & Hb).
  exists a, d'. split; [exact E|]. split; [exact Hb|].
  vm_compute in E. injection E as <- _. reflexivity.
Defined.

Lemma unassessed_skills_get_half_intensity_witness :
  exists intensity d',
    should_show_suggestions (py := sample.runtime) (sample.tracker_with_searches 10) 0
      "search_ability" difficulty_detector.__init__ = (Return (true, intensity), d') /\
    intensity == 0.5.
Proof.
  apply (@unassessed_skills_get_half_intensity sample.runtime).
  right. vm_compute. lia.
Defined.

End detector_scores_witnesses.

(** ** Struggles and recommendations *)

Section struggles.
Import difficulty_detector.
Local Open Scope Q_scope.

Lemma insert_by_score_perm x sorted : insert_by_score x sorted ≡ₚ x :: sorted.
Proof.
  induction sorted as [|y rest IH]; cbn; [done|].
  destruct (Qltb (fst x) (fst y)); [done|]. rewrite IH. apply Permutation_swap.
Qed.

Lemma insert_by_score_sorted x sorted :
  StronglySorted by_score sorted -> StronglySorted by_score (insert_by_score x sorted).
Proof.
  induction 1 as [|y rest Hrest IH Hy]; cbn.
  - repeat constructor.
  - destruct (Qltb_reflect (fst x) (fst y)) as [Hlt|Hge].
    + constructor; [by constructor|]. constructor; [by apply Qlt_le_weak|].
      eapply Forall_impl; [exact Hy|]. intros z Hz. unfold by_score in *.
      apply Qlt_le_weak in Hlt. by apply (Qle_trans _ (fst y)).
    + constructor; [done|]. rewrite insert_by_score_perm.
      constructor; [|done]. unfold by_score. by apply Qnot_lt_le.
Qed.

Lemma sort_by_score_sorted items :
  StronglySorted by_score (sort_by_score items) /\ sort_by_score items ≡ₚ items.
Proof.
  unfold sort_by_score.
  assert (forall acc, StronglySorted by_score acc ->
            StronglySorted by_score (foldl (fun acc x => insert_by_score x acc) acc items) /\
            foldl (fun acc x => insert_by_score x acc) acc items ≡ₚ acc ++ items) as H.
  { induction items as [|x items IH]; intros acc Hacc; cbn.
    - by rewrite app_nil_r.
    - destruct (IH (insert_by_score x acc)) as [Hs Hp]; [by apply insert_by_score_sorted|].
      split; [done|]. rewrite Hp, insert_by_score_perm. cbn. apply Permutation_middle. }
  apply (H []). constructor.
Qed.

(** X12. Every struggle [_identify_struggles] lists comes from a skill with
    score below [THRESHOLD_STRUGGLING] and confidence above 0.3, carries
    the keys "skill", "score" and "severity" (and no key "area"), and the
    list is in ascending order of score. *)
Theorem struggles_are_sorted_low_scores (skills : list (string * SkillAssessment.t)) :
  let struggles := _identify_struggles skills in
  (length struggles <= length skills)%nat /\
  (forall entry, entry ∈ struggles ->
     exists name a,
       (name, a) ∈ skills /\
       SkillAssessment.score a < THRESHOLD_STRUGGLING /\
       0.3 < SkillAssessment.confidence a /\
       entry !! "skill" = Some (JStr name) /\
       entry !! "score" = Some (JFloat (SkillAssessment.score a)) /\
       entry !! "severity"
       = Some (JStr (if Qltb (SkillAssessment.score a) 0.25 then "high" else "medium")) /\
       entry !! "area" = None) /\
  exists scores,
    Forall2 (fun entry score => entry !! "score" = Some (JFloat score)) struggles scores /\
    StronglySorted Qle scores.
Proof.
  cbv zeta. unfold _identify_struggles.
  set (pairs := omap _ skills).
  destruct (sort_by_score_sorted pairs) as [Hsorted Hperm].
  assert (Forall (fun p =>
            snd p !! "score" = Some (JFloat (fst p)) /\
            exists name a,
              (name, a) ∈ skills /\
              SkillAssessment.score a < THRESHOLD_STRUGGLING /\
              0.3 < SkillAssessment.confidence a /\
              snd p !! "skill" = Some (JStr name) /\
              snd p !! "score" = Some (JFloat (SkillAssessment.score a)) /\
              snd p !! "severity"
              = Some (JStr (if Qltb (SkillAssessment.score a) 0.25
                            then "high" else "medium")) /\
              snd p !! "area" = None) pairs) as Hpairs.
  { subst pairs. clear. induction skills as [|[name a] skills IH]; cbn; [constructor|].
    assert (Forall (fun p =>
            snd p !! "score" = Some (JFloat (fst p)) /\
            exists name0 a0,
              (name0, a0) ∈ (name, a) :: skills /\
              SkillAssessment.score a0 < THRESHOLD_STRUGGLING /\
              0.3 < SkillAssessment.confidence a0 /\
              snd p !! "skill" = Some (JStr name0) /\
              snd p !! "score" = Some (JFloat (SkillAssessment.score a0)) /\
              snd p !! "severity"
              = Some (JStr (if Qltb (SkillAssessment.score a0) 0.25
                            then "high" else "medium")) /\
              snd p !! "area" = None)
            (omap (fun '(name, assessment) =>
               if Qltb (SkillAssessment.score assessment) THRESHOLD_STRUGGLING
                  && Qgtb (SkillAssessment.confidence assessment) 0.3
               then Some (SkillAssessment.score assessment,
                       ({[ "skill" := JStr name;
                           "score" := JFloat (SkillAssessment.score assessment);
                           "evidence" := JArr (JStr <$> SkillAssessment.evidence assessment);
                           "severity" :=
                             JStr (if Qltb (SkillAssessment.score assessment) 0.25
                                   then "high" else "medium") ]} : gmap string json))
               else None) skills)) as IH'.
    { eapply Forall_impl; [exact IH|]. intros p (Hp & n0 & a0 & Hin & Hrest).
      split; [done|]. exists n0, a0. split; [by apply list_elem_of_further | done]. }
    destruct (Qltb_reflect (SkillAssessment.score a) THRESHOLD_STRUGGLING) as [Hs|Hs];
      [|exact IH'].
    unfold Qgtb. destruct (Qltb_reflect 0.3 (SkillAssessment.confidence a)) as [Hc|Hc];
      [|exact IH'].
    cbn. constructor; [|exact IH']. cbn. split; [reflexivity|].
    exists name, a. split; [apply list_elem_of_here|]. repeat split; done. }
  split; [|split].
  - rewrite length_fmap, Hperm. subst pairs. clear.
    induction skills as [|[name a] skills IH]; cbn; [lia|].
    destruct (_ && _); cbn; lia.
  - intros entry Hin. apply list_elem_of_fmap in Hin as (p & -> & Hp).
    rewrite Hperm in Hp. rewrite Forall_forall in Hpairs.
    destruct (Hpairs p Hp) as (_ & H). exact H.
  - exists (fst <$> sort_by_score pairs). split.
    + apply Forall2_fmap, Forall_Forall2_diag.
      rewrite Hperm. eapply Forall_impl; [exact Hpairs|]. by intros p [? _].
    + clear -Hsorted. induction Hsorted as [|p l Hl IH Hp]; cbn; constructor; [done|].
      apply Forall_fmap. exact Hp.
Qed.

(** X13. [_generate_recommendations] gives at most three recommendations. *)
Theorem at_most_three_recommendations (skills : list (string * SkillAssessment.t))
    (struggles : list (gmap string json)) (recommendations : list string) :
  _generate_recommendations skills struggles = Return recommendations ->
  (length recommendations <= 3)%nat.
Proof.
  unfold _generate_recommendations.
  assert (forall l rs, recommend_struggles l = Return rs -> (length rs <= length l)%nat) as H.
  { induction l as [|s l IH]; cbn; intros rs.
    - intros [= <-]. cbn. lia.
    - destruct (subscript s "skill") as [v| |]; try discriminate.
      destruct (recommend_struggles l) as [rs'| |]; try discriminate.
      intros [= <-]. rewrite length_app. specialize (IH rs' eq_refl).
      assert (length (recommendation_for v) <= 1)%nat.
      { unfold recommendation_for. repeat case_match; cbn; lia. }
      lia. }
  destruct (recommend_struggles (take 2 struggles)) as [rs| |] eqn:E; try discriminate.
  intros [= <-]. apply H in E. rewrite length_take in E.
  rewrite length_app. destruct (List.filter _ _); cbn; lia.
Qed.

Lemma at_most_three_recommendations_witness :
  exists recommendations,
    _generate_recommendations sample.struggling_skills
      (_identify_struggles sample.struggling_skills) = Return recommendations /\
    length recommendations = 3%nat /\
    (length recommendations <= 3)%nat.
Proof.
  eexists. split; [vm_compute; reflexivity|]. split; [reflexivity|].
  apply (at_most_three_recommendations sample.struggling_skills
           (_identify_struggles sample.struggling_skills)).
  vm_compute. reflexivity.
Defined.

End struggles.

(** ** The store of the tracker *)

Section tracker_store.
Import behavior_tracker.
Context {py : PyRuntime}.
Local Open Scope Q_scope.

Lemma count_keys_acc (keys : list string) (m : gmap string nat) (k : string) :
  default 0%nat (foldl (fun m k => <[k := S (default 0%nat (m !! k))]> m) m keys !! k)
  = (default 0%nat (m !! k) + count_if (String.eqb k) keys)%nat.
Proof.
  revert m. induction keys as [|k' keys IH]; intros m; cbn.
  - unfold count_if. cbn. lia.
  - rewrite IH. unfold count_if. cbn.
    destruct (String.eqb_spec k k') as [<-|Hne].
    + rewrite lookup_insert_eq. cbn. lia.
    + rewrite lookup_insert_ne by done. lia.
Qed.

Lemma count_keys_positive (keys : list string) (m : gmap string nat) :
  map_Forall (fun _ n => (0 < n)%nat) m ->
  map_Forall (fun _ n => (0 < n)%nat)
    (foldl (fun m k => <[k := S (default 0%nat (m !! k))]> m) m keys).
Proof.
  revert m. induction keys as [|k' keys IH]; intros m Hm; cbn; [done|].
  apply IH. apply map_Forall_insert_2; [lia | done].
Qed.

(** X14. [get_file_patterns] counts every access of the window once:
    [total_accesses] is the number of accesses in the window and
    [by_access_type] maps a type to the number of accesses of that type,
    with no entry for a type that does not occur. *)
Theorem access_counts_match_the_log (self : t) (now days : Z) (kind : string) :
  let patterns := get_file_patterns self now days in
  let recent :=
    List.filter (fun a => (now - days * DAY <? FileAccessEvent.timestamp a)%Z)
                (file_accesses (events self)) in
  let n := count_if (fun a => String.eqb kind (FileAccessEvent.access_type a)) recent in
  FilePatterns.total_accesses patterns = length recent /\
  default 0%nat (FilePatterns.by_access_type patterns !! kind) = n /\
  (FilePatterns.by_access_type patterns !! kind = None <-> n = 0%nat).
Proof.
  cbv zeta. unfold get_file_patterns. cbv zeta.
  cbn [FilePatterns.total_accesses FilePatterns.by_access_type].
  set (recent := List.filter _ (file_accesses (events self))).
  split; [reflexivity|].
  assert (count_if (String.eqb kind) (FileAccessEvent.access_type <$> recent)
          = count_if (fun a => String.eqb kind (FileAccessEvent.access_type a)) recent) as Hc.
  { unfold count_if. clear. induction recent as [|a l IH]; cbn; [done|].
    destruct (String.eqb _ _); cbn; by rewrite IH. }
  unfold count_keys.
  pose proof (count_keys_acc (FileAccessEvent.access_type <$> recent) ∅ kind) as H.
  rewrite lookup_empty in H. cbn in H. rewrite Hc in H.
  split; [exact H|].
  pose proof (count_keys_positive (FileAccessEvent.access_type <$> recent) ∅
                (map_Forall_empty _)) as Hpos.
  destruct (foldl _ ∅ _ !! kind) as [n|] eqn:E.
  - apply Hpos in E. cbn in H. split; [discriminate | lia].
  - cbn in H. split; [intros _; lia | done].
Qed.

Lemma ensure_session_spec (now : Z) (tr : t) (fs : Files) :
  exists cs tr1,
    ensure_session now (tr, fs) = (Return cs, (tr1, fs)) /\
    current_session tr1 = Some cs /\
    events tr1 = events tr /\
    sessions tr1 = sessions tr /\
    same_counters (stats tr1) (stats tr) /\
    match current_session tr with
    | Some open => cs = open /\ tr1 = tr
    | None =>
        cs = {| UserSession.session_id := session_digest now;
                UserSession.start_time := now; UserSession.end_time := None;
                UserSession.searches := []; UserSession.file_accesses := [];
                UserSession.navigation := []; UserSession.decisions := [] |}
    end.
Proof.
  unfold ensure_session. rewrite mbind_unfold. cbn [get].
  destruct (current_session tr) as [open|] eqn:E.
  - exists open, tr. repeat split; done.
  - eexists _, _. split; [reflexivity|]. cbn. repeat split.
Qed.

Ltac run_record E :=
  rewrite !(mbind_return _ _ _ _ _ E);
  unfold on_self, _save_data, modify;
  rewrite !mbind_unfold.

Lemma consistent_counters_nonnegative (tr : t) :
  stats_consistent tr -> counters_nonnegative tr.
Proof.
  intros (_ & _ & _ & _ & H5 & H6 & H7). unfold counters_nonnegative.
  rewrite H5, H6, H7. lia.
Qed.

(** X15. The counters of the store agree with its event log after every
    recording method and after [clear_all_data], when they did before:
    each of them returns and keeps [stats_consistent]. *)
Theorem recording_keeps_counters_consistent (tr : t) (fs : Files) (now : Z) :
  stats_consistent tr ->
  (forall query results_count clicked time_to_click refined,
     let r := record_search now query results_count clicked time_to_click refined (tr, fs) in
     fst r = Return tt /\ stats_consistent (fst (snd r))) /\
  (forall file_path access_type previous_name new_name source_path dest_path,
     let r := record_file_access now file_path access_type previous_name new_name
                source_path dest_path (tr, fs) in
     fst r = Return tt /\ stats_consistent (fst (snd r))) /\
  (forall path time_spent files_viewed action_taken,
     let r := record_navigation now path time_spent files_viewed action_taken (tr, fs) in
     fst r = Return tt /\ stats_consistent (fst (snd r))) /\
  (forall decision_type user_value file_path suggested_value context,
     let r := record_decision now decision_type user_value file_path suggested_value
                context (tr, fs) in
     fst r = Return tt /\ stats_consistent (fst (snd r))) /\
  (let r := clear_all_data (tr, fs) in
   fst r = Return tt /\ stats_consistent (fst (snd r))).
Proof.
  unfold stats_consistent, count_if.
  intros (H1 & H2 & H3 & H4 & H5 & H6 & H7).
  destruct (ensure_session_spec now tr fs)
    as (cs & tr1 & E & _ & Hev & _ & (S1 & S2 & S3 & S4 & S5 & S6 & S7) & _).
  split; [|split; [|split; [|split]]].
  - intros; cbv zeta. unfold record_search. run_record E.
    split; [reflexivity|]. cbn. rewrite Hev.
    rewrite S1, S2, S3, S4, S5, S6, S7, H1, H2, H3, H4, H5, H6, H7.
    rewrite ?List.filter_app, ?length_app. cbn.
    destruct (truthy clicked); cbn; repeat split; lia.
  - intros; cbv zeta. unfold record_file_access. run_record E.
    split; [reflexivity|]. cbn. rewrite Hev.
    rewrite S1, S2, S3, S4, S5, S6, S7, H1, H2, H3, H4, H5, H6, H7.
    rewrite ?List.filter_app, ?length_app. cbn.
    destruct (String.eqb access_type "rename"); cbn; repeat split; lia.
  - intros; cbv zeta. unfold record_navigation. run_record E.
    split; [reflexivity|]. cbn. rewrite Hev.
    rewrite S1, S2, S3, S4, S5, S6, S7, H1, H2, H3, H4, H5, H6, H7.
    repeat split.
  - intros; cbv zeta. unfold record_decision. run_record E.
    split; [reflexivity|]. cbn. rewrite Hev.
    rewrite ?List.filter_app, ?length_app. cbn.
    destruct (String.eqb_spec decision_type "approve_suggestion") as [->|N1];
      [|destruct (String.eqb_spec decision_type "reject_suggestion") as [->|N2];
        [|destruct (String.eqb_spec decision_type "custom_name") as [->|N3]]];
      cbn; rewrite S1, S2, S3, S4, S5, S6, S7, H1, H2, H3, H4, H5, H6, H7;
      repeat split; try lia;
      repeat match goal with
      | |- context [String.eqb ?d ?c] =>
          destruct (String.eqb_spec d c); [congruence|]
      end; cbn; lia.
  - cbv zeta. split; [reflexivity|]. cbn. repeat split.
Qed.

(** X17. [record_search] appends one event, stamped with the clock reading
    and the id of the current session, to the search log and to the current
    session (which it opens when there is none), leaves the other logs and
    the closed sessions as they were, and counts the search, as successful
    when a result was clicked. *)
Theorem search_is_appended_to_log_and_session (tr : t) (fs : Files) (now : Z)
    (query : string) (results_count : Z) (clicked : option string)
    (time_to_click : option Z) (refined : option string) :
  let r := record_search now query results_count clicked time_to_click refined (tr, fs) in
  let tr' := fst (snd r) in
  exists event session,
    fst r = Return tt /\
    searches (events tr') = searches (events tr) ++ [event] /\
    file_accesses (events tr') = file_accesses (events tr) /\
    navigation (events tr') = navigation (events tr) /\
    decisions (events tr') = decisions (events tr) /\
    sessions tr' = sessions tr /\
    SearchEvent.timestamp event = now /\
    SearchEvent.query event = query /\
    SearchEvent.clicked_result event = clicked /\
    SearchEvent.refined_query event = refined /\
    current_session tr' = Some session /\
    SearchEvent.session_id event = UserSession.session_id session /\
    last (UserSession.searches session) = Some event /\
    match current_session tr with
    | Some open =>
        UserSession.session_id session = UserSession.session_id open /\
        UserSession.searches session = UserSession.searches open ++ [event]
    | None =>
        UserSession.session_id session = session_digest now /\
        UserSession.searches session = [event]
    end /\
    total_searches (stats tr') = (total_searches (stats tr) + 1)%Z /\
    successful_searches (stats tr')
    = (successful_searches (stats tr) + (if truthy clicked then 1 else 0))%Z.
Proof.
  cbv zeta.
  destruct (ensure_session_spec now tr fs)
    as (cs & tr1 & E & _ & Hev & Hss & (S1 & S2 & _) & Hopen).
  unfold record_search. run_record E.
  eexists _, _. split; [reflexivity|]. cbn. rewrite Hev, Hss, S1, S2.
  repeat (split; [reflexivity|]).
  split; [apply last_snoc|].
  split; [|by split].
  destruct (current_session tr) as [open|].
  - destruct Hopen as [-> _]. by split.
  - subst cs. by split.
Qed.


(** X19. When the counters agree with the log, [get_summary] reports the
    number of logged searches, the share of them with a clicked result
    (between 0 and 1), the number of logged accesses, at most that many
    renames, and as many suggestions as decisions of the three suggestion
    types were logged. *)
Theorem summary_agrees_with_log (tr : t) :
  stats_consistent tr ->
  let s := get_summary tr in
  Summary.total_searches s = Z.of_nat (length (searches (events tr))) /\
  Summary.search_success_rate s == _calculate_success_rate (searches (events tr)) /\
  0 <= Summary.search_success_rate s <= 1 /\
  Summary.files_accessed s = Z.of_nat (length (file_accesses (events tr))) /\
  (0 <= Summary.renames s <= Summary.files_accessed s)%Z /\
  SuggestionEffectiveness.total_suggestions (Summary.suggestion_acceptance s)
  = Z.of_nat (count_if (fun x =>
                String.eqb (OrganizationDecision.decision_type x) "approve_suggestion"
                || String.eqb (OrganizationDecision.decision_type x) "reject_suggestion"
                || String.eqb (OrganizationDecision.decision_type x) "custom_name")
              (decisions (events tr))).
Proof.
  intros (H1 & H2 & H3 & H4 & H5 & H6 & H7). cbv zeta. unfold get_summary.
  cbn [Summary.total_searches Summary.search_success_rate Summary.files_accessed
       Summary.renames Summary.suggestion_acceptance].
  rewrite H1, H2, H3, H4. unfold count_if.
  split; [reflexivity|].
  assert (inject_Z (Z.of_nat (length (List.filter
            (fun s => truthy (SearchEvent.clicked_result s)) (searches (events tr)))))
          / inject_Z (Z.max (Z.of_nat (length (searches (events tr)))) 1)
          == _calculate_success_rate (searches (events tr))) as Hrate.
  { unfold _calculate_success_rate, Qofnat.
    destruct (searches (events tr)) as [|s l]; [by vm_compute|].
    rewrite Z.max_l; [reflexivity|]. cbn [length]. lia. }
  split; [exact Hrate|]. split.
  { rewrite Hrate. unfold _calculate_success_rate.
    destruct (searches (events tr)) as [|s l]; [by vm_compute|].
    pose proof (filter_length_le (fun s => truthy (SearchEvent.clicked_result s)) (s :: l)) as Hle.
    pose proof (Qofnat_le _ _ Hle) as Hq.
    pose proof (Qofnat_lt 0 (length (s :: l)) ltac:(cbn; lia)) as Hpos.
    pose proof (Qofnat_le 0 _ (Nat.le_0_l (length (List.filter
      (fun s => truthy (SearchEvent.clicked_result s)) (s :: l))))) as Hnn.
    change (Qofnat 0) with 0 in *.
    split.
    - apply Qle_shift_div_l; [done|]. lra.
    - apply Qle_shift_div_r; [done|]. lra. }
  split; [reflexivity|].
  split.
  { pose proof (filter_length_le
      (fun a => String.eqb (FileAccessEvent.access_type a) "rename")
      (file_accesses (events tr))). lia. }
  unfold get_suggestion_effectiveness. cbv zeta. rewrite H5, H6, H7. unfold count_if.
  assert (forall l : list OrganizationDecision.t,
    (Z.of_nat (length (List.filter (fun x =>
       String.eqb (OrganizationDecision.decision_type x) "approve_suggestion") l))
     + Z.of_nat (length (List.filter (fun x =>
       String.eqb (OrganizationDecision.decision_type x) "reject_suggestion") l))
     + Z.of_nat (length (List.filter (fun x =>
       String.eqb (OrganizationDecision.decision_type x) "custom_name") l)))%Z
    = Z.of_nat (length (List.filter (fun x =>
        String.eqb (OrganizationDecision.decision_type x) "approve_suggestion"
        || String.eqb (OrganizationDecision.decision_type x) "reject_suggestion"
        || String.eqb (OrganizationDecision.decision_type x) "custom_name") l))) as Hsum.
  { induction l as [|x l IH]; [reflexivity|]. cbn [List.filter].
    destruct (String.eqb_spec (OrganizationDecision.decision_type x) "approve_suggestion")
      as [->|N1]; [cbn; lia|].
    destruct (String.eqb_spec (OrganizationDecision.decision_type x) "reject_suggestion")
      as [->|N2]; [cbn; lia|].
    destruct (String.eqb_spec (OrganizationDecision.decision_type x) "custom_name")
      as [_|N3]; cbn; lia. }
  rewrite Hsum.
  destruct (Z.eqb_spec (Z.of_nat (length (List.filter (fun x =>
        String.eqb (OrganizationDecision.decision_type x) "approve_suggestion"
        || String.eqb (OrganizationDecision.decision_type x) "reject_suggestion"
        || String.eqb (OrganizationDecision.decision_type x) "custom_name")
        (decisions (events tr))))) 0) as [Hz|Hz]; cbn; [by rewrite Hz | reflexivity].
Qed.

(** X20. When the counters agree with the log, [get_suggestion_effectiveness]
    counts as many suggestions as decisions of the three suggestion types
    were logged, and its three rates lie between 0 and 1.  Without such a
    decision the rates are 0 and there is no verdict; with one, a verdict
    is given and each rate is the share of its decisions in the total. *)
Theorem suggestion_rates_partition_the_decisions (tr : t) :
  stats_consistent tr ->
  let e := get_suggestion_effectiveness tr in
  let decided kind :=
    Z.of_nat (count_if
      (fun x => String.eqb (OrganizationDecision.decision_type x) kind)
      (decisions (events tr))) in
  let total := (decided "approve_suggestion" + decided "reject_suggestion"
                + decided "custom_name")%Z in
  SuggestionEffectiveness.total_suggestions e = total /\
  0 <= SuggestionEffectiveness.acceptance_rate e <= 1 /\
  0 <= SuggestionEffectiveness.rejection_rate e <= 1 /\
  0 <= SuggestionEffectiveness.customization_rate e <= 1 /\
  (total = 0%Z ->
     SuggestionEffectiveness.effective e = None /\
     SuggestionEffectiveness.acceptance_rate e == 0 /\
     SuggestionEffectiveness.rejection_rate e == 0 /\
     SuggestionEffectiveness.customization_rate e == 0) /\
  (total <> 0%Z ->
     is_Some (SuggestionEffectiveness.effective e) /\
     SuggestionEffectiveness.acceptance_rate e
     == inject_Z (decided "approve_suggestion") / inject_Z total /\
     SuggestionEffectiveness.rejection_rate e
     == inject_Z (decided "reject_suggestion") / inject_Z total /\
     SuggestionEffectiveness.customization_rate e
     == inject_Z (decided "custom_name") / inject_Z total).
Proof.
  intros Hc. pose proof (consistent_counters_nonnegative tr Hc) as Hnn.
  destruct (effectiveness_rates tr Hnn) as (Ha & Hr & Hcu & _ & _).
  destruct Hc as (_ & _ & _ & _ & H5 & H6 & H7). cbv zeta in *.
  split; [|split; [exact Ha | split; [exact Hr | split; [exact Hcu|]]]];
    unfold get_suggestion_effectiveness; cbv zeta; rewrite H5, H6, H7;
    match goal with |- context [(?t =? 0)%Z] => destruct (Z.eqb_spec t 0) as [Hz|Hz] end;
    cbn [SuggestionEffectiveness.total_suggestions SuggestionEffectiveness.effective
         SuggestionEffectiveness.acceptance_rate SuggestionEffectiveness.rejection_rate
         SuggestionEffectiveness.customization_rate].
  - by rewrite Hz.
  - reflexivity.
  - split; [intros _; repeat split; reflexivity | intros H; contradiction].
  - split; [intros H; contradiction | intros _].
    split; [by eexists|]. repeat split; reflexivity.
Qed.

End tracker_store.

Section tracker_store_witnesses.
Import behavior_tracker.
Local Open Scope Q_scope.

Lemma recording_keeps_counters_consistent_witness :
  let r := record_search (py := sample.runtime) 0 "budget" 3 (Some "notes.md") None None
             (sample.empty_tracker, adaptive_coach.tracker_files sample.empty_disk) in
  fst r = Return tt /\ stats_consistent (fst (snd r)).
Proof.
  apply (proj1 (@recording_keeps_counters_consistent sample.runtime sample.empty_tracker
                  (adaptive_coach.tracker_files sample.empty_disk) 0
                  ltac:(vm_compute; repeat split))).
Defined.

Lemma summary_agrees_with_log_witness :
  Summary.total_searches (get_summary sample.busy_tracker) = 3%Z /\
  Summary.search_success_rate (get_summary sample.busy_tracker) == 2 # 3.
Proof.
  destruct (summary_agrees_with_log sample.busy_tracker ltac:(vm_compute; repeat split))
    as (H1 & H2 & _).
  split; [exact H1 | rewrite H2; reflexivity].
Defined.

Lemma suggestion_rates_partition_the_decisions_witness :
  is_Some (SuggestionEffectiveness.effective
             (get_suggestion_effectiveness sample.busy_tracker)) /\
  SuggestionEffectiveness.acceptance_rate (get_suggestion_effectiveness sample.busy_tracker)
  == 1 # 2.
Proof.
  destruct (proj2 (proj2 (proj2 (proj2 (proj2
    (suggestion_rates_partition_the_decisions sample.busy_tracker
       ltac:(vm_compute; repeat split))))))) as (H1 & H2 & _).
  { vm_compute. discriminate. }
  split; [exact H1 | rewrite H2; reflexivity].
Defined.

End tracker_store_witnesses.

(** ** Tips, overrides and the history of the coach *)

Section coach_more.
Import adaptive_coach.
Context {py : PyRuntime} {naming : suggestion_engine.NamingPipeline}.
Local Open Scope Q_scope.

Lemma complete_has_search (r : DifficultyReport.t) :
  report_complete r ->
  exists a, skills_get "search_ability" (DifficultyReport.skills r) = Some a.
Proof.
  unfold report_complete, skill_areas.
  destruct (DifficultyReport.skills r) as [|[n1 a1] l]; try discriminate.
  cbn. intros [= -> _]. cbn. by eexists.
Qed.

(** X21. [get_search_tip] fetches the report and returns, leaving the
    coach as the fetch left it.  With the intensity that
    [_calculate_intensity] gives the search skill of that report, it
    returns no tip exactly when that intensity is below
    [INTENSITY_OCCASIONAL], or the search had results and the score of the
    skill is [SKILL_LEARNING] or more.  A tip carries that intensity; it
    is of type "no_results" exactly when the search had no results, else
    of type "general", which is given only below [SKILL_LEARNING]. *)
Theorem search_tip_needs_occasional_intensity (w : World) (now : Z) (query : string)
    (results_count : Z) :
  cache_sound (self w) ->
  exists r a o w',
    _get_difficulty_report now w = (Return r, w') /\
    skills_get "search_ability" (DifficultyReport.skills r) = Some a /\
    get_search_tip now query results_count w = (Return o, w') /\
    (o = None <->
       fst (_calculate_intensity a) < INTENSITY_OCCASIONAL \/
       (results_count <> 0%Z /\ SKILL_LEARNING <= SkillAssessment.score a)) /\
    forall tip, o = Some tip ->
      SearchTip.intensity tip = fst (_calculate_intensity a) /\
      INTENSITY_OCCASIONAL <= SearchTip.intensity tip <= INTENSITY_FULL /\
      (SearchTip.type tip = "no_results" \/ SearchTip.type tip = "general") /\
      (SearchTip.type tip = "no_results" <-> results_count = 0%Z) /\
      (SearchTip.type tip = "general" ->
         SkillAssessment.score a < SKILL_LEARNING).
Proof.
  intros Hs.
  destruct (_get_difficulty_report_spec now w Hs) as (r & w' & E & Hc & _).
  unfold get_search_tip. rewrite (mbind_return _ _ _ _ _ E).
  destruct (complete_has_search r Hc) as [a Ha]. rewrite Ha.
  exists r, a.
  pose proof (intensity_in_unit_interval a) as Hi.
  destruct (_calculate_intensity a) as [intensity level]. cbn [fst] in *.
  destruct (Qltb_reflect intensity INTENSITY_OCCASIONAL) as [Hlt|Hge].
  { eexists _, w'. split; [exact E|]. split; [exact Ha|]. split; [reflexivity|].
    split; [split; [by left | done] | intros tip [=]]. }
  apply Qnot_lt_le in Hge.
  destruct (Z.eqb_spec results_count 0) as [Hz|Hz].
  { eexists _, w'. split; [exact E|]. split; [exact Ha|]. split; [reflexivity|].
    split.
    - split; [discriminate|]. intros [H|[H _]]; [exfalso; lra | done].
    - intros tip [= <-]. cbn. split; [reflexivity|].
      split; [split; [done | unfold INTENSITY_FULL; lra]|]. split; [by left|].
      split; [done|]. discriminate. }
  destruct (Qltb_reflect (SkillAssessment.score a) SKILL_LEARNING) as [Hl|Hl].
  - eexists _, w'. split; [exact E|]. split; [exact Ha|]. split; [reflexivity|].
    split.
    + split; [discriminate|]. intros [H|[_ H]]; exfalso; lra.
    + intros tip [= <-]. cbn. split; [reflexivity|].
      split; [split; [done | unfold INTENSITY_FULL; lra]|]. split; [by right|].
      split; [split; [discriminate | done]|]. done.
  - apply Qnot_lt_le in Hl.
    eexists _, w'. split; [exact E|]. split; [exact Ha|]. split; [reflexivity|].
    split; [split; [by right | done] | intros tip [=]].
Qed.

(** X22. [get_folder_suggestion] never shows a suggestion: it returns a
    result with [should_show] false and no content, or it raises TypeError
    (the list of folders is passed where the engine expects a path). *)
Theorem folder_suggestion_never_shown (w : World) (now : Z) (rnd : Q) (file_path : string)
    (available_folders : option (list string)) :
  cache_sound (self w) ->
  (exists r,
     fst (get_folder_suggestion now rnd file_path available_folders w) = Return r /\
     SuggestionResult.should_show r = false /\ SuggestionResult.content r = None) \/
  fst (get_folder_suggestion now rnd file_path available_folders w) = Raise TypeError.
Proof.
  intros Hs.
  destruct (_get_difficulty_report_spec now w Hs) as (r & w' & E & Hc & _).
  unfold get_folder_suggestion. rewrite (mbind_return _ _ _ _ _ E).
  destruct (complete_has_folder r Hc) as [a ->].
  destruct (_calculate_intensity a) as [intensity level].
  rewrite mbind_unfold. cbn [get].
  destruct (default false _).
  { left. eexists. split; [reflexivity|]. by split. }
  destruct (negb _).
  { left. eexists. split; [reflexivity|]. by split. }
  right. unfold _create_folder_result. rewrite mbind_unfold. cbn [get].
  rewrite mbind_unfold. reflexivity.
Qed.

(** X23. [get_naming_suggestion] counts a suggestion as offered (in the
    state and in the current session) exactly when it returns a result that
    is shown; the accepted and dismissed counters are left alone. *)
Theorem naming_suggestion_counts_displays (w : World) (now : Z) (rnd : Q)
    (filename : string) (content file_path : option string) :
  cache_sound (self w) ->
  let res := get_naming_suggestion now rnd filename content file_path w in
  let w' := snd res in
  let shown := match fst res with
               | Return r => SuggestionResult.should_show r
               | _ => false
               end in
  CoachingState.total_suggestions_offered (state (self w'))
  = (CoachingState.total_suggestions_offered (state (self w))
     + (if shown then 1 else 0))%Z /\
  current_session (self w')
  = (if shown then bump_session 1 0 0 else id) (current_session (self w)) /\
  CoachingState.total_suggestions_accepted (state (self w'))
  = CoachingState.total_suggestions_accepted (state (self w)) /\
  CoachingState.total_suggestions_dismissed (state (self w'))
  = CoachingState.total_suggestions_dismissed (state (self w)).
Proof.
  intros Hs. cbv zeta.
  destruct (get_naming_suggestion now rnd filename content file_path w) as [o w'] eqn:E.
  cbn [fst snd]. revert E.
  destruct (_get_difficulty_report_spec now w Hs)
    as (r & w1 & E & Hc & _ & _ & _ & Hcs & _ & Hoff & Hacc & Hdis & _).
  unfold get_naming_suggestion. rewrite (mbind_return _ _ _ _ _ E).
  destruct (complete_has_naming r Hc) as [a ->].
  destruct (_calculate_intensity a) as [intensity level].
  rewrite mbind_unfold. cbn [get].
  destruct (default false _).
  { intros [= <- <-]. cbn. rewrite Z.add_0_r. done. }
  destruct (negb _).
  { intros [= <- <-]. cbn. rewrite Z.add_0_r. done. }
  unfold _create_naming_result. rewrite mbind_unfold. cbn [get].
  rewrite mbind_unfold. unfold lift_outcome.
  destruct (suggestion_engine.suggest_filename _ _ _ _) as [sg|e|].
  - rewrite mbind_unfold. unfold on_self at 1, modify at 1.
    rewrite mbind_unfold. unfold on_self at 1, modify at 1.
    intros [= <- <-]. cbn. rewrite Hoff, Hcs, Hacc, Hdis.
    destruct w1 as [[? ? ? [] ? ? ?] ?]; cbn. repeat split; lia.
  - intros [= <- <-]. cbn. rewrite Z.add_0_r. done.
  - intros [= <- <-]. cbn. rewrite Z.add_0_r. done.
Qed.

(** X24. [set_fade_out_override] stores the flag for the named skill only,
    leaves the overrides of the other skills, the history and the cached
    report as they were, and writes the state: loading the file gives the
    state back. *)
Theorem override_is_stored_and_scoped (w : World) (skill : string) (disabled : bool) :
  let w' := snd (set_fade_out_override skill disabled w) in
  fst (set_fade_out_override skill disabled w) = Return tt /\
  CoachingState.fade_out_overrides (state (self w')) !! skill = Some disabled /\
  (forall other, other <> skill ->
     CoachingState.fade_out_overrides (state (self w')) !! other
     = CoachingState.fade_out_overrides (state (self w)) !! other) /\
  CoachingState.skill_history (state (self w')) = CoachingState.skill_history (state (self w)) /\
  _cached_report (self w') = _cached_report (self w) /\
  _load_state (state_file (disk w')) = Return (state (self w')).
Proof.
  unfold set_fade_out_override. rewrite mbind_unfold.
  unfold on_self, _save_state, modify. cbn [fst snd self disk state state_file].
  split; [reflexivity|]. split; [apply lookup_insert_eq|].
  split; [intros other Ho; by apply lookup_insert_ne|].
  split; [reflexivity|]. split; [reflexivity|]. apply load_saved_state.
Qed.

(** X25. [force_re_engagement] undoes [set_fade_out_override]: the override
    of the skill is removed (as if never set), its history is emptied, the
    cached report is dropped and the state is written. *)
Theorem re_engagement_clears_override (w : World) (skill : string) (disabled : bool) :
  let w1 := snd (set_fade_out_override skill disabled w) in
  let w2 := snd (force_re_engagement skill w1) in
  fst (force_re_engagement skill w1) = Return tt /\
  CoachingState.fade_out_overrides (state (self w2))
  = delete skill (CoachingState.fade_out_overrides (state (self w))) /\
  CoachingState.skill_history (state (self w2))
  = <[skill := []]> (CoachingState.skill_history (state (self w))) /\
  _cached_report (self w2) = None /\
  _load_state (state_file (disk w2)) = Return (state (self w2)).
Proof.
  unfold set_fade_out_override, force_re_engagement. rewrite !mbind_unfold.
  unfold on_self, _save_state, modify. cbn [fst snd self disk state state_file].
  rewrite !mbind_unfold. cbn [fst snd self disk state state_file].
  split; [reflexivity|]. split; [apply delete_insert_eq|].
  split; [reflexivity|]. split; [reflexivity|]. apply load_saved_state.
Qed.

(** X26. [reset_skill_tracking] empties the history of the named skill, or
    all histories when no skill (or the empty string) is given; it keeps
    the overrides, the counters and the trend history of the detector,
    drops the cached report and writes the state. *)
Theorem reset_clears_history_only (w : World) (skill : option string) :
  let w' := snd (reset_skill_tracking skill w) in
  fst (reset_skill_tracking skill w) = Return tt /\
  CoachingState.skill_history (state (self w'))
  = (if truthy skill then <[default ""%string skill := []]>
                            (CoachingState.skill_history (state (self w)))
     else ∅) /\
  CoachingState.fade_out_overrides (state (self w'))
  = CoachingState.fade_out_overrides (state (self w)) /\
  CoachingState.total_suggestions_offered (state (self w'))
  = CoachingState.total_suggestions_offered (state (self w)) /\
  detector (self w') = detector (self w) /\
  _cached_report (self w') = None /\
  _load_state (state_file (disk w')) = Return (state (self w')).
Proof.
  unfold reset_skill_tracking. rewrite !mbind_unfold.
  unfold on_self, _save_state, modify. cbn [fst snd self disk state state_file].
  rewrite !mbind_unfold. cbn [fst snd self disk state state_file].
  repeat (split; [reflexivity|]). apply load_saved_state.
Qed.

Lemma history_loop_capped (now : Z) (skills : list (string * SkillAssessment.t))
    (c : adaptive_coach.t) (dk : Disk) :
  history_capped (state c) ->
  history_capped (state (self (snd (
    for_each skills (fun '(name, assessment) =>
      on_self (set_state (set_skill_history (fun h =>
        <[name := last_n 100
                    (default [] (h !! name)
                     ++ [ {| HistoryEntry.date := isoformat now;
                             HistoryEntry.score := SkillAssessment.score assessment;
                             HistoryEntry.trend := SkillAssessment.trend assessment |} ])]>
          h)))) {| self := c; disk := dk |})))).
Proof.
  revert c. induction skills as [|[name a] skills IH]; intros c Hc; cbn [for_each].
  - done.
  - unfold bind at 1. unfold on_self at 1. unfold modify at 1. cbn [self disk].
    apply IH. unfold history_capped. cbn.
    apply map_Forall_insert_2; [apply last_n_length | done].
Qed.

(** X27. Fetching the difficulty report keeps every skill history of the
    state at 100 entries or fewer. *)
Theorem report_keeps_history_capped (w : World) (now : Z) :
  history_capped (state (self w)) ->
  history_capped (state (self (snd (_get_difficulty_report now w)))).
Proof.
  intros Hcap. destruct w as [c dk]. cbn [self] in *.
  unfold _get_difficulty_report. rewrite mbind_unfold. cbn [get self].
  assert (forall k : M World DifficultyReport.t,
    k = (report ← run_detector (assess_all_skills (tracker c) now);
    on_self (set_cached_report (Some report));;
    on_self (set_cache_time (Some now));;
    for_each (DifficultyReport.skills report) (fun '(name, assessment) =>
      on_self (set_state (set_skill_history (fun h =>
        <[name := last_n 100
                    (default [] (h !! name)
                     ++ [ {| HistoryEntry.date := isoformat now;
                             HistoryEntry.score := SkillAssessment.score assessment;
                             HistoryEntry.trend := SkillAssessment.trend assessment |} ])]>
          h))));;
    on_self (set_state (set_last_assessment (Some (isoformat now))));;
    _save_state;;
    ret report) ->
    history_capped (state (self (snd (k {| self := c; disk := dk |}))))) as Hrefresh.
  { intros k ->.
    unfold run_detector. rewrite mbind_unfold. cbn [self disk].
    destruct (assess_all_skills_returns (tracker c) now (detector c)) as (r & d' & E & Hc).
    rewrite E.
    rewrite mbind_unfold. unfold on_self at 1, modify at 1. cbn [self disk].
    rewrite mbind_unfold. unfold on_self at 1, modify at 1. cbn [self disk].
    rewrite mbind_unfold.
    match goal with |- context [for_each ?l ?b {| self := ?c'; disk := ?dk' |}] =>
      pose proof (history_loop_capped now l c' dk' Hcap) as Hloop;
      destruct (history_loop_returns now l c' dk') as [h Eh] end.
    rewrite Eh in Hloop |- *.
    rewrite mbind_unfold. unfold on_self at 1, modify at 1. cbn [self disk].
    rewrite mbind_unfold. unfold _save_state, modify. cbn [self disk snd].
    exact Hloop. }
  destruct (_cached_report c) as [r|] eqn:Ec; [destruct (_cache_time c) as [t|] eqn:Et;
    [destruct (Z.ltb_spec (now - t) _cache_duration) as [Hlt|Hge]|]|];
    try (apply Hrefresh; reflexivity).
  exact Hcap.
Qed.




Lemma faded_entry (a : SkillAssessment.t) :
  let '(intensity, level) := _calculate_intensity a in
  let faded := Qle_bool intensity INTENSITY_MINIMAL in
  let regressing := String.eqb (SkillAssessment.trend a) "regressing" in
  0 <= intensity <= 1 /\
  (faded = true -> level = "mastered"%string /\ regressing = false) /\
  (regressing = true -> faded = false /\ level <> "mastered"%string /\
                        INTENSITY_OCCASIONAL <= intensity).
Proof.
  pose proof (intensity_in_unit_interval a) as Hi.
  unfold _calculate_intensity in *.
  destruct (Qltb (SkillAssessment.score a) SKILL_STRUGGLING);
  [| destruct (Qltb (SkillAssessment.score a) SKILL_LEARNING);
     [| destruct (Qltb (SkillAssessment.score a) SKILL_PROFICIENT)]];
  (destruct (String.eqb (SkillAssessment.trend a) "regressing");
   [| destruct (String.eqb (SkillAssessment.trend a) "improving")]);
  destruct (Qltb (SkillAssessment.confidence a) 0.5);
  cbn [fst snd] in *; cbv zeta; (split; [exact Hi|]);
  (split; [intros H; first [vm_compute in H; discriminate H | by split]
          | intros H; first [discriminate H |
              split; [by vm_compute | split; [discriminate | by vm_compute]]]]).
Qed.

(** X29. [get_fade_status] always returns, with one entry per skill area in
    the order of the report; an entry that is faded out has level
    "mastered" and will not re-engage, an entry that will re-engage is not
    faded out, not "mastered" and has intensity [INTENSITY_OCCASIONAL] or
    more, and [override_disabled] is the stored override (false when none
    is stored). *)
Theorem fade_status_of_every_skill (w : World) (now : Z) :
  cache_sound (self w) ->
  exists status w',
    get_fade_status now w = (Return status, w') /\
    fst <$> status = skill_areas /\
    forall name s, (name, s) ∈ status ->
      0 <= FadeStatus.intensity s <= 1 /\
      (FadeStatus.faded_out s = true ->
         FadeStatus.level s = "mastered"%string /\ FadeStatus.will_re_engage s = false) /\
      (FadeStatus.will_re_engage s = true ->
         FadeStatus.faded_out s = false /\ FadeStatus.level s <> "mastered"%string /\
         INTENSITY_OCCASIONAL <= FadeStatus.intensity s) /\
      FadeStatus.override_disabled s
      = default false (CoachingState.fade_out_overrides (state (self w)) !! name).
Proof.
  intros Hs.
  destruct (_get_difficulty_report_spec now w Hs)
    as (r & w' & E & Hc & _ & _ & _ & _ & Hov & _).
  unfold get_fade_status. rewrite (mbind_return _ _ _ _ _ E).
  rewrite mbind_unfold. cbn [get].
  eexists _, _. split; [reflexivity|]. split.
  { rewrite <- Hc. rewrite <- list_fmap_compose. apply list_fmap_ext.
    intros _ [name a] _. cbn. by destruct (_calculate_intensity a). }
  intros name s Hin. apply list_elem_of_fmap in Hin as ([name' a] & Heq & _).
  pose proof (faded_entry a) as Ha.
  destruct (_calculate_intensity a) as [intensity level].
  injection Heq as -> ->. cbn. rewrite Hov.
  destruct Ha as (H1 & H2 & H3). done.
Qed.



End coach_more.

Section coach_more_witnesses.
Import adaptive_coach.
Local Open Scope Q_scope.

Lemma search_tip_needs_occasional_intensity_witness :
  exists tip w',
    get_search_tip (py := sample.runtime) 0 "budget" 0 sample.fresh_world
    = (Return (Some tip), w') /\
    SearchTip.type tip = "no_results"%string /\
    INTENSITY_OCCASIONAL <= SearchTip.intensity tip <= INTENSITY_FULL.
Proof.
  destruct (@search_tip_needs_occasional_intensity sample.runtime sample.fresh_world 0
              "budget" 0 ltac:(intros r Hr; vm_compute in Hr; discriminate))
    as (r & a & o & w' & Er & Ha & E & Hnone & Hsome).
  destruct o as [tip|].
  - exists tip, w'. destruct (Hsome tip eq_refl) as (_ & Hb & _ & Ht & _).
    split; [exact E|]. split; [by apply Ht | exact Hb].
  - exfalso. vm_compute in E. discriminate E.
Defined.

Lemma folder_suggestion_never_shown_witness :
  (exists r,
     fst (get_folder_suggestion (py := sample.runtime)
            0 0.5 "notes.md" (Some ["docs"]) sample.fresh_world) = Return r /\
     SuggestionResult.should_show r = false /\ SuggestionResult.content r = None) \/
  fst (get_folder_suggestion (py := sample.runtime)
         0 0.5 "notes.md" (Some ["docs"]) sample.fresh_world) = Raise TypeError.
Proof.
  apply (@folder_suggestion_never_shown sample.runtime).
  intros r Hr. vm_compute in Hr. discriminate.
Defined.

Lemma naming_suggestion_counts_displays_witness :
  CoachingState.total_suggestions_accepted
    (state (self (snd (get_naming_suggestion (py := sample.runtime)
                         (naming := sample.naming) 0 0.5 "notes.md" None None
                         sample.fresh_world))))
  = CoachingState.total_suggestions_accepted (state (self sample.fresh_world)).
Proof.
  apply (proj1 (proj2 (proj2
    (@naming_suggestion_counts_displays sample.runtime sample.naming
       sample.fresh_world 0 0.5 "notes.md" None None
       ltac:(intros r Hr; vm_compute in Hr; discriminate))))).
Defined.

Lemma report_keeps_history_capped_witness :
  history_capped
    (state (self (snd (_get_difficulty_report (py := sample.runtime) 0
                         sample.world_with_full_history)))) /\
  length <$> (CoachingState.skill_history
     (state (self (snd (_get_difficulty_report (py := sample.runtime) 0
                         sample.world_with_full_history)))) !! "search_ability")
  = Some 100%nat.
Proof.
  split.
  - apply (@report_keeps_history_capped sample.runtime).
    apply map_Forall_singleton. rewrite length_replicate. lia.
  - vm_compute. reflexivity.
Defined.


Lemma fade_status_of_every_skill_witness :
  exists status,
    fst (get_fade_status (py := sample.runtime) 0 sample.fresh_world) = Return status /\
    fst <$> status = skill_areas.
Proof.
  destruct (@fade_status_of_every_skill sample.runtime sample.fresh_world 0
              ltac:(intros r Hr; vm_compute in Hr; discriminate))
    as (status & w' & E & Hn & _).
  exists status. rewrite E. by split.
Defined.


End coach_more_witnesses.
